(** * Foodgram backend: a shallow embedding of the recipe service

    The development follows the layout of the Django project:

    - [models]       the tables of [recipes/models.py] and [users/models.py],
                     with the constraints their [Meta] classes declare;
    - [orm]          the handful of ORM operations the handlers call
                     ([get_object_or_404], [create], [bulk_create],
                     [get_or_create], the many-to-many [set], [atomic]);
    - [serializers]  [api/serializers.py], the recipe write pipeline;
    - [views]        [api/views.py], the request handlers;
    - [request]      the same handlers from the path segment and the query
                     parameter of a request, which are text, on.

    Tables are lists of rows in storage order; primary keys are [Z].
    Handlers run in a state-and-exception monad over the database. *)

From Stdlib Require Import ZArith String Ascii List Bool Lia Permutation.
From Stdlib Require Import DecimalString Sorting.Sorted.
Import ListNotations.

Local Open Scope Z_scope.
Local Open Scope list_scope.

Set Implicit Arguments.

(** ** Python helpers *)

Module py.

(** [str(n)] / [f'{n}'] for an [int]. *)
Definition str_of_int (z : Z) : string :=
  NilZero.string_of_int (Z.to_int z).

(** ['sep'.join(parts)] *)
Fixpoint join (sep : string) (parts : list string) : string :=
  match parts with
  | [] => EmptyString
  | [p] => p
  | p :: rest => (p ++ sep ++ join sep rest)%string
  end.

(** [''.join(chars)] for a list of one-character strings. *)
Definition join_chars (chars : list ascii) : string :=
  string_of_list_ascii chars.

(** [len(set(xs))] for hashable keys compared by value. *)
Definition set_of (xs : list Z) : list Z := nodup Z.eq_dec xs.

(** [not xs] for a value that is [None] or a list. *)
Definition falsy {A} (xs : option (list A)) : bool :=
  match xs with
  | None => true
  | Some [] => true
  | Some (_ :: _) => false
  end.

(** [str.isspace] on a code point below 128: tab to carriage return, the
    separators 28 to 31 and the blank. *)
Definition is_space (c : ascii) : bool :=
  let n := nat_of_ascii c in
  ((9 <=? n)%nat && (n <=? 13)%nat) || (n =? 32)%nat
  || ((28 <=? n)%nat && (n <=? 31)%nat).

(** Strings are held as UTF-8.  The other code points with [str.isspace]
    are U+0085 and U+00A0 (two bytes), U+1680, U+2000 to U+200A, U+2028,
    U+2029, U+202F, U+205F and U+3000 (three bytes). *)
Definition is_space2 (b1 b2 : nat) : bool :=
  (b1 =? 194)%nat && ((b2 =? 133) || (b2 =? 160))%nat.

Definition is_space3 (b1 b2 b3 : nat) : bool :=
  ((b1 =? 225) && (b2 =? 154) && (b3 =? 128))%nat
  || ((b1 =? 226) && (b2 =? 128)
      && (((128 <=? b3) && (b3 <=? 138)) || (b3 =? 168) || (b3 =? 169)
          || (b3 =? 175)))%nat
  || ((b1 =? 226) && (b2 =? 129) && (b3 =? 159))%nat
  || ((b1 =? 227) && (b2 =? 128) && (b3 =? 128))%nat.

(** The number of bytes of the white-space character at the head of [cs],
    0 when there is none. *)
Definition space_width (cs : list ascii) : nat :=
  match map nat_of_ascii (firstn 3 cs) with
  | b1 :: more =>
      if is_space (ascii_of_nat b1) then 1%nat
      else match more with
           | b2 :: more' =>
               if is_space2 b1 b2 then 2%nat
               else match more' with
                    | b3 :: _ => if is_space3 b1 b2 b3 then 3%nat else 0%nat
                    | [] => 0%nat
                    end
           | [] => 0%nat
           end
  | [] => 0%nat
  end.

(** The same at the end of a string, on its bytes in reverse. *)
Definition space_width_rev (cs : list ascii) : nat :=
  match map nat_of_ascii (firstn 3 cs) with
  | b3 :: more =>
      if is_space (ascii_of_nat b3) then 1%nat
      else match more with
           | b2 :: more' =>
               if is_space2 b2 b3 then 2%nat
               else match more' with
                    | b1 :: _ => if is_space3 b1 b2 b3 then 3%nat else 0%nat
                    | [] => 0%nat
                    end
           | [] => 0%nat
           end
  | [] => 0%nat
  end.

Fixpoint drop_spaces (width : list ascii -> nat) (fuel : nat) (cs : list ascii)
  : list ascii :=
  match fuel with
  | O => cs
  | S fuel' =>
      match width cs with
      | O => cs
      | w => drop_spaces width fuel' (skipn w cs)
      end
  end.

Definition lstrip (cs : list ascii) : list ascii :=
  drop_spaces space_width (length cs) cs.

Definition rstrip (cs : list ascii) : list ascii :=
  rev (drop_spaces space_width_rev (length cs) (rev cs)).

(** [s.strip()] *)
Definition strip (s : string) : string :=
  string_of_list_ascii (rstrip (lstrip (list_ascii_of_string s))).

(** [string.ascii_letters + string.digits] *)
Definition ascii_lowercase : string := "abcdefghijklmnopqrstuvwxyz".
Definition ascii_uppercase : string := "ABCDEFGHIJKLMNOPQRSTUVWXYZ".
Definition ascii_letters : string := (ascii_lowercase ++ ascii_uppercase)%string.
Definition digits : string := "0123456789".

(** *** [random.sample]

    The generator is a tape of raw draws; [randbelow n] consumes one draw and
    reduces it below [n].  A run that needs more draws than the tape holds
    yields [None]. *)

Definition randbelow (n : nat) (tape : list nat) : option (nat * list nat) :=
  match tape with
  | [] => None
  | t :: tape' => Some ((t mod n)%nat, tape')
  end.

(** [setsize] of CPython's [Random.sample]: 21, plus the table size of a
    big set when [k > 5]. *)
Definition setsize (k : nat) : nat :=
  if (5 <? k)%nat
  then (21 + 4 ^ Nat.div2 (S (Nat.log2_up (k * 3))))%nat
  else 21%nat.

(** The pool branch: [result[i] = pool[j]; pool[j] = pool[n-i-1]]. *)
Fixpoint sample_pool {A} (d : A) (k : nat) (pool : list A) (tape : list nat)
  : option (list A) :=
  match k with
  | O => Some []
  | S k' =>
      let m := length pool in
      match randbelow m tape with
      | None => None
      | Some (j, tape') =>
          let pool' :=
            firstn (m - 1) (firstn j pool ++ [nth (m - 1) pool d] ++ skipn (S j) pool) in
          option_map (cons (nth j pool d)) (sample_pool d k' pool' tape')
      end
  end.

(** [j = randbelow(n); while j in selected: j = randbelow(n)] *)
Fixpoint draw_unselected (n : nat) (selected : list nat) (tape : list nat)
  : option (nat * list nat) :=
  match tape with
  | [] => None
  | t :: tape' =>
      let j := (t mod n)%nat in
      if existsb (Nat.eqb j) selected
      then draw_unselected n selected tape'
      else Some (j, tape')
  end.

(** The set branch: [k] pairwise different positions. *)
Fixpoint sample_positions (n k : nat) (selected : list nat) (tape : list nat)
  : option (list nat) :=
  match k with
  | O => Some []
  | S k' =>
      match draw_unselected n selected tape with
      | None => None
      | Some (j, tape') =>
          option_map (cons j) (sample_positions n k' (j :: selected) tape')
      end
  end.

(** [random.sample(population, k)] for [0 <= k <= len(population)]. *)
Definition sample {A} (d : A) (population : list A) (k : nat) (tape : list nat)
  : option (list A) :=
  let n := length population in
  if (n <=? setsize k)%nat
  then sample_pool d k population tape
  else option_map (map (fun j => nth j population d))
                  (sample_positions n k [] tape).

End py.

(** ** Data model *)

Module models.

(** [users.models.User] *)
Record User := mkUser {
  user_id : Z;
  username : string;
  first_name : string;
  last_name : string
}.

(** [AbstractUser.get_full_name] *)
Definition get_full_name (u : User) : string :=
  py.strip (first_name u ++ " " ++ last_name u)%string.

(** [users.models.Subscribe]: [user] follows [author]. *)
Record Subscribe := mkSubscribe {
  subscribe_id : Z;
  subscribe_user : Z;
  subscribe_author : Z
}.

Record Tag := mkTag {
  tag_id : Z;
  tag_name : string;
  tag_slug : string
}.

Record Ingredient := mkIngredient {
  ingredient_id : Z;
  ingredient_name : string;
  measurement_unit : string
}.

(** [recipes.models.Recipe]; [pub_date] is a [DateTimeField(auto_now=True)],
    kept as a number of clock ticks. *)
Record Recipe := mkRecipe {
  recipe_id : Z;
  author : option Z;
  name : string;
  image : string;
  text : string;
  cooking_time : Z;
  pub_date : Z
}.

(** [recipes.models.IngredientInRecipe], the line item. *)
Record IngredientInRecipe := mkIngredientInRecipe {
  iir_recipe : Z;
  iir_ingredient : Z;
  iir_amount : Z
}.

(** [Favorite] and [ShoppingCart] have the same two columns. *)
Record UserRecipe := mkUserRecipe {
  ur_user : Z;
  ur_recipe : Z
}.

Record ShortLink := mkShortLink {
  original_url : string;
  short_link : string
}.

(** The two join models that [favorite_or_shopping_cart] chooses from. *)
Inductive JoinModel := Favorite | ShoppingCart.

Record DB := mkDB {
  users : list User;
  subscribes : list Subscribe;
  subscribe_seq : Z;
  tags : list Tag;
  ingredients : list Ingredient;
  recipes : list Recipe;
  recipe_seq : Z;
  recipe_tags : list (Z * Z);
  ingredient_list : list IngredientInRecipe;
  favorites : list UserRecipe;
  shopping_cart : list UserRecipe;
  short_links : list ShortLink
}.

Definition empty_db : DB :=
  mkDB [] [] 1 [] [] [] 1 [] [] [] [] [].

Definition set_subscribes (db : DB) (rows : list Subscribe) (seq : Z) : DB :=
  mkDB (users db) rows seq (tags db) (ingredients db) (recipes db)
       (recipe_seq db) (recipe_tags db) (ingredient_list db) (favorites db)
       (shopping_cart db) (short_links db).

Definition set_recipes (db : DB) (rows : list Recipe) (seq : Z) : DB :=
  mkDB (users db) (subscribes db) (subscribe_seq db) (tags db)
       (ingredients db) rows seq (recipe_tags db) (ingredient_list db)
       (favorites db) (shopping_cart db) (short_links db).

Definition set_recipe_tags (db : DB) (rows : list (Z * Z)) : DB :=
  mkDB (users db) (subscribes db) (subscribe_seq db) (tags db)
       (ingredients db) (recipes db) (recipe_seq db) rows
       (ingredient_list db) (favorites db) (shopping_cart db)
       (short_links db).

Definition set_ingredient_list (db : DB) (rows : list IngredientInRecipe) : DB :=
  mkDB (users db) (subscribes db) (subscribe_seq db) (tags db)
       (ingredients db) (recipes db) (recipe_seq db) (recipe_tags db) rows
       (favorites db) (shopping_cart db) (short_links db).

Definition set_favorites (db : DB) (rows : list UserRecipe) : DB :=
  mkDB (users db) (subscribes db) (subscribe_seq db) (tags db)
       (ingredients db) (recipes db) (recipe_seq db) (recipe_tags db)
       (ingredient_list db) rows (shopping_cart db) (short_links db).

Definition set_shopping_cart (db : DB) (rows : list UserRecipe) : DB :=
  mkDB (users db) (subscribes db) (subscribe_seq db) (tags db)
       (ingredients db) (recipes db) (recipe_seq db) (recipe_tags db)
       (ingredient_list db) (favorites db) rows (short_links db).

Definition set_short_links (db : DB) (rows : list ShortLink) : DB :=
  mkDB (users db) (subscribes db) (subscribe_seq db) (tags db)
       (ingredients db) (recipes db) (recipe_seq db) (recipe_tags db)
       (ingredient_list db) (favorites db) (shopping_cart db) rows.

Definition join_table (m : JoinModel) (db : DB) : list UserRecipe :=
  match m with
  | Favorite => favorites db
  | ShoppingCart => shopping_cart db
  end.

Definition set_join_table (m : JoinModel) (db : DB) (rows : list UserRecipe) : DB :=
  match m with
  | Favorite => set_favorites db rows
  | ShoppingCart => set_shopping_cart db rows
  end.

(** Row predicates used by [filter(...)]. *)
Definition ur_matches (user recipe : Z) (row : UserRecipe) : bool :=
  (ur_user row =? user) && (ur_recipe row =? recipe).

Definition subscribe_matches (user author : Z) (row : Subscribe) : bool :=
  (subscribe_user row =? user) && (subscribe_author row =? author).

(** [recipe.ingredient_list] as (ingredient, amount) pairs, in storage order. *)
Definition line_items_of (db : DB) (recipe : Z) : list (Z * Z) :=
  map (fun row => (iir_ingredient row, iir_amount row))
      (filter (fun row => iir_recipe row =? recipe) (ingredient_list db)).

(** [recipe.tags] as tag ids, in storage order of the through table. *)
Definition tags_of (db : DB) (recipe : Z) : list Z :=
  map snd (filter (fun row => fst row =? recipe) (recipe_tags db)).

End models.

(** ** [api/constants.py] *)

Module constants.

(** The error messages that [RecipeSerializer.validate] raises, by the
    names under which the serializer imports them. *)
Inductive Message :=
| INGREDIENTS_FIELD_EMPTY
| TAGS_FIELD_EMPTY
| COOKING_TIME_MIN_ERROR
| TAGS_EMPTY_ERROR
| TAGS_UNIQUE_ERROR
| INGREDIENTS_EMPTY_ERROR
| INGREDIENTS_UNIQUE_ERROR.

(** Modelled from the spec: [api/constants.py] is not part of the sources;
    the specification gives the bound as "Cooking time >= 1", which is also
    the [MinValueValidator(1)] of [Recipe.cooking_time]. *)
Definition COOKING_TIME_MIN_VALUE : Z := 1.

End constants.

(** ** Exceptions, the handler monad and the ORM operations *)

Module orm.
Import models constants.

Inductive Exn :=
| Http404
| IntegrityError
| MultipleObjectsReturned
| KeyError (key : string)
| ValidationError (detail : Message).

(** A computation reads and writes the database and either returns or
    raises; what was written before a raise stays written unless an
    enclosing [atomic] block undoes it. *)
Definition M (A : Type) : Type := DB -> DB * (Exn + A).

Definition ret {A} (a : A) : M A := fun db => (db, inr a).

Definition raise {A} (e : Exn) : M A := fun db => (db, inl e).

Definition bind {A B} (m : M A) (k : A -> M B) : M B :=
  fun db =>
    match m db with
    | (db', inl e) => (db', inl e)
    | (db', inr a) => k a db'
    end.

Definition gets {A} (f : DB -> A) : M A := fun db => (db, inr (f db)).

Definition modify (f : DB -> DB) : M unit := fun db => (f db, inr tt).

(** [raise] of a pure validation result. *)
Definition lift {A} (r : Exn + A) : M A := fun db => (db, r).

(** [@transaction.atomic]: a raise inside the block rolls the database back
    to where the block was entered and then propagates. *)
Definition atomic {A} (m : M A) : M A :=
  fun db =>
    match m db with
    | (_, inl e) => (db, inl e)
    | (db', inr a) => (db', inr a)
    end.

(** [try: x = body  except Http404: return handler], then [orelse x]. *)
Definition try_except_Http404 {A B} (body : M A) (handler : M B)
           (orelse : A -> M B) : M B :=
  fun db =>
    match body db with
    | (db', inl Http404) => handler db'
    | (db', inl e) => (db', inl e)
    | (db', inr x) => orelse x db'
    end.

Declare Scope orm_scope.
Delimit Scope orm_scope with orm.
Notation "x <- c ;; k" := (bind c (fun x => k))
  (at level 61, c at next level, right associativity) : orm_scope.
Notation "c ;;; k" := (bind c (fun _ => k))
  (at level 61, right associativity) : orm_scope.
Local Open Scope orm_scope.

(** [get_object_or_404(Recipe, pk=pk)] for a key [pk] that is a number.  The
    lookup by a path segment that is no number raises before any row is
    read; it is [request.get_prep_value] below. *)
Definition find_recipe (db : DB) (pk : Z) : option Recipe :=
  find (fun r => recipe_id r =? pk) (recipes db).

Definition get_recipe_or_404 (pk : Z) : M Recipe :=
  fun db =>
    match find_recipe db pk with
    | Some r => (db, inr r)
    | None => (db, inl Http404)
    end.

(** [get_object_or_404(User, id=id)], as for recipes for an [id] that is a
    number. *)
Definition find_user (db : DB) (id : Z) : option User :=
  find (fun u => user_id u =? id) (users db).

Definition get_user_or_404 (id : Z) : M User :=
  fun db =>
    match find_user db id with
    | Some u => (db, inr u)
    | None => (db, inl Http404)
    end.

(** [model.objects.filter(user=user, recipe=recipe).exists()] *)
Definition join_exists (m : JoinModel) (user recipe : Z) : M bool :=
  gets (fun db => existsb (ur_matches user recipe) (join_table m db)).

(** [model.objects.create(user=user, recipe=recipe)]; the [UniqueConstraint]
    on (user, recipe) is checked by the database. *)
Definition join_create (m : JoinModel) (user recipe : Z) : M unit :=
  fun db =>
    if existsb (ur_matches user recipe) (join_table m db)
    then (db, inl IntegrityError)
    else (set_join_table m db (join_table m db ++ [mkUserRecipe user recipe]),
          inr tt).

(** [model.objects.filter(user=user, recipe=recipe).delete()] *)
Definition join_delete (m : JoinModel) (user recipe : Z) : M unit :=
  modify (fun db =>
    set_join_table m db
      (filter (fun row => negb (ur_matches user recipe row)) (join_table m db))).

(** [Subscribe.objects.filter(user=user, author=author).exists()] *)
Definition subscription_exists (user author : Z) : M bool :=
  gets (fun db => existsb (subscribe_matches user author) (subscribes db)).

(** [Subscribe.objects.create(user=user, author=author)]: the only
    constraint of the table is [unique_subscription] on (user, author). *)
Definition Subscribe_create (user author : Z) : M unit :=
  fun db =>
    if existsb (subscribe_matches user author) (subscribes db)
    then (db, inl IntegrityError)
    else (set_subscribes db
            (subscribes db ++ [mkSubscribe (subscribe_seq db) user author])
            (subscribe_seq db + 1),
          inr tt).

(** [subscription.delete()] *)
Definition subscription_delete (user author : Z) : M unit :=
  modify (fun db =>
    set_subscribes db
      (filter (fun row => negb (subscribe_matches user author row)) (subscribes db))
      (subscribe_seq db)).

(** [IngredientInRecipe.objects.filter(recipe=instance).delete()] *)
Definition delete_line_items (recipe : Z) : M unit :=
  modify (fun db =>
    set_ingredient_list db
      (filter (fun row => negb (iir_recipe row =? recipe)) (ingredient_list db))).

(** One row of a bulk insert against the rows already there: the
    [unique_ingredient_in_recipe] constraint and the range of a
    [PositiveSmallIntegerField]. *)
Definition line_item_admissible (table : list IngredientInRecipe)
           (row : IngredientInRecipe) : bool :=
  negb (existsb (fun old => (iir_recipe old =? iir_recipe row)
                            && (iir_ingredient old =? iir_ingredient row)) table)
  && (0 <=? iir_amount row) && (iir_amount row <=? 32767).

Fixpoint insert_line_items (table : list IngredientInRecipe)
         (rows : list IngredientInRecipe) : option (list IngredientInRecipe) :=
  match rows with
  | [] => Some table
  | row :: rest =>
      if line_item_admissible table row
      then insert_line_items (table ++ [row]) rest
      else None
  end.

(** [IngredientInRecipe.objects.bulk_create(rows)]: one INSERT statement,
    which stores all the rows or, on a violated constraint, none. *)
Definition bulk_create (rows : list IngredientInRecipe) : M unit :=
  fun db =>
    match insert_line_items (ingredient_list db) rows with
    | Some table => (set_ingredient_list db table, inr tt)
    | None => (db, inl IntegrityError)
    end.

(** The loop of the many-to-many [set]: an object already related is
    struck from [old_ids], any other is collected in [new_objs]. *)
Fixpoint set_split (objs : list Z) (old_ids : list Z) : list Z * list Z :=
  match objs with
  | [] => ([], old_ids)
  | obj :: rest =>
      if existsb (Z.eqb obj) old_ids
      then set_split rest (remove Z.eq_dec obj old_ids)
      else let (new_objs, old_ids') := set_split rest old_ids in
           (obj :: new_objs, old_ids')
  end.

(** [instance.tags.set(tags)] on the through table: the ids left in
    [old_ids] are removed, then [new_objs] are added; [add] inserts only
    the targets that are not related yet. *)
Definition set_rows (recipe : Z) (objs : list Z) (rows : list (Z * Z))
  : list (Z * Z) :=
  let current := map snd (filter (fun row => fst row =? recipe) rows) in
  let (new_objs, old_ids) := set_split objs (py.set_of current) in
  let kept :=
    filter (fun row => negb ((fst row =? recipe)
                             && existsb (Z.eqb (snd row)) old_ids))
           rows in
  let related := map snd (filter (fun row => fst row =? recipe) kept) in
  let missing :=
    filter (fun t => negb (existsb (Z.eqb t) related)) (py.set_of new_objs) in
  kept ++ map (fun t => (recipe, t)) missing.

Definition tags_set (recipe : Z) (objs : list Z) : M unit :=
  modify (fun db => set_recipe_tags db (set_rows recipe objs (recipe_tags db))).

(** [ShortLink.objects.get_or_create(original_url=url,
    defaults={'short_link': short_url})]: [get] raises when several rows
    match; [create] is subject to [unique=True] on [short_link]. *)
Definition get_or_create (url short_url : string) : M (ShortLink * bool) :=
  fun db =>
    match filter (fun l => String.eqb (original_url l) url) (short_links db) with
    | [link_obj] => (db, inr (link_obj, false))
    | _ :: _ :: _ => (db, inl MultipleObjectsReturned)
    | [] =>
        if existsb (fun l => String.eqb (short_link l) short_url) (short_links db)
        then (db, inl IntegrityError)
        else let link_obj := mkShortLink url short_url in
             (set_short_links db (short_links db ++ [link_obj]),
              inr (link_obj, true))
    end.

End orm.

(** ** [api/serializers.py] *)

Module serializers.
Import models constants orm.
Local Open Scope orm_scope.

(** One element of [data['ingredients']]: the [Ingredient] instance the
    primary-key field resolved (kept by its id) and the amount. *)
Record IngredientAmount := mkIngredientAmount {
  ingredient : Z;
  amount : Z
}.

(** The dictionary handed to [validate], [create] and [update]; a key may be
    absent (partial update).  Tags are [Tag] instances, kept by their ids;
    [data_author] is what [save(author=...)] adds. *)
Record RecipeData := mkRecipeData {
  data_ingredients : option (list IngredientAmount);
  data_tags : option (list Z);
  data_cooking_time : option Z;
  data_name : option string;
  data_image : option string;
  data_text : option string;
  data_author : option Z
}.

(** [data[key]] and [data.pop(key)] *)
Definition getitem {A} (key : string) (v : option A) : Exn + A :=
  match v with
  | Some a => inr a
  | None => inl (KeyError key)
  end.

(** [RecipeInfoSerializer]: id, name, image, cooking time. *)
Record RecipeInfo := mkRecipeInfo {
  info_id : Z;
  info_name : string;
  info_image : string;
  info_cooking_time : Z
}.

Definition RecipeInfoSerializer (r : Recipe) : RecipeInfo :=
  mkRecipeInfo (recipe_id r) (name r) (image r) (cooking_time r).

(** [Recipe.Meta.ordering = ['-pub_date']]: a stable descending sort. *)
Fixpoint insert_by_pub_date (r : Recipe) (sorted : list Recipe) : list Recipe :=
  match sorted with
  | [] => [r]
  | x :: rest =>
      if pub_date x <=? pub_date r
      then r :: x :: rest
      else x :: insert_by_pub_date r rest
  end.

Definition order_by_pub_date_desc (rows : list Recipe) : list Recipe :=
  fold_right insert_by_pub_date [] rows.

Module RecipeSerializer.

Definition validate (data : RecipeData) : Exn + RecipeData :=
  let ingredients := data_ingredients data in
  if py.falsy ingredients
  then inl (ValidationError INGREDIENTS_FIELD_EMPTY)
  else
  let tags := data_tags data in
  if py.falsy tags
  then inl (ValidationError TAGS_FIELD_EMPTY)
  else
  match getitem "cooking_time" (data_cooking_time data) with
  | inl e => inl e
  | inr ct =>
  if ct <? COOKING_TIME_MIN_VALUE
  then inl (ValidationError COOKING_TIME_MIN_ERROR)
  else
  match getitem "tags" (data_tags data) with
  | inl e => inl e
  | inr data_tags =>
  if (length data_tags =? 0)%nat
  then inl (ValidationError TAGS_EMPTY_ERROR)
  else
  if (length (py.set_of data_tags) <? length data_tags)%nat
  then inl (ValidationError TAGS_UNIQUE_ERROR)
  else
  match getitem "ingredients" (data_ingredients data) with
  | inl e => inl e
  | inr data_ingredients =>
  if (length data_ingredients =? 0)%nat
  then inl (ValidationError INGREDIENTS_EMPTY_ERROR)
  else
  let list_ingr := map ingredient data_ingredients in
  let all_ingredients := length list_ingr in
  let distinct_ingredients := length (py.set_of list_ingr) in
  if negb (all_ingredients =? distinct_ingredients)%nat
  then inl (ValidationError INGREDIENTS_UNIQUE_ERROR)
  else inr data
  end end end.

Definition create_ingredients (recipe : Z) (ingredients : list IngredientAmount)
  : M unit :=
  bulk_create
    (map (fun item => mkIngredientInRecipe recipe (ingredient item) (amount item))
         ingredients).

(** [Recipe.objects.create] on the validated data: a missing text column
    takes the field default [''], a missing [cooking_time] violates
    NOT NULL; [auto_now] stamps [pub_date]. *)
Definition Recipe_objects_create (now : Z) (validated_data : RecipeData)
  : M Recipe :=
  fun db =>
    match data_cooking_time validated_data with
    | None => (db, inl IntegrityError)
    | Some ct =>
        let str v := match v with Some s => s | None => EmptyString end in
        let recipe :=
          mkRecipe (recipe_seq db) (data_author validated_data)
                   (str (data_name validated_data))
                   (str (data_image validated_data))
                   (str (data_text validated_data)) ct now in
        (set_recipes db (recipes db ++ [recipe]) (recipe_seq db + 1),
         inr recipe)
    end.

Definition create (now : Z) (validated_data : RecipeData) : M Recipe :=
  atomic (
    tags <- lift (getitem "tags" (data_tags validated_data)) ;;
    ingredients <- lift (getitem "ingredients" (data_ingredients validated_data)) ;;
    recipe <- Recipe_objects_create now validated_data ;;
    tags_set (recipe_id recipe) tags ;;;
    create_ingredients (recipe_id recipe) ingredients ;;;
    ret recipe).

(** [instance.save()]: the row with the instance's key is rewritten (or
    inserted when no row has it); [auto_now] stamps [pub_date]. *)
Definition save (now : Z) (instance : Recipe) : M Recipe :=
  fun db =>
    let saved :=
      mkRecipe (recipe_id instance) (author instance) (name instance)
               (image instance) (text instance) (cooking_time instance) now in
    let rows :=
      if existsb (fun r => recipe_id r =? recipe_id instance) (recipes db)
      then map (fun r => if recipe_id r =? recipe_id instance then saved else r)
               (recipes db)
      else recipes db ++ [saved] in
    (set_recipes db rows (recipe_seq db), inr saved).

(** [ModelSerializer.update]: [setattr] for every remaining key, then
    [save]. *)
Definition super_update (now : Z) (instance : Recipe)
           (validated_data : RecipeData) : M Recipe :=
  let pick {A} (v : option A) (old : A) := match v with Some a => a | None => old end in
  save now
    (mkRecipe (recipe_id instance)
              (match data_author validated_data with
               | Some a => Some a
               | None => author instance
               end)
              (pick (data_name validated_data) (name instance))
              (pick (data_image validated_data) (image instance))
              (pick (data_text validated_data) (text instance))
              (pick (data_cooking_time validated_data) (cooking_time instance))
              (pub_date instance)).

Definition update (now : Z) (instance : Recipe) (validated_data : RecipeData)
  : M Recipe :=
  atomic (
    tags <- lift (getitem "tags" (data_tags validated_data)) ;;
    ingredients <- lift (getitem "ingredients" (data_ingredients validated_data)) ;;
    delete_line_items (recipe_id instance) ;;;
    tags_set (recipe_id instance) tags ;;;
    create_ingredients (recipe_id instance) ingredients ;;;
    super_update now instance validated_data).

End RecipeSerializer.

(** [SubscribeSerializer] output: the author's profile with
    [is_subscribed], the author's recipes (cut to [recipes_limit] when the
    query gives one) and their count. *)
Record SubscribeData := mkSubscribeData {
  sub_id : Z;
  sub_username : string;
  sub_first_name : string;
  sub_last_name : string;
  is_subscribed : bool;
  sub_recipes : list RecipeInfo;
  recipes_count : nat
}.

(** The representation of an author.  [recipes_limit] is the bound of the
    slice in [get_recipes] once the query parameter has been read: [None]
    when it is missing or empty, [Some n] when it is the number [n], not
    negative.  The reading itself, which can raise, is
    [request.slice_bound] below. *)
Definition SubscribeSerializer (request_user : Z) (recipes_limit : option nat)
           (obj : User) (db : DB) : SubscribeData :=
  let recipes :=
    order_by_pub_date_desc
      (filter (fun r => match author r with
                        | Some a => a =? user_id obj
                        | None => false
                        end) (recipes db)) in
  mkSubscribeData
    (user_id obj) (username obj) (first_name obj) (last_name obj)
    (existsb (subscribe_matches request_user (user_id obj)) (subscribes db))
    (map RecipeInfoSerializer
         (match recipes_limit with
          | Some n => firstn n recipes
          | None => recipes
          end))
    (length recipes).

End serializers.

(** ** [api/views.py] *)

Module views.
Import models constants orm serializers.
Local Open Scope orm_scope.

Inductive Body :=
| NoBody
| Plain (message : string)
| Dict (key value : string)
| RecipeInfoBody (info : RecipeInfo)
| SubscribeBody (author : SubscribeData)
| SubscribeListBody (authors : list SubscribeData)
| TextAttachment (filename content : string).

Record Response := mkResponse {
  status : Z;
  body : Body
}.

Definition HTTP_200_OK : Z := 200.
Definition HTTP_201_CREATED : Z := 201.
Definition HTTP_204_NO_CONTENT : Z := 204.
Definition HTTP_400_BAD_REQUEST : Z := 400.
Definition HTTP_404_NOT_FOUND : Z := 404.

(** What the framework answers for a handler outcome: an [Http404] that
    leaves the handler becomes a 404 response, a [ValidationError] a 400,
    any other exception a 500. *)
Definition status_code (outcome : Exn + Response) : Z :=
  match outcome with
  | inr response => status response
  | inl Http404 => HTTP_404_NOT_FOUND
  | inl (ValidationError _) => 400
  | inl _ => 500
  end.

Inductive Method := POST | DELETE.

(** The process environment and the URL configuration the handlers read. *)
Record Conf := mkConf {
  environ : list (string * string);
  api_mount : string
}.

(** [os.environ[key]] *)
Definition environ_get (conf : Conf) (key : string) : Exn + string :=
  match find (fun kv => String.eqb (fst kv) key) (environ conf) with
  | Some kv => inr (snd kv)
  | None => inl (KeyError key)
  end.

(** [Recipe.get_absolute_url]: [reverse('recipe-detail', kwargs={'pk': pk})]
    under the prefix at which the project mounts the API routes. *)
Definition get_absolute_url (conf : Conf) (r : Recipe) : string :=
  (api_mount conf ++ "recipes/" ++ py.str_of_int (recipe_id r) ++ "/")%string.

Module GetRecipeShortLink.

Definition characters : string := (py.ascii_letters ++ py.digits)%string.

(** The outcome is [None] when the sampling loop outruns the tape. *)
Definition get (conf : Conf) (recipe_id : Z) (tape : list nat) (db : DB)
  : option (DB * (Exn + Response)) :=
  match get_recipe_or_404 recipe_id db with
  | (db1, inl e) => Some (db1, inl e)
  | (db1, inr recipe) =>
      match environ_get conf "DOMEN" with
      | inl e => Some (db1, inl e)
      | inr domen =>
          match py.sample " "%char (list_ascii_of_string characters) 4 tape with
          | None => None
          | Some chars =>
              let short_url := (domen ++ "s/" ++ py.join_chars chars)%string in
              Some ((created <- get_or_create (get_absolute_url conf recipe) short_url ;;
                     let link_obj := fst created in
                     ret (mkResponse HTTP_200_OK
                            (Dict "short-link" (short_link link_obj)))) db1)
          end
      end
  end.

End GetRecipeShortLink.

Module RecipeViewSet.

(** [queryset = Recipe.objects.all()] under [Meta.ordering]. *)
Definition queryset (db : DB) : list Recipe :=
  order_by_pub_date_desc (recipes db).

(** [create] of the viewset: [is_valid(raise_exception=True)], then
    [perform_create], which saves with [author=request.user]. *)
Definition create (now : Z) (user : User) (data : RecipeData) : M Recipe :=
  validated <- lift (RecipeSerializer.validate data) ;;
  RecipeSerializer.create now
    (mkRecipeData (data_ingredients validated) (data_tags validated)
                  (data_cooking_time validated) (data_name validated)
                  (data_image validated) (data_text validated)
                  (Some (user_id user))).

(** [update] / [partial_update] of the viewset: [get_object], [is_valid],
    [perform_update]. *)
Definition update (now : Z) (pk : Z) (data : RecipeData) : M Recipe :=
  instance <- get_recipe_or_404 pk ;;
  validated <- lift (RecipeSerializer.validate data) ;;
  RecipeSerializer.update now instance validated.

Definition add_to (model : JoinModel) (pk : Z) (user : User) : M Response :=
  try_except_Http404
    (get_recipe_or_404 pk)
    (ret (mkResponse HTTP_400_BAD_REQUEST (Plain "Рецепт не найден")))
    (fun recipe =>
       present <- join_exists model (user_id user) (recipe_id recipe) ;;
       if present : bool
       then ret (mkResponse HTTP_400_BAD_REQUEST (Plain "Рецепт уже добавлен"))
       else
         join_create model (user_id user) (recipe_id recipe) ;;;
         ret (mkResponse HTTP_201_CREATED
                (RecipeInfoBody (RecipeInfoSerializer recipe)))).

Definition delete_from (model : JoinModel) (pk : Z) (user : User) : M Response :=
  recipe <- get_recipe_or_404 pk ;;
  present <- join_exists model (user_id user) (recipe_id recipe) ;;
  if present : bool
  then
    join_delete model (user_id user) (recipe_id recipe) ;;;
    ret (mkResponse HTTP_204_NO_CONTENT NoBody)
  else
    ret (mkResponse HTTP_400_BAD_REQUEST (Dict "errors" "Рецепт уже удален!")).

Definition favorite_or_shopping_cart (method : Method) (user : User) (pk : Z)
           (request_type : string) : M Response :=
  let model := if String.eqb request_type "favorite" then Favorite else ShoppingCart in
  match method with
  | POST => add_to model pk user
  | DELETE => delete_from model pk user
  end.

(** A row of the [values(...)] query: ingredient name, unit, amount. *)
Definition Key : Type := string * string.

Definition key_eqb (a b : Key) : bool :=
  String.eqb (fst a) (fst b) && String.eqb (snd a) (snd b).

(** [IngredientInRecipe.objects.filter(recipe__shopping_cart__user=user)]
    joined to its ingredient: one row per line item and matching cart row. *)
Definition cart_rows (db : DB) (user : Z) : list (Key * Z) :=
  flat_map (fun item =>
    flat_map (fun entry =>
      if (ur_recipe entry =? iir_recipe item) && (ur_user entry =? user)
      then flat_map (fun ing =>
             if ingredient_id ing =? iir_ingredient item
             then [((ingredient_name ing, measurement_unit ing), iir_amount item)]
             else [])
             (ingredients db)
      else [])
      (shopping_cart db))
    (ingredient_list db).

(** GROUP BY name, unit with [Sum('amount')]: a row joins the group of its
    key or opens a new one.  This fixes which groups there are and their
    sums; the order in which the database hands them out is not part of the
    query (see [download_shopping_cart]). *)
Fixpoint add_to_group (k : Key) (a : Z) (groups : list (Key * Z))
  : list (Key * Z) :=
  match groups with
  | [] => [(k, a)]
  | (k', q) :: rest =>
      if key_eqb k k'
      then (k', q + a) :: rest
      else (k', q) :: add_to_group k a rest
  end.

Definition annotate_sum (rows : list (Key * Z)) : list (Key * Z) :=
  fold_left (fun groups row => add_to_group (fst row) (snd row) groups) rows [].

Definition shopping_line (group : Key * Z) : string :=
  ("- " ++ fst (fst group) ++ " (" ++ snd (fst group) ++ ")"
   ++ " - " ++ py.str_of_int (snd group))%string.

Definition newline : string := String (ascii_of_nat 10) EmptyString.

(** [today_dmy] and [today_Y] are [timezone.now()] under the formats
    [%d-%m-%Y] and [%Y].  The query has no [order_by] and
    [IngredientInRecipe] has no [Meta.ordering]: [produced] is the order in
    which the database returns the groups. *)
Definition download_shopping_cart (produced : list (Key * Z) -> list (Key * Z))
           (user : User) (today_dmy today_Y : string)
  : M Response :=
  has_cart <- gets (fun db =>
    existsb (fun entry => ur_user entry =? user_id user) (shopping_cart db)) ;;
  if negb has_cart
  then ret (mkResponse HTTP_400_BAD_REQUEST NoBody)
  else
    ingredients <- gets (fun db =>
      produced (annotate_sum (cart_rows db (user_id user)))) ;;
    let shopping_list :=
      ("Список покупок для: " ++ get_full_name user ++ newline ++ newline
       ++ "Дата: " ++ today_dmy ++ newline ++ newline)%string in
    let shopping_list :=
      (shopping_list ++ py.join newline (map shopping_line ingredients))%string in
    let shopping_list :=
      (shopping_list ++ newline ++ newline ++ "Foodgram (" ++ today_Y ++ ")")%string in
    let filename := (username user ++ "_shopping_list.txt")%string in
    ret (mkResponse HTTP_200_OK (TextAttachment filename shopping_list)).

End RecipeViewSet.

Module CustomUserViewSet.

(** [subscribe] on a target and a limit that are numbers; [request.subscribe]
    below is the same handler on the path segment and the query parameter
    as the request carries them. *)
Definition subscribe (method : Method) (user : User) (id : Z)
           (recipes_limit : option nat) : M Response :=
  author <- get_user_or_404 id ;;
  subscribed <- subscription_exists (user_id user) (user_id author) ;;
  match method with
  | POST =>
      if subscribed : bool
      then ret (mkResponse HTTP_400_BAD_REQUEST (Dict "error" "Вы уже подписаны"))
      else
      if user_id user =? user_id author
      then ret (mkResponse HTTP_400_BAD_REQUEST
                  (Dict "error" "Невозможно подписаться на себя"))
      else
        Subscribe_create (user_id user) (user_id author) ;;;
        data <- gets (SubscribeSerializer (user_id user) recipes_limit author) ;;
        ret (mkResponse HTTP_201_CREATED (SubscribeBody data))
  | DELETE =>
      if subscribed : bool
      then
        subscription_delete (user_id user) (user_id author) ;;;
        ret (mkResponse HTTP_204_NO_CONTENT NoBody)
      else ret (mkResponse HTTP_400_BAD_REQUEST
                  (Dict "error" "Вы не подписаны на этого пользователя"))
  end.

(** [User.objects.filter(subscribing__user=user)]: the user table joined
    to the subscriptions that point at each row.  Neither the query nor
    [User.Meta] orders it, so the rows come as the database produces
    them; [produced] stands for that order. *)
Definition follows (produced : list User -> list User) (db : DB) (user : Z)
  : list User :=
  produced
    (flat_map (fun u =>
       map (fun _ => u)
           (filter (fun s => (subscribe_author s =? user_id u)
                             && (subscribe_user s =? user))
                   (subscribes db)))
       (users db)).

(** [paginate] is the page cut of [api.pagination.LimitPagination]. *)
Definition subscriptions (produced paginate : list User -> list User)
           (user : User) (recipes_limit : option nat) : M Response :=
  page <- gets (fun db => paginate (follows produced db (user_id user))) ;;
  data <- gets (fun db =>
    map (fun author => SubscribeSerializer (user_id user) recipes_limit author db)
        page) ;;
  ret (mkResponse HTTP_200_OK (SubscribeListBody data)).

End CustomUserViewSet.

End views.

(** ** The rest of the sources *)

Module py_str.

(** [s.replace(old, new, 1)]: the leftmost occurrence only. *)
Fixpoint replace_first (old new s : string) : string :=
  if String.prefix old s
  then (new ++ String.substring (String.length old)
                                (String.length s - String.length old) s)%string
  else match s with
       | EmptyString => EmptyString
       | String c rest => String c (replace_first old new rest)
       end.

(** [s[:-1]] *)
Fixpoint drop_last (s : string) : string :=
  match s with
  | EmptyString => EmptyString
  | String c EmptyString => EmptyString
  | String c rest => String c (drop_last rest)
  end.

End py_str.

Module serializers_rest.
Import models constants orm serializers.

(** [CustomUserSerializer.get_is_subscribed]; [user] is [request.user],
    [None] for an anonymous caller. *)
Definition get_is_subscribed (obj : User) (user : option User) (db : DB) : bool :=
  match user with
  | None => false
  | Some u => existsb (subscribe_matches (user_id u) (user_id obj)) (subscribes db)
  end.

Module SubscribeSerializer.

(** [validate]: the error detail on a rejection, the data otherwise. *)
Definition validate {A} (author user : User) (data : A) (db : DB) : string + A :=
  if existsb (fun s => (subscribe_author s =? user_id author)
                       && (subscribe_user s =? user_id user)) (subscribes db)
  then inl "Вы уже подписаны на этого пользователя!"%string
  else if user_id user =? user_id author
  then inl "Вы не можете подписаться на самого себя!"%string
  else inr data.

End SubscribeSerializer.

Module GetRecipeSerializer.

Definition get_is_favorited (object : Recipe) (user : option User) (db : DB) : bool :=
  match user with
  | None => false
  | Some u =>
      existsb (fun row => (ur_recipe row =? recipe_id object)
                          && (ur_user row =? user_id u)) (favorites db)
  end.

Definition get_is_in_shopping_cart (object : Recipe) (user : option User) (db : DB)
  : bool :=
  match user with
  | None => false
  | Some u =>
      existsb (fun row => (ur_recipe row =? recipe_id object)
                          && (ur_user row =? user_id u)) (shopping_cart db)
  end.

End GetRecipeSerializer.

End serializers_rest.

Module admin.
Import models.

(** [RecipeAdmin.favorites]: [obj.favorites.count()]. *)
Definition favorites (obj : Recipe) (db : DB) : nat :=
  length (filter (fun row => ur_recipe row =? recipe_id obj) (models.favorites db)).

End admin.

Module views_rest.
Import models constants orm serializers views.

(** What a plain Django view returns: a redirect or a response with content
    and status. *)
Inductive HttpAnswer :=
| HttpResponseRedirect (url : string)
| HttpResponse (content : string) (status : Z).

(** [ShortLink.objects.get(short_link=value)] *)
Inductive GetResult :=
| Found (link_obj : ShortLink)
| DoesNotExist
| Several.

Definition ShortLink_get (value : string) (db : DB) : GetResult :=
  match filter (fun l => String.eqb (short_link l) value) (short_links db) with
  | [] => DoesNotExist
  | [link_obj] => Found link_obj
  | _ :: _ :: _ => Several
  end.

(** What [redirect_to_full_link] can raise: an exception of the handlers or
    the resolver's [NoReverseMatch]. *)
Inductive Failure :=
| Raised (e : Exn)
| NoReverseMatch.

Definition holds_char (c : ascii) (s : string) : bool :=
  existsb (Ascii.eqb c) (list_ascii_of_string s).

(** [resolve_url(to)] of [django.shortcuts.redirect] for a string: a target
    that starts as a relative path is the URL; otherwise [reverse] is asked
    for a route of that name, and when there is none a target that holds a
    slash or a dot is taken as the URL itself. *)
Definition resolve_url (reverse : string -> option string) (to : string)
  : Failure + string :=
  if String.prefix "./" to || String.prefix "../" to
  then inr to
  else match reverse to with
       | Some url => inr url
       | None =>
           if holds_char "/" to || holds_char "." to
           then inr to
           else inl NoReverseMatch
       end.

(** [redirect_to_full_link]: the lookup of the domain is inside the [try]
    but only [ShortLink.DoesNotExist] is caught.  Django sends the keys of a
    dictionary given as response content, here the one key [error]. *)
Definition redirect_to_full_link (conf : Conf) (reverse : string -> option string)
           (short_link : string) (db : DB) : Failure + HttpAnswer :=
  match environ_get conf "DOMEN" with
  | inl e => inl (Raised e)
  | inr domen =>
      match ShortLink_get (domen ++ "s/" ++ short_link)%string db with
      | Found link_obj =>
          let full_link :=
            py_str.drop_last (py_str.replace_first "/api" "" (original_url link_obj)) in
          match resolve_url reverse full_link with
          | inl failure => inl failure
          | inr url => inr (HttpResponseRedirect url)
          end
      | DoesNotExist => inr (HttpResponse "error" HTTP_404_NOT_FOUND)
      | Several => inl (Raised MultipleObjectsReturned)
      end
  end.

End views_rest.

(** [api/utils.py] *)
Module utils.
Import models constants orm serializers views.
Local Open Scope orm_scope.

Definition download_shopping_cart
           (produced : list (RecipeViewSet.Key * Z) -> list (RecipeViewSet.Key * Z))
           (request_user : User) (today_dmy today_Y : string)
  : M Response :=
  let user := request_user in
  has_cart <- gets (fun db =>
    existsb (fun entry => ur_user entry =? user_id user) (shopping_cart db)) ;;
  if negb has_cart
  then ret (mkResponse HTTP_400_BAD_REQUEST NoBody)
  else
    ingredients <- gets (fun db =>
      produced (RecipeViewSet.annotate_sum
                  (RecipeViewSet.cart_rows db (user_id request_user)))) ;;
    let shopping_list :=
      ("Список покупок для: " ++ get_full_name user
       ++ RecipeViewSet.newline ++ RecipeViewSet.newline
       ++ "Дата: " ++ today_dmy ++ RecipeViewSet.newline ++ RecipeViewSet.newline)%string in
    let shopping_list :=
      (shopping_list
       ++ py.join RecipeViewSet.newline
            (map (fun ingredient =>
                    "- " ++ fst (fst ingredient) ++ " "
                    ++ "(" ++ snd (fst ingredient) ++ ")"
                    ++ " - " ++ py.str_of_int (snd ingredient))
                 ingredients))%string in
    let shopping_list :=
      (shopping_list ++ RecipeViewSet.newline ++ RecipeViewSet.newline
       ++ "Foodgram (" ++ today_Y ++ ")")%string in
    let filename := (username user ++ "_shopping_list.txt")%string in
    ret (mkResponse HTTP_200_OK (TextAttachment filename shopping_list)).

End utils.

(** [recipes/management/commands/load_csv_files.py] *)
Module load_csv_files.
Import models.

Inductive Failure :=
| StopIteration
| IndexError.

(** The ingredient table with the next value of its key sequence. *)
Definition Table : Type := list Ingredient * Z.

(** [Ingredient.objects.create(name=row[0], measurement_unit=row[1])], then
    [ingredient.save()], which rewrites the row it just stored. *)
Definition create_and_save (name unit : string) (table : Table) : Table :=
  let ingredient := mkIngredient (snd table) name unit in
  let stored := fst table ++ [ingredient] in
  (map (fun row => if ingredient_id row =? ingredient_id ingredient
                   then ingredient else row) stored,
   snd table + 1).

(** The [for row in reader] loop over the parsed rows: a row with fewer than
    two fields stops the command; no transaction undoes the rows before it. *)
Fixpoint import_rows (reader : list (list string)) (table : Table)
  : Table * option Failure :=
  match reader with
  | [] => (table, None)
  | row :: rest =>
      match row with
      | name :: unit :: _ => import_rows rest (create_and_save name unit table)
      | _ => (table, Some IndexError)
      end
  end.

(** [import_ingredients]: [next(reader)] drops the header line. *)
Definition import_ingredients (reader : list (list string)) (table : Table)
  : Table * option Failure :=
  match reader with
  | [] => (table, Some StopIteration)
  | _header :: rows => import_rows rows table
  end.

Definition handle (reader : list (list string)) (table : Table)
  : Table * option Failure :=
  import_ingredients reader table.

End load_csv_files.

(** ** The handlers on what a request carries *)

(** The handlers of [views] take the key of the recipe or of the author and
    the limit of the recipe list as numbers.  A request carries them as
    text: the router passes the path segment, matched by [[^/.]+], as a
    string, and [recipes_limit] is a string of the query.  The code turns
    them into numbers where it uses them, the key inside the lookup of
    [get_object_or_404], the limit inside [get_recipes]; this module
    follows the same handlers from the text on. *)
Module request.
Import models constants orm serializers views.

(** An exception that leaves a handler: one of [orm.Exn], or the
    [ValueError] of a lookup by a key that is no number, of [int] on a
    string that is no number, and of a slice with a negative bound. *)
Inductive Uncaught :=
| Exception (e : Exn)
| ValueError.

Definition R (A : Type) : Type := DB -> DB * (Uncaught + A).

Definition ret {A} (a : A) : R A := fun db => (db, inr a).

Definition bind {A B} (m : R A) (k : A -> R B) : R B :=
  fun db =>
    match m db with
    | (db', inl e) => (db', inl e)
    | (db', inr a) => k a db'
    end.

(** A computation of [orm.M]; what it raises is raised here. *)
Definition run {A} (c : M A) : R A :=
  fun db =>
    match c db with
    | (db', inl e) => (db', inl (Exception e))
    | (db', inr a) => (db', inr a)
    end.

Declare Scope request_scope.
Delimit Scope request_scope with request.
Notation "x <- c ;; k" := (bind c (fun x => k))
  (at level 61, c at next level, right associativity) : request_scope.
Notation "c ;;; k" := (bind c (fun _ => k))
  (at level 61, right associativity) : request_scope.
Local Open Scope request_scope.

(** What the framework answers: as [views.status_code], and 500 for a
    [ValueError]. *)
Definition status_code (outcome : Uncaught + Response) : Z :=
  match outcome with
  | inr response => status response
  | inl (Exception e) => views.status_code (inl e)
  | inl ValueError => 500
  end.

Section Int.

(** [int(s)] for a string [s]: the number, or [None] where [int] raises
    [ValueError]. *)
Variable py_int : string -> option Z.

(** The key of a lookup [pk=segment] or [id=segment] on an integer field:
    the field converts the value with [int]; the [ValueError] is raised
    before any row is read. *)
Definition get_prep_value (segment : string) : R Z :=
  fun db =>
    match py_int segment with
    | Some key => (db, inr key)
    | None => (db, inl ValueError)
    end.

(** [add_to]: the lookup is the first statement of the [try] block, and the
    [except] clause names [Http404] only. *)
Definition add_to (model : JoinModel) (pk : string) (user : User) : R Response :=
  key <- get_prep_value pk ;;
  run (RecipeViewSet.add_to model key user).

(** [delete_from]: the lookup is its first statement. *)
Definition delete_from (model : JoinModel) (pk : string) (user : User) : R Response :=
  key <- get_prep_value pk ;;
  run (RecipeViewSet.delete_from model key user).

Definition favorite_or_shopping_cart (method : Method) (user : User) (pk : string)
           (request_type : string) : R Response :=
  let model := if String.eqb request_type "favorite" then Favorite else ShoppingCart in
  match method with
  | POST => add_to model pk user
  | DELETE => delete_from model pk user
  end.

(** The bound of the slice in [get_recipes]:
    [if recipes_limit: recipes = recipes[:int(recipes_limit)]].  A missing
    or empty parameter leaves the list whole; [int] raises on a string that
    is no number and the slice of a query set raises on a negative bound,
    both [ValueError]. *)
Definition slice_bound (recipes_limit : option string) : Uncaught + option nat :=
  match recipes_limit with
  | None => inr None
  | Some EmptyString => inr None
  | Some s =>
      match py_int s with
      | None => inl ValueError
      | Some n => if n <? 0 then inl ValueError else inr (Some (Z.to_nat n))
      end
  end.

(** [SubscribeSerializer(obj, context).data]: the fields are computed when
    [.data] is read, [get_recipes] among them. *)
Definition SubscribeSerializer (request_user : Z) (recipes_limit : option string)
           (obj : User) (db : DB) : Uncaught + SubscribeData :=
  match slice_bound recipes_limit with
  | inl e => inl e
  | inr limit => inr (serializers.SubscribeSerializer request_user limit obj db)
  end.

(** [SubscribeSerializer(page, many=True).data]: one representation per
    author of the page, in order. *)
Fixpoint many (request_user : Z) (recipes_limit : option string)
         (page : list User) (db : DB) : Uncaught + list SubscribeData :=
  match page with
  | [] => inr []
  | author :: rest =>
      match SubscribeSerializer request_user recipes_limit author db with
      | inl e => inl e
      | inr data =>
          match many request_user recipes_limit rest db with
          | inl e => inl e
          | inr more => inr (data :: more)
          end
      end
  end.

(** [subscribe]: [serializer.data] is read in the [return] statement, after
    [Subscribe.objects.create]; the handler opens no transaction. *)
Definition subscribe (method : Method) (user : User) (id : string)
           (recipes_limit : option string) : R Response :=
  key <- get_prep_value id ;;
  author <- run (get_user_or_404 key) ;;
  subscribed <- run (subscription_exists (user_id user) (user_id author)) ;;
  match method with
  | POST =>
      if subscribed : bool
      then ret (mkResponse HTTP_400_BAD_REQUEST (Dict "error" "Вы уже подписаны"))
      else
      if user_id user =? user_id author
      then ret (mkResponse HTTP_400_BAD_REQUEST
                  (Dict "error" "Невозможно подписаться на себя"))
      else
        run (Subscribe_create (user_id user) (user_id author)) ;;;
        data <- (fun db =>
                   (db, SubscribeSerializer (user_id user) recipes_limit author db)) ;;
        ret (mkResponse HTTP_201_CREATED (SubscribeBody data))
  | DELETE =>
      if subscribed : bool
      then
        run (subscription_delete (user_id user) (user_id author)) ;;;
        ret (mkResponse HTTP_204_NO_CONTENT NoBody)
      else ret (mkResponse HTTP_400_BAD_REQUEST
                  (Dict "error" "Вы не подписаны на этого пользователя"))
  end.

Definition subscriptions (produced paginate : list User -> list User)
           (user : User) (recipes_limit : option string) : R Response :=
  page <- run (gets (fun db =>
            paginate (CustomUserViewSet.follows produced db (user_id user)))) ;;
  data <- (fun db => (db, many (user_id user) recipes_limit page db)) ;;
  ret (mkResponse HTTP_200_OK (SubscribeListBody data)).

End Int.

End request.

(** * Vocabulary of the properties *)

Import models constants orm serializers views.
Local Open Scope orm_scope.

(** A list-valued key that is missing from the payload or holds [[]]. *)
Definition missing_or_empty {A} (v : option (list A)) : Prop :=
  v = None \/ v = Some [].

(** Sample payloads for the write pipeline. *)
Definition item (i a : Z) : IngredientAmount := mkIngredientAmount i a.

Definition payload (ingredients : option (list IngredientAmount))
           (tags : option (list Z)) (ct : option Z) : RecipeData :=
  mkRecipeData ingredients tags ct (Some "Soup"%string) (Some "soup.png"%string)
               (Some "Boil."%string) None.

(** The rows that [create_ingredients] hands to [bulk_create]. *)
Definition line_items_for (recipe : Z) (items : list IngredientAmount)
  : list IngredientInRecipe :=
  map (fun item => mkIngredientInRecipe recipe (ingredient item) (amount item)) items.

(** A small database: three users, three ingredients, two recipes.  Recipe 1
    holds the line items (10, 1) and (11, 2) and the tag 5. *)
Definition alice : User := mkUser 1 "alice" "Alice" "Liddell".
Definition bob : User := mkUser 2 "bob" "Bob" "Marley".
Definition carol : User := mkUser 3 "carol" "Carol" "Danvers".

Definition pancakes : Recipe := mkRecipe 1 (Some 1) "Pancakes" "p.png" "Fry." 20 1.
Definition bread : Recipe := mkRecipe 2 (Some 2) "Bread" "b.png" "Bake." 60 2.

Definition kitchen : DB :=
  mkDB [alice; bob; carol] [] 1
       [mkTag 5 "breakfast" "breakfast"; mkTag 6 "dinner" "dinner"]
       [mkIngredient 10 "Flour" "g"; mkIngredient 11 "Sugar" "g";
        mkIngredient 12 "Milk" "ml"]
       [pancakes; bread] 3
       [(1, 5); (2, 5)]
       [mkIngredientInRecipe 1 10 1; mkIngredientInRecipe 1 11 2;
        mkIngredientInRecipe 2 10 7]
       [] [] [].

(** The summed amount of the rows of one (name, unit) key. *)
Definition total_for (k : RecipeViewSet.Key) (rows : list (RecipeViewSet.Key * Z)) : Z :=
  fold_right Z.add 0
    (map snd (filter (fun row => RecipeViewSet.key_eqb k (fst row)) rows)).

(** Whether [recipe] is in the shopping cart of [user]. *)
Definition in_cart (db : DB) (user recipe : Z) : bool :=
  existsb (fun entry => (ur_recipe entry =? recipe) && (ur_user entry =? user))
          (shopping_cart db).

(** The line items of the recipes in the cart of [user], each once, with the
    name and unit of its ingredient. *)
Definition cart_line_items (db : DB) (user : Z) : list (RecipeViewSet.Key * Z) :=
  flat_map (fun item =>
    if in_cart db user (iir_recipe item)
    then match find (fun ing => ingredient_id ing =? iir_ingredient item)
                    (ingredients db) with
         | Some ing => [((ingredient_name ing, measurement_unit ing), iir_amount item)]
         | None => []
         end
    else [])
    (ingredient_list db).

(** ['\n'] *)
Definition line_break : ascii := ascii_of_nat 10.

(** Whether [s] holds no line break. *)
Fixpoint one_line (s : string) : bool :=
  match s with
  | EmptyString => true
  | String c rest => negb (Ascii.eqb c line_break) && one_line rest
  end.

(** [s.split('\n')]: the pieces of [s] between its line breaks. *)
Fixpoint lines_of (s : string) : list string :=
  match s with
  | EmptyString => [EmptyString]
  | String c rest =>
      if Ascii.eqb c line_break
      then EmptyString :: lines_of rest
      else match lines_of rest with
           | first :: more => String c first :: more
           | [] => [String c EmptyString]
           end
  end.

(** [int] on the strings of the examples below: a decimal numeral with an
    optional minus sign is read as its number, any other string is taken
    as one on which [int] raises. *)
Definition decimal (s : string) : option Z :=
  option_map Z.of_int (NilZero.int_of_string s).

(** The text of the shopping list for the aggregated [groups]. *)
Definition shopping_list_text (user : User) (today_dmy today_Y : string)
           (groups : list (RecipeViewSet.Key * Z)) : string :=
  ((("Список покупок для: " ++ get_full_name user
     ++ RecipeViewSet.newline ++ RecipeViewSet.newline
     ++ "Дата: " ++ today_dmy ++ RecipeViewSet.newline ++ RecipeViewSet.newline)
    ++ py.join RecipeViewSet.newline (map RecipeViewSet.shopping_line groups))
   ++ RecipeViewSet.newline ++ RecipeViewSet.newline
   ++ "Foodgram (" ++ today_Y ++ ")")%string.

(** Alice's cart holds recipe 1 (Flour, g, 200) and recipe 2 (Flour, g, 300
    and Milk, ml, 50). *)
Definition pantry : DB :=
  mkDB [alice; bob; carol] [] 1
       [mkTag 5 "breakfast" "breakfast"]
       [mkIngredient 10 "Flour" "g"; mkIngredient 11 "Sugar" "g";
        mkIngredient 12 "Milk" "ml"]
       [pancakes; bread] 3
       [(1, 5); (2, 5)]
       [mkIngredientInRecipe 1 10 200; mkIngredientInRecipe 2 10 300;
        mkIngredientInRecipe 2 12 50]
       []
       [mkUserRecipe 1 1; mkUserRecipe 1 2; mkUserRecipe 2 2]
       [].

(** Alice's cart holds recipe 1 (Flour, g, 200) and recipe 2 (Flour, g,
    300), and nothing else. *)
Definition flour_cart : DB :=
  mkDB [alice; bob; carol] [] 1
       [mkTag 5 "breakfast" "breakfast"]
       [mkIngredient 10 "Flour" "g"]
       [pancakes; bread] 3
       [(1, 5); (2, 5)]
       [mkIngredientInRecipe 1 10 200; mkIngredientInRecipe 2 10 300]
       []
       [mkUserRecipe 1 1; mkUserRecipe 1 2]
       [].

(** A configuration with the domain set and the API mounted under [/api/]. *)
Definition site : Conf :=
  mkConf [("DOMEN", "https://foodgram.example/")%string] "/api/".

(** The authors a user follows, by subscription id, newest first. *)
Fixpoint insert_by_subscribe_id (s : Subscribe) (sorted : list Subscribe)
  : list Subscribe :=
  match sorted with
  | [] => [s]
  | x :: rest =>
      if subscribe_id x <=? subscribe_id s
      then s :: x :: rest
      else x :: insert_by_subscribe_id s rest
  end.

Definition followed_newest_first (db : DB) (user : Z) : list Z :=
  map subscribe_author
      (fold_right insert_by_subscribe_id []
         (filter (fun s => subscribe_user s =? user) (subscribes db))).

(** Alice subscribes to Bob, then to Carol. *)
Definition after_two_subscriptions : DB :=
  fst (CustomUserViewSet.subscribe POST alice 3 None
         (fst (CustomUserViewSet.subscribe POST alice 2 None kitchen))).

(** Alice publishes a recipe at time 1, Bob one at time 2; at time 3 Alice
    edits hers. *)
Definition two_users : DB :=
  mkDB [alice; bob] [] 1 [mkTag 5 "breakfast" "breakfast"]
       [mkIngredient 10 "Flour" "g"] [] 1 [] [] [] [] [].

Definition after_two_recipes : DB :=
  fst (RecipeViewSet.create 2 bob (payload (Some [item 10 300]) (Some [5]) (Some 60))
         (fst (RecipeViewSet.create 1 alice
                 (payload (Some [item 10 200]) (Some [5]) (Some 20)) two_users))).

Definition after_edit : DB :=
  fst (RecipeViewSet.update 3 1 (payload (Some [item 10 250]) (Some [5]) (Some 20))
         after_two_recipes).


(** What the line-item table is meant to hold: no (recipe, ingredient) pair
    twice, every amount in the range of the column. *)
Definition line_items_table_wf (table : list IngredientInRecipe) : Prop :=
  NoDup (map (fun row => (iir_recipe row, iir_ingredient row)) table)
  /\ Forall (fun row => 0 <= iir_amount row <= 32767) table.

(** The ingredients that a run of the import stores for the data rows of a
    file, keyed from [seq] on. *)
Fixpoint numbered (seq : Z) (rows : list (list string)) : list Ingredient :=
  match rows with
  | [] => []
  | (name :: unit :: _) :: rest => mkIngredient seq name unit :: numbered (seq + 1) rest
  | _ :: rest => numbered seq rest
  end.

(** A small ingredient file: the header line and two data rows. *)
Definition ingredients_csv : list (list string) :=
  [["name"; "unit"]; ["Flour"; "g"]; ["Milk"; "ml"; "fresh"]]%string.

(** * Properties *)

(** ** Monad laws used below *)

Lemma bind_lift_inr {A B} (a : A) (k : A -> M B) (db : DB) :
  bind (lift (inr a)) k db = k a db.
Proof. reflexivity. Qed.

(** An [atomic] block that raises leaves the database as it found it. *)
Lemma atomic_rollback {A} (m : M A) (db db' : DB) (e : Exn) :
  atomic m db = (db', inl e) -> db' = db.
Proof.
  unfold atomic. destruct (m db) as [db1 [e1 | a]]; intros H; inversion H; reflexivity.
Qed.

Lemma atomic_commit {A} (m : M A) (db db' : DB) (a : A) :
  m db = (db', inr a) -> atomic m db = (db', inr a).
Proof. unfold atomic. intros ->. reflexivity. Qed.

(** ** [len(set(xs))] against [len(xs)] *)

Lemma set_of_length_le (xs : list Z) :
  (length (py.set_of xs) <= length xs)%nat.
Proof.
  unfold py.set_of. induction xs as [| x xs IH]; simpl.
  - lia.
  - destruct (in_dec Z.eq_dec x xs); simpl; lia.
Qed.

Lemma set_of_length_eq_NoDup (xs : list Z) :
  length (py.set_of xs) = length xs -> NoDup xs.
Proof.
  unfold py.set_of. induction xs as [| x xs IH]; simpl; intros H.
  - constructor.
  - destruct (in_dec Z.eq_dec x xs) as [Hin | Hnin].
    + pose proof (set_of_length_le xs) as Hle. unfold py.set_of in Hle. lia.
    + simpl in H. constructor; [assumption | apply IH; lia].
Qed.

Lemma set_of_NoDup (xs : list Z) :
  NoDup xs -> py.set_of xs = xs.
Proof. apply nodup_fixed_point. Qed.

Lemma set_of_length_lt (xs : list Z) :
  ~ NoDup xs -> (length (py.set_of xs) < length xs)%nat.
Proof.
  intros Hdup. pose proof (set_of_length_le xs) as Hle.
  destruct (Nat.eq_dec (length (py.set_of xs)) (length xs)) as [Heq | Hne].
  - exfalso. apply Hdup. apply set_of_length_eq_NoDup. exact Heq.
  - lia.
Qed.

(** ** Recipe validation *)

Lemma falsy_true {A} (v : option (list A)) :
  missing_or_empty v -> py.falsy v = true.
Proof. intros [-> | ->]; reflexivity. Qed.

Lemma falsy_false {A} (v : option (list A)) (l : list A) :
  v = Some l -> l <> [] -> py.falsy v = false.
Proof. intros -> Hne. destruct l; [congruence | reflexivity]. Qed.

Lemma length_eqb_0_false {A} (l : list A) :
  l <> [] -> (length l =? 0)%nat = false.
Proof. destruct l; [congruence | reflexivity]. Qed.

(** What [validate] does on a payload whose lists are present and non-empty
    and that carries a cooking time. *)
Lemma validate_lists_present (data : RecipeData) il tl ct :
  data_ingredients data = Some il -> il <> [] ->
  data_tags data = Some tl -> tl <> [] ->
  data_cooking_time data = Some ct ->
  RecipeSerializer.validate data =
    if ct <? COOKING_TIME_MIN_VALUE
    then inl (ValidationError COOKING_TIME_MIN_ERROR)
    else if (length (py.set_of tl) <? length tl)%nat
    then inl (ValidationError TAGS_UNIQUE_ERROR)
    else if negb (length (map ingredient il)
                  =? length (py.set_of (map ingredient il)))%nat
    then inl (ValidationError INGREDIENTS_UNIQUE_ERROR)
    else inr data.
Proof.
  intros Hi Hine Ht Htne Hc. unfold RecipeSerializer.validate.
  rewrite (falsy_false Hi Hine), (falsy_false Ht Htne), Hc, Ht, Hi. simpl.
  rewrite (length_eqb_0_false Htne), (length_eqb_0_false Hine).
  reflexivity.
Qed.

(** The cooking-time key is read by subscript: a payload that passes the two
    list checks but carries no [cooking_time] raises [KeyError]. *)
Lemma validate_cooking_time_absent (data : RecipeData) il tl :
  data_ingredients data = Some il -> il <> [] ->
  data_tags data = Some tl -> tl <> [] ->
  data_cooking_time data = None ->
  RecipeSerializer.validate data = inl (KeyError "cooking_time").
Proof.
  intros Hi Hine Ht Htne Hc. unfold RecipeSerializer.validate.
  rewrite (falsy_false Hi Hine), (falsy_false Ht Htne), Hc. reflexivity.
Qed.

(** A payload that fails validation is never written, on either write path. *)
Lemma create_invalid_no_write now user data e db :
  RecipeSerializer.validate data = inl e ->
  RecipeViewSet.create now user data db = (db, inl e).
Proof. intros H. unfold RecipeViewSet.create. rewrite H. reflexivity. Qed.

Lemma update_invalid_no_write now pk data e db :
  RecipeSerializer.validate data = inl e ->
  exists e', RecipeViewSet.update now pk data db = (db, inl e').
Proof.
  intros H. unfold RecipeViewSet.update, bind, get_recipe_or_404.
  destruct (find_recipe db pk).
  - rewrite H. exists e. reflexivity.
  - exists Http404. reflexivity.
Qed.

(** The order of the checks of [RecipeSerializer.validate] on a payload that
    carries a cooking time: (1) the ingredients list is missing or empty;
    (2) the tags list is missing or empty; (3) the cooking time is below 1;
    (4) the tags list repeats a tag; (5) the ingredients list repeats an
    ingredient.  Each later failure is reported only when every earlier check
    passes, a payload passing all five is returned as it came, and a payload
    that fails is written by neither the create nor the update path.  Checks
    1 and 2 do not need the cooking time; checks 3 to 5 are stated for a
    payload that has one. *)
Theorem validate_reports_first_failure (data : RecipeData) :
  (missing_or_empty (data_ingredients data) ->
   RecipeSerializer.validate data = inl (ValidationError INGREDIENTS_FIELD_EMPTY))
  /\
  (forall il, data_ingredients data = Some il -> il <> [] ->
   missing_or_empty (data_tags data) ->
   RecipeSerializer.validate data = inl (ValidationError TAGS_FIELD_EMPTY))
  /\
  (forall il tl ct,
   data_ingredients data = Some il -> il <> [] ->
   data_tags data = Some tl -> tl <> [] ->
   data_cooking_time data = Some ct ->
   (ct < 1 ->
    RecipeSerializer.validate data = inl (ValidationError COOKING_TIME_MIN_ERROR))
   /\
   (1 <= ct -> ~ NoDup tl ->
    RecipeSerializer.validate data = inl (ValidationError TAGS_UNIQUE_ERROR))
   /\
   (1 <= ct -> NoDup tl -> ~ NoDup (map ingredient il) ->
    RecipeSerializer.validate data = inl (ValidationError INGREDIENTS_UNIQUE_ERROR))
   /\
   (1 <= ct -> NoDup tl -> NoDup (map ingredient il) ->
    RecipeSerializer.validate data = inr data))
  /\
  (forall e, RecipeSerializer.validate data = inl e ->
   forall now user pk db,
     fst (RecipeViewSet.create now user data db) = db /\
     fst (RecipeViewSet.update now pk data db) = db).
Proof.
  split; [| split; [| split]].
  - intros H. unfold RecipeSerializer.validate. rewrite (falsy_true H). reflexivity.
  - intros il Hi Hine H. unfold RecipeSerializer.validate.
    rewrite (falsy_false Hi Hine), (falsy_true H). reflexivity.
  - intros il tl ct Hi Hine Ht Htne Hc.
    rewrite (validate_lists_present data Hi Hine Ht Htne Hc).
    unfold COOKING_TIME_MIN_VALUE.
    repeat split.
    + intros Hlt. apply Z.ltb_lt in Hlt. rewrite Hlt. reflexivity.
    + intros Hge Hdup. apply Z.ltb_ge in Hge. rewrite Hge.
      apply set_of_length_lt, Nat.ltb_lt in Hdup. rewrite Hdup. reflexivity.
    + intros Hge Htags Hdup. apply Z.ltb_ge in Hge. rewrite Hge.
      rewrite (set_of_NoDup Htags), Nat.ltb_irrefl.
      apply set_of_length_lt in Hdup.
      assert (Hneq : (length (map ingredient il)
                      =? length (py.set_of (map ingredient il)))%nat = false)
        by (apply Nat.eqb_neq; lia).
      rewrite Hneq. reflexivity.
    + intros Hge Htags Hingr. apply Z.ltb_ge in Hge. rewrite Hge.
      rewrite (set_of_NoDup Htags), Nat.ltb_irrefl.
      rewrite (set_of_NoDup Hingr), Nat.eqb_refl. reflexivity.
  - intros e He now user pk db. split.
    + rewrite (@create_invalid_no_write now user data e db He). reflexivity.
    + destruct (@update_invalid_no_write now pk data e db He) as [e' ->]. reflexivity.
Qed.

Lemma validate_reports_first_failure_witness :
  RecipeSerializer.validate (payload (Some []) None (Some 0))
    = inl (ValidationError INGREDIENTS_FIELD_EMPTY)
  /\ RecipeSerializer.validate (payload (Some [item 1 5; item 1 3]) (Some []) (Some 0))
    = inl (ValidationError TAGS_FIELD_EMPTY)
  /\ RecipeSerializer.validate (payload (Some [item 1 5; item 1 3]) (Some [7; 7]) (Some 0))
    = inl (ValidationError COOKING_TIME_MIN_ERROR)
  /\ RecipeSerializer.validate (payload (Some [item 1 5; item 1 3]) (Some [7; 7]) (Some 10))
    = inl (ValidationError TAGS_UNIQUE_ERROR)
  /\ RecipeSerializer.validate (payload (Some [item 1 5; item 1 3]) (Some [7; 8]) (Some 10))
    = inl (ValidationError INGREDIENTS_UNIQUE_ERROR)
  /\ RecipeSerializer.validate (payload (Some [item 1 5; item 2 3]) (Some [7; 8]) (Some 10))
    = inr (payload (Some [item 1 5; item 2 3]) (Some [7; 8]) (Some 10))
  /\ fst (RecipeViewSet.create 0 (mkUser 1 "u" "U" "V")
            (payload (Some []) None (Some 0)) empty_db) = empty_db
  /\ fst (RecipeViewSet.update 0 1 (payload (Some []) None (Some 0)) empty_db) = empty_db.
Proof.
  assert (Hne : forall A (x : A) l, x :: l <> []) by (intros; discriminate).
  assert (Hdup : forall x : Z, ~ NoDup [x; x]).
  { intros x H. inversion H as [| ? ? Hin ?]. apply Hin. left. reflexivity. }
  assert (Hnd78 : NoDup [7; 8]).
  { constructor; [| constructor; [| constructor]]; simpl; intuition discriminate. }
  assert (Hnd12 : NoDup [1; 2]).
  { constructor; [| constructor; [| constructor]]; simpl; intuition discriminate. }
  split; [| split; [| split; [| split; [| split; [| split]]]]].
  - apply (proj1 (validate_reports_first_failure (payload (Some []) None (Some 0)))).
    right. reflexivity.
  - apply (proj1 (proj2 (validate_reports_first_failure
             (payload (Some [item 1 5; item 1 3]) (Some []) (Some 0))))
             [item 1 5; item 1 3] eq_refl (Hne _ _ _)).
    right. reflexivity.
  - apply (proj1 (proj1 (proj2 (proj2 (validate_reports_first_failure
             (payload (Some [item 1 5; item 1 3]) (Some [7; 7]) (Some 0)))))
             [item 1 5; item 1 3] [7; 7] 0 eq_refl (Hne _ _ _) eq_refl (Hne _ _ _) eq_refl)).
    lia.
  - apply (proj1 (proj2 (proj1 (proj2 (proj2 (validate_reports_first_failure
             (payload (Some [item 1 5; item 1 3]) (Some [7; 7]) (Some 10)))))
             [item 1 5; item 1 3] [7; 7] 10 eq_refl (Hne _ _ _) eq_refl (Hne _ _ _) eq_refl))).
    + lia.
    + apply Hdup.
  - apply (proj1 (proj2 (proj2 (proj1 (proj2 (proj2 (validate_reports_first_failure
             (payload (Some [item 1 5; item 1 3]) (Some [7; 8]) (Some 10)))))
             [item 1 5; item 1 3] [7; 8] 10 eq_refl (Hne _ _ _) eq_refl (Hne _ _ _) eq_refl)))).
    + lia.
    + exact Hnd78.
    + apply Hdup.
  - apply (proj2 (proj2 (proj2 (proj1 (proj2 (proj2 (validate_reports_first_failure
             (payload (Some [item 1 5; item 2 3]) (Some [7; 8]) (Some 10)))))
             [item 1 5; item 2 3] [7; 8] 10 eq_refl (Hne _ _ _) eq_refl (Hne _ _ _) eq_refl)))).
    + lia.
    + exact Hnd78.
    + exact Hnd12.
  - apply (proj2 (proj2 (proj2 (validate_reports_first_failure
             (payload (Some []) None (Some 0))))) _ eq_refl 0 (mkUser 1 "u" "U" "V") 1 empty_db).
Defined.

(** C2, where the code departs from it.  Checks 1 and 2 read their field
    with [data.get], check 3 reads [data['cooking_time']] by subscript.  A
    payload that passes the two list checks and carries no cooking time, as
    a PATCH may, is therefore judged by none of the checks 3 to 5: [validate]
    raises [KeyError('cooking_time')] whatever its tags and ingredients
    repeat, both write paths let the exception through, which the framework
    answers with status 500, and nothing is written.  A PATCH with the
    ingredient 10 and the tags 5, 5 is such a payload; with a cooking time
    of 10 the same lists are reported as repeated tags. *)
Theorem validate_raises_KeyError_without_cooking_time
        (data : RecipeData) (il : list IngredientAmount) (tl : list Z) :
  data_ingredients data = Some il -> il <> [] ->
  data_tags data = Some tl -> tl <> [] ->
  data_cooking_time data = None ->
  RecipeSerializer.validate data = inl (KeyError "cooking_time")
  /\ (forall now pk db instance,
        find_recipe db pk = Some instance ->
        RecipeViewSet.update now pk data db = (db, inl (KeyError "cooking_time")))
  /\ (forall now user db,
        RecipeViewSet.create now user data db = (db, inl (KeyError "cooking_time")))
  /\ status_code (inl (KeyError "cooking_time")) = 500
  /\ RecipeSerializer.validate (payload (Some [item 10 5]) (Some [5; 5]) None)
     = inl (KeyError "cooking_time")
  /\ RecipeSerializer.validate (payload (Some [item 10 5]) (Some [5; 5]) (Some 10))
     = inl (ValidationError TAGS_UNIQUE_ERROR).
Proof.
  intros Hi Hine Ht Htne Hc.
  pose proof (validate_cooking_time_absent data Hi Hine Ht Htne Hc) as Hraise.
  split; [exact Hraise | split; [| split; [| split; [| split]]]];
    try reflexivity.
  - intros now pk db instance Hfind.
    unfold RecipeViewSet.update, bind, get_recipe_or_404.
    rewrite Hfind, Hraise. reflexivity.
  - intros now user db. apply create_invalid_no_write. exact Hraise.
Qed.

Lemma validate_raises_KeyError_without_cooking_time_witness :
  RecipeSerializer.validate (payload (Some [item 10 5]) (Some [5; 5]) None)
    = inl (KeyError "cooking_time")
  /\ RecipeViewSet.update 0 1 (payload (Some [item 10 5]) (Some [5; 5]) None) kitchen
    = (kitchen, inl (KeyError "cooking_time"))
  /\ RecipeViewSet.create 0 alice (payload (Some [item 10 5]) (Some [5; 5]) None) kitchen
    = (kitchen, inl (KeyError "cooking_time")).
Proof.
  destruct (@validate_raises_KeyError_without_cooking_time
              (payload (Some [item 10 5]) (Some [5; 5]) None) [item 10 5] [5; 5]
              eq_refl ltac:(discriminate) eq_refl ltac:(discriminate) eq_refl)
    as [Hraise [Hupdate [Hcreate _]]].
  split; [exact Hraise | split].
  - exact (Hupdate 0 1 kitchen pancakes eq_refl).
  - exact (Hcreate 0 alice kitchen).
Defined.

(** ** Recipe update *)

Lemma validate_ok_inv (data data' : RecipeData) :
  RecipeSerializer.validate data = inr data' ->
  data' = data /\
  exists il tl ct,
    data_ingredients data = Some il /\ il <> [] /\
    data_tags data = Some tl /\ tl <> [] /\
    data_cooking_time data = Some ct /\ 1 <= ct /\
    NoDup tl /\ NoDup (map ingredient il).
Proof.
  intros H.
  destruct (data_ingredients data) as [[| i il] |] eqn:Hi;
    try (unfold RecipeSerializer.validate in H; rewrite Hi in H; discriminate).
  destruct (data_tags data) as [[| t tl] |] eqn:Ht;
    try (unfold RecipeSerializer.validate in H; rewrite Hi, Ht in H; discriminate).
  destruct (data_cooking_time data) as [ct |] eqn:Hc;
    try (unfold RecipeSerializer.validate in H; rewrite Hi, Ht, Hc in H; discriminate).
  assert (Hine : i :: il <> []) by discriminate.
  assert (Htne : t :: tl <> []) by discriminate.
  rewrite (validate_lists_present data Hi Hine Ht Htne Hc) in H.
  unfold COOKING_TIME_MIN_VALUE in H.
  destruct (ct <? 1) eqn:Hct; try discriminate.
  destruct (length (py.set_of (t :: tl)) <? length (t :: tl))%nat eqn:Htags;
    try discriminate.
  destruct (length (map ingredient (i :: il))
            =? length (py.set_of (map ingredient (i :: il))))%nat eqn:Hingr;
    simpl negb in H; try discriminate.
  inversion H. split; [reflexivity |].
  exists (i :: il), (t :: tl), ct.
  repeat split; try assumption.
  - apply Z.ltb_ge. exact Hct.
  - apply set_of_length_eq_NoDup. apply Nat.ltb_ge in Htags.
    pose proof (set_of_length_le (t :: tl)). lia.
  - apply set_of_length_eq_NoDup. apply Nat.eqb_eq in Hingr. lia.
Qed.

(** *** Bulk insert of line items *)

Lemma insert_line_items_fresh (recipe : Z) :
  forall (items : list IngredientAmount) (table : list IngredientInRecipe),
    NoDup (map ingredient items) ->
    Forall (fun it => 0 <= amount it <= 32767) items ->
    (forall old, In old table -> iir_recipe old = recipe ->
                 ~ In (iir_ingredient old) (map ingredient items)) ->
    insert_line_items table (line_items_for recipe items)
      = Some (table ++ line_items_for recipe items).
Proof.
  induction items as [| it items IH]; intros table Hnd Hrange Hfresh; simpl.
  - rewrite app_nil_r. reflexivity.
  - inversion Hnd as [| ? ? Hnotin Hnd']; subst.
    inversion Hrange as [| ? ? [Hlo Hhi] Hrange']; subst.
    unfold line_item_admissible. simpl.
    assert (Hnone : existsb (fun old => (iir_recipe old =? recipe)
                                        && (iir_ingredient old =? ingredient it))
                            table = false).
    { apply not_true_is_false. intros Hex.
      apply existsb_exists in Hex. destruct Hex as [old [Hin Hold]].
      apply andb_true_iff in Hold. destruct Hold as [Hr Hi].
      apply Z.eqb_eq in Hr. apply Z.eqb_eq in Hi.
      apply (Hfresh old Hin Hr). left. symmetry. exact Hi. }
    rewrite Hnone. simpl.
    apply Z.leb_le in Hlo. apply Z.leb_le in Hhi. rewrite Hlo, Hhi. simpl.
    rewrite IH; try assumption.
    + rewrite <- app_assoc. reflexivity.
    + intros old Hin Hr Hmem. apply in_app_or in Hin. destruct Hin as [Hin | Hin].
      * apply (Hfresh old Hin Hr). right. exact Hmem.
      * destruct Hin as [<- | []]. simpl in Hmem. contradiction.
Qed.

Lemma filter_filter_and {A} (f g : A -> bool) (l : list A) :
  filter f (filter g l) = filter (fun x => g x && f x) l.
Proof.
  induction l as [| x l IH]; simpl; [reflexivity |].
  destruct (g x); simpl; [destruct (f x) |]; rewrite IH; reflexivity.
Qed.

Lemma filter_none {A} (f : A -> bool) (l : list A) :
  (forall x, In x l -> f x = false) -> filter f l = [].
Proof.
  induction l as [| x l IH]; simpl; intros H; [reflexivity |].
  rewrite (H x (or_introl eq_refl)). apply IH. intros y Hy. apply H. right. exact Hy.
Qed.

Lemma filter_all {A} (f : A -> bool) (l : list A) :
  (forall x, In x l -> f x = true) -> filter f l = l.
Proof.
  induction l as [| x l IH]; simpl; intros H; [reflexivity |].
  rewrite (H x (or_introl eq_refl)). f_equal. apply IH. intros y Hy. apply H. right. exact Hy.
Qed.

Lemma line_items_for_recipe (recipe : Z) (items : list IngredientAmount) :
  filter (fun row => iir_recipe row =? recipe) (line_items_for recipe items)
    = line_items_for recipe items.
Proof.
  apply filter_all. intros row Hin. unfold line_items_for in Hin.
  apply in_map_iff in Hin. destruct Hin as [it [<- _]]. simpl. apply Z.eqb_refl.
Qed.

Lemma line_items_for_other (recipe other : Z) (items : list IngredientAmount) :
  other <> recipe ->
  filter (fun row => iir_recipe row =? other) (line_items_for recipe items) = [].
Proof.
  intros Hne. apply filter_none. intros row Hin. unfold line_items_for in Hin.
  apply in_map_iff in Hin. destruct Hin as [it [<- _]]. simpl.
  apply Z.eqb_neq. congruence.
Qed.

Lemma line_items_for_pairs (recipe : Z) (items : list IngredientAmount) :
  map (fun row => (iir_ingredient row, iir_amount row)) (line_items_for recipe items)
    = map (fun it => (ingredient it, amount it)) items.
Proof. unfold line_items_for. rewrite map_map. reflexivity. Qed.

(** *** The many-to-many [set] *)

Lemma existsb_eqb_In (x : Z) (l : list Z) :
  existsb (Z.eqb x) l = true <-> In x l.
Proof.
  rewrite existsb_exists. split.
  - intros [y [Hin Heq]]. apply Z.eqb_eq in Heq. subst. exact Hin.
  - intros Hin. exists x. split; [exact Hin | apply Z.eqb_refl].
Qed.

Lemma existsb_eqb_notIn (x : Z) (l : list Z) :
  existsb (Z.eqb x) l = false <-> ~ In x l.
Proof.
  rewrite <- existsb_eqb_In. destruct (existsb (Z.eqb x) l); intuition congruence.
Qed.

Lemma set_split_old (objs : list Z) :
  forall old t, In t (snd (set_split objs old)) <-> In t old /\ ~ In t objs.
Proof.
  induction objs as [| obj rest IH]; intros old t; simpl.
  - tauto.
  - destruct (existsb (Z.eqb obj) old) eqn:Hmem.
    + rewrite IH. split.
      * intros [Hin Hrest]. apply in_remove in Hin. destruct Hin as [Hin Hne].
        split; [exact Hin |]. intros [Heq | Hr]; [congruence | contradiction].
      * intros [Hin Hnot]. split.
        -- apply in_in_remove; [| exact Hin]. intros Heq. apply Hnot. left. congruence.
        -- intros Hr. apply Hnot. right. exact Hr.
    + apply existsb_eqb_notIn in Hmem.
      specialize (IH old t). destruct (set_split rest old) as [new_objs old_ids].
      simpl in *. rewrite IH. split.
      * intros [Hin Hrest]. split; [exact Hin |].
        intros [Heq | Hr]; [subst; contradiction | contradiction].
      * intros [Hin Hnot]. split; [exact Hin |]. intros Hr. apply Hnot. right. exact Hr.
Qed.

Lemma set_split_new_sub (objs : list Z) :
  forall old t, In t (fst (set_split objs old)) -> In t objs.
Proof.
  induction objs as [| obj rest IH]; intros old t; simpl.
  - tauto.
  - destruct (existsb (Z.eqb obj) old).
    + intros H. right. exact (IH _ _ H).
    + specialize (IH old t). destruct (set_split rest old) as [new_objs old_ids].
      simpl in *. intros [Heq | H]; [left; exact Heq | right; exact (IH H)].
Qed.

Lemma set_split_new_sup (objs : list Z) :
  forall old t, In t objs -> ~ In t old -> In t (fst (set_split objs old)).
Proof.
  induction objs as [| obj rest IH]; intros old t; simpl.
  - tauto.
  - intros Hin Hnot. destruct (existsb (Z.eqb obj) old) eqn:Hmem.
    + apply existsb_eqb_In in Hmem. destruct Hin as [Heq | Hin].
      * subst. contradiction.
      * apply IH; [exact Hin |]. intros Hr. apply in_remove in Hr. tauto.
    + specialize (IH old t). destruct (set_split rest old) as [new_objs old_ids].
      simpl in *. destruct Hin as [Heq | Hin]; [left; exact Heq | right; auto].
Qed.

(** The through rows of [recipe] that survive the removal of [old_ids]. *)
Lemma kept_tags_of (recipe : Z) (old_ids : list Z) (rows : list (Z * Z)) :
  map snd (filter (fun row => fst row =? recipe)
             (filter (fun row => negb ((fst row =? recipe)
                                       && existsb (Z.eqb (snd row)) old_ids)) rows))
  = filter (fun t => negb (existsb (Z.eqb t) old_ids))
           (map snd (filter (fun row => fst row =? recipe) rows)).
Proof.
  induction rows as [| [r t] rows IH]; simpl; [reflexivity |].
  destruct (r =? recipe) eqn:Hr; simpl.
  - destruct (existsb (Z.eqb t) old_ids); simpl.
    + exact IH.
    + rewrite Hr. simpl. f_equal. exact IH.
  - rewrite Hr. exact IH.
Qed.

Lemma kept_tags_other (recipe other : Z) (old_ids : list Z) (rows : list (Z * Z)) :
  other <> recipe ->
  filter (fun row => fst row =? other)
    (filter (fun row => negb ((fst row =? recipe)
                              && existsb (Z.eqb (snd row)) old_ids)) rows)
  = filter (fun row => fst row =? other) rows.
Proof.
  intros Hne. rewrite filter_filter_and. apply filter_ext. intros [r t]. simpl.
  destruct (r =? other) eqn:Ho; [| apply andb_false_r].
  apply Z.eqb_eq in Ho. subst.
  assert (Hr : (other =? recipe) = false) by (apply Z.eqb_neq; exact Hne).
  rewrite Hr. reflexivity.
Qed.

Lemma added_tags_of (recipe : Z) (missing : list Z) :
  map snd (filter (fun row : Z * Z => fst row =? recipe)
             (map (fun t => (recipe, t)) missing)) = missing.
Proof.
  rewrite filter_all.
  - rewrite map_map. simpl. apply map_id.
  - intros row Hin. apply in_map_iff in Hin. destruct Hin as [t [<- _]].
    simpl. apply Z.eqb_refl.
Qed.

Lemma added_tags_other (recipe other : Z) (missing : list Z) :
  other <> recipe ->
  filter (fun row : Z * Z => fst row =? other)
    (map (fun t => (recipe, t)) missing) = [].
Proof.
  intros Hne. apply filter_none. intros row Hin.
  apply in_map_iff in Hin. destruct Hin as [t [<- _]]. simpl.
  apply Z.eqb_neq. congruence.
Qed.

Section TagsSet.
Variable recipe : Z.
Variable objs : list Z.
Variable rows : list (Z * Z).

Let current := map snd (filter (fun row : Z * Z => fst row =? recipe) rows).
Let after :=
  map snd (filter (fun row : Z * Z => fst row =? recipe) (set_rows recipe objs rows)).

Lemma set_rows_tags :
  exists old_ids new_objs,
    set_split objs (py.set_of current) = (new_objs, old_ids) /\
    after =
      filter (fun t => negb (existsb (Z.eqb t) old_ids)) current
      ++ filter (fun t => negb (existsb (Z.eqb t)
                   (filter (fun t => negb (existsb (Z.eqb t) old_ids)) current)))
           (py.set_of new_objs).
Proof.
  unfold after, set_rows. fold current.
  destruct (set_split objs (py.set_of current)) as [new_objs old_ids] eqn:Hsplit.
  exists old_ids, new_objs. split; [reflexivity |].
  rewrite filter_app, map_app, kept_tags_of, added_tags_of. reflexivity.
Qed.

Lemma set_rows_exactly (t : Z) : In t after <-> In t objs.
Proof.
  destruct set_rows_tags as [old_ids [new_objs [Hsplit ->]]].
  pose proof (set_split_old objs (py.set_of current)) as Hold.
  pose proof (set_split_new_sub objs (py.set_of current)) as Hsub.
  pose proof (set_split_new_sup objs (py.set_of current)) as Hsup.
  rewrite Hsplit in Hold, Hsub, Hsup. simpl in Hold, Hsub, Hsup.
  unfold py.set_of in *.
  rewrite in_app_iff, !filter_In, !negb_true_iff, !existsb_eqb_notIn.
  rewrite nodup_In. split.
  - intros [[Hcur Hkeep] | [Hnew _]].
    + destruct (in_dec Z.eq_dec t objs) as [Hin | Hnin]; [exact Hin |].
      exfalso. apply Hkeep. apply Hold. split; [| exact Hnin].
      apply nodup_In. exact Hcur.
    + apply Hsub. exact Hnew.
  - intros Hin. destruct (in_dec Z.eq_dec t current) as [Hcur | Hncur].
    + left. split; [exact Hcur |]. intros Hrm. apply Hold in Hrm. tauto.
    + right. split.
      * apply Hsup; [exact Hin |]. rewrite nodup_In. exact Hncur.
      * rewrite filter_In. tauto.
Qed.

Lemma set_rows_NoDup : NoDup current -> NoDup after.
Proof.
  intros Hnd. destruct set_rows_tags as [old_ids [new_objs [_ ->]]].
  apply NoDup_app.
  - apply NoDup_filter. exact Hnd.
  - apply NoDup_filter. apply NoDup_nodup.
  - intros t Hkept Hnew. apply filter_In in Hnew. destruct Hnew as [_ Hnew].
    apply negb_true_iff, existsb_eqb_notIn in Hnew. contradiction.
Qed.

Lemma set_rows_other (other : Z) :
  other <> recipe ->
  filter (fun row : Z * Z => fst row =? other) (set_rows recipe objs rows)
    = filter (fun row : Z * Z => fst row =? other) rows.
Proof.
  intros Hne. unfold set_rows.
  destruct (set_split objs _) as [new_objs old_ids].
  rewrite filter_app, kept_tags_other, added_tags_other by exact Hne.
  apply app_nil_r.
Qed.

End TagsSet.

(** *** The update transaction *)

(** [RecipeSerializer.update] on a payload whose line items are pairwise
    different ingredients with amounts the column admits: the database it
    commits. *)
Lemma update_commits now (instance : Recipe) (data : RecipeData) il tl (db : DB) :
  data_ingredients data = Some il ->
  data_tags data = Some tl ->
  NoDup (map ingredient il) ->
  Forall (fun it => 0 <= amount it <= 32767) il ->
  exists db' saved,
    RecipeSerializer.update now instance data db = (db', inr saved) /\
    ingredient_list db' =
      filter (fun row => negb (iir_recipe row =? recipe_id instance)) (ingredient_list db)
      ++ line_items_for (recipe_id instance) il /\
    recipe_tags db' = set_rows (recipe_id instance) tl (recipe_tags db).
Proof.
  intros Hi Ht Hnd Hrange.
  unfold RecipeSerializer.update.
  set (rid := recipe_id instance).
  set (kept := filter (fun row => negb (iir_recipe row =? rid)) (ingredient_list db)).
  assert (Hins : insert_line_items kept (line_items_for rid il)
                 = Some (kept ++ line_items_for rid il)).
  { apply insert_line_items_fresh; try assumption.
    intros old Hin Hr _. unfold kept in Hin. apply filter_In in Hin.
    destruct Hin as [_ Hkeep]. apply negb_true_iff, Z.eqb_neq in Hkeep. contradiction. }
  eexists. eexists. split.
  - apply atomic_commit.
    rewrite Ht, Hi. simpl getitem. rewrite !bind_lift_inr.
    unfold delete_line_items, tags_set, RecipeSerializer.create_ingredients,
      RecipeSerializer.super_update, RecipeSerializer.save, bulk_create, modify, bind.
    simpl. fold rid. fold kept. fold (line_items_for rid il). rewrite Hins.
    reflexivity.
  - simpl. split; reflexivity.
Qed.

Lemma find_recipe_id (db : DB) (pk : Z) (r : Recipe) :
  find_recipe db pk = Some r -> recipe_id r = pk.
Proof.
  unfold find_recipe. intros H. apply find_some in H. destruct H as [_ H].
  apply Z.eqb_eq. exact H.
Qed.

Lemma deleted_line_items_of (recipe : Z) (table : list IngredientInRecipe) :
  filter (fun row => iir_recipe row =? recipe)
    (filter (fun row => negb (iir_recipe row =? recipe)) table) = [].
Proof.
  apply filter_none. intros row Hin. apply filter_In in Hin.
  destruct Hin as [_ H]. apply negb_true_iff in H. exact H.
Qed.

Lemma deleted_line_items_other (recipe other : Z) (table : list IngredientInRecipe) :
  other <> recipe ->
  filter (fun row => iir_recipe row =? other)
    (filter (fun row => negb (iir_recipe row =? recipe)) table)
  = filter (fun row => iir_recipe row =? other) table.
Proof.
  intros Hne. rewrite filter_filter_and. apply filter_ext. intros row.
  destruct (iir_recipe row =? other) eqn:Ho; [| apply andb_false_r].
  apply Z.eqb_eq in Ho. rewrite Ho.
  assert (Hr : (other =? recipe) = false) by (apply Z.eqb_neq; exact Hne).
  rewrite Hr. reflexivity.
Qed.

Lemma update_request_rollback now pk data db db' e :
  RecipeViewSet.update now pk data db = (db', inl e) -> db' = db.
Proof.
  unfold RecipeViewSet.update, bind, get_recipe_or_404, lift.
  destruct (find_recipe db pk) as [instance |]; [| intros H; inversion H; reflexivity].
  destruct (RecipeSerializer.validate data) as [e' | validated];
    [intros H; inversion H; reflexivity |].
  unfold RecipeSerializer.update. apply atomic_rollback.
Qed.

(** C1.  A recipe update with a valid payload carrying the line items [il]
    and the tags [tl] commits, and afterwards the stored line items of the
    recipe are exactly the pairs of [il] (every earlier line item of the
    recipe is gone) and its tags are exactly [tl]; other recipes keep their
    line items and tags.  Deletion and re-insertion run in one transaction:
    an update request that raises, on any payload, leaves the database as it
    was.  Valid means: accepted by [validate], with amounts in the range of
    the amount column; the through table holds no pair twice. *)
Theorem update_replaces_line_items_and_tags
        now pk (instance : Recipe) (data : RecipeData) il tl (db : DB) :
  find_recipe db pk = Some instance ->
  RecipeSerializer.validate data = inr data ->
  data_ingredients data = Some il ->
  data_tags data = Some tl ->
  Forall (fun it => 0 <= amount it <= 32767) il ->
  NoDup (tags_of db pk) ->
  (exists db' saved,
     RecipeViewSet.update now pk data db = (db', inr saved) /\
     line_items_of db' pk = map (fun it => (ingredient it, amount it)) il /\
     Permutation (tags_of db' pk) tl /\
     (forall other, other <> pk ->
        line_items_of db' other = line_items_of db other /\
        tags_of db' other = tags_of db other))
  /\
  (forall data' db'' e,
     RecipeViewSet.update now pk data' db = (db'', inl e) -> db'' = db).
Proof.
  intros Hfind Hvalid Hi Ht Hrange Hthrough.
  split; [| intros data' db'' e; apply update_request_rollback].
  pose proof (@find_recipe_id db pk instance Hfind) as Hid.
  destruct (@validate_ok_inv data data Hvalid) as [_ [il' [tl' [ct [Hi' [_ [Ht' [_ [_ [_ [Hndt Hndi]]]]]]]]]]].
  rewrite Hi in Hi'. rewrite Ht in Ht'. inversion Hi'. inversion Ht'. subst il' tl'.
  destruct (@update_commits now instance data il tl db Hi Ht Hndi Hrange)
    as [db' [saved [Hrun [Hlines Htags]]]].
  rewrite Hid in Hlines, Htags.
  exists db', saved. split; [| split; [| split]].
  - unfold RecipeViewSet.update, bind, get_recipe_or_404, lift.
    rewrite Hfind, Hvalid. exact Hrun.
  - unfold line_items_of. rewrite Hlines, filter_app.
    rewrite deleted_line_items_of, line_items_for_recipe. simpl.
    apply line_items_for_pairs.
  - unfold tags_of in *. rewrite Htags.
    apply NoDup_Permutation.
    + apply set_rows_NoDup. exact Hthrough.
    + exact Hndt.
    + intros t. apply set_rows_exactly.
  - intros other Hne. split.
    + unfold line_items_of. rewrite Hlines, filter_app.
      rewrite deleted_line_items_other, line_items_for_other by exact Hne.
      rewrite app_nil_r. reflexivity.
    + unfold tags_of. rewrite Htags, set_rows_other by exact Hne. reflexivity.
Qed.

(** Recipe 1 goes from the line items {10: 1, 11: 2} to {12: 3}: one line
    item is left and no row of ingredient 10 or 11 remains for it. *)
Lemma update_replaces_line_items_and_tags_witness :
  exists db' saved,
    RecipeViewSet.update 100 1 (payload (Some [item 12 3]) (Some [6]) (Some 10)) kitchen
      = (db', inr saved) /\
    line_items_of db' 1 = [(12, 3)] /\
    Permutation (tags_of db' 1) [6] /\
    (forall other, other <> 1 ->
       line_items_of db' other = line_items_of kitchen other /\
       tags_of db' other = tags_of kitchen other).
Proof.
  assert (Hrange : Forall (fun it => 0 <= amount it <= 32767) [item 12 3]).
  { constructor; [simpl; lia | constructor]. }
  assert (Hthrough : NoDup (tags_of kitchen 1)).
  { change (NoDup [5]). constructor; [intros [] | constructor]. }
  exact (proj1 (@update_replaces_line_items_and_tags
                  100 1 pancakes (payload (Some [item 12 3]) (Some [6]) (Some 10))
                  [item 12 3] [6] kitchen
                  eq_refl eq_refl eq_refl eq_refl Hrange Hthrough)).
Defined.

(** The transaction at work: an amount outside the column range makes the
    bulk insert raise after the old line items were deleted, and the
    deletion is undone. *)
Example update_rolls_back_deletion :
  RecipeViewSet.update 100 1 (payload (Some [item 12 40000]) (Some [6]) (Some 10)) kitchen
    = (kitchen, inl IntegrityError)
  /\ line_items_of kitchen 1 = [(10, 1); (11, 2)].
Proof. split; reflexivity. Qed.

(** ** Shopping-list aggregation *)

Section Aggregation.
Import RecipeViewSet.

Lemma key_eqb_eq (a b : Key) : key_eqb a b = true <-> a = b.
Proof.
  unfold key_eqb. destruct a as [n1 u1], b as [n2 u2]. simpl.
  rewrite andb_true_iff, !String.eqb_eq. split.
  - intros [-> ->]. reflexivity.
  - intros H. inversion H. tauto.
Qed.

Lemma key_eqb_refl (a : Key) : key_eqb a a = true.
Proof. apply key_eqb_eq. reflexivity. Qed.

Lemma key_eqb_neq (a b : Key) : key_eqb a b = false <-> a <> b.
Proof.
  rewrite <- key_eqb_eq. destruct (key_eqb a b); intuition congruence.
Qed.

Lemma add_to_group_keys (k : Key) (a : Z) (groups : list (Key * Z)) (k' : Key) :
  In k' (map fst (add_to_group k a groups)) <-> k' = k \/ In k' (map fst groups).
Proof.
  induction groups as [| [k0 q] rest IH]; simpl.
  - intuition.
  - destruct (key_eqb k k0) eqn:Hk; simpl.
    + apply key_eqb_eq in Hk. subst. intuition.
    + rewrite IH. intuition.
Qed.

Lemma add_to_group_NoDup (k : Key) (a : Z) (groups : list (Key * Z)) :
  NoDup (map fst groups) -> NoDup (map fst (add_to_group k a groups)).
Proof.
  induction groups as [| [k0 q] rest IH]; simpl; intros Hnd.
  - constructor; [intros [] | constructor].
  - inversion Hnd as [| ? ? Hnotin Hnd']; subst.
    destruct (key_eqb k k0) eqn:Hk; simpl.
    + constructor; assumption.
    + constructor; [| apply IH; exact Hnd'].
      rewrite add_to_group_keys. intros [Heq | Hin]; [| contradiction].
      apply key_eqb_neq in Hk. congruence.
Qed.

Lemma add_to_group_total (k : Key) (a : Z) (groups : list (Key * Z)) (k' : Key) :
  total_for k' (add_to_group k a groups)
    = total_for k' groups + (if key_eqb k' k then a else 0).
Proof.
  unfold total_for. induction groups as [| [k0 q] rest IH]; simpl.
  - destruct (key_eqb k' k); simpl; lia.
  - destruct (key_eqb k k0) eqn:Hk; simpl.
    + apply key_eqb_eq in Hk. subst k0.
      destruct (key_eqb k' k); simpl; lia.
    + destruct (key_eqb k' k0) eqn:Hk0; simpl; rewrite IH; [| reflexivity].
      apply key_eqb_eq in Hk0. subst k0.
      assert (Hne : key_eqb k' k = false).
      { apply key_eqb_neq. apply key_eqb_neq in Hk. congruence. }
      rewrite Hne. lia.
Qed.

Lemma total_for_app (k : Key) (xs ys : list (Key * Z)) :
  total_for k (xs ++ ys) = total_for k xs + total_for k ys.
Proof.
  unfold total_for. rewrite filter_app, map_app.
  induction (map snd (filter (fun row => key_eqb k (fst row)) xs)) as [| z zs IH];
    simpl; lia.
Qed.

Lemma total_for_absent (k : Key) (groups : list (Key * Z)) :
  ~ In k (map fst groups) -> total_for k groups = 0.
Proof.
  unfold total_for. intros Hnot. rewrite filter_none; [reflexivity |].
  intros [k0 q] Hin. simpl. apply key_eqb_neq. intros ->.
  apply Hnot. apply in_map_iff. exists (k0, q). split; [reflexivity | exact Hin].
Qed.

(** In a table with one row per key, the row of a key holds its total. *)
Lemma total_for_group (groups : list (Key * Z)) (k : Key) (q : Z) :
  NoDup (map fst groups) -> In (k, q) groups -> total_for k groups = q.
Proof.
  induction groups as [| [k0 q0] rest IH]; simpl; intros Hnd Hin; [contradiction |].
  inversion Hnd as [| ? ? Hnotin Hnd']; subst.
  change ((k0, q0) :: rest) with ([(k0, q0)] ++ rest). rewrite total_for_app.
  destruct Hin as [Heq | Hin].
  - inversion Heq. subst. rewrite (total_for_absent _ _ Hnotin).
    unfold total_for. simpl. rewrite key_eqb_refl. simpl. lia.
  - rewrite (IH Hnd' Hin). unfold total_for. simpl.
    assert (Hne : key_eqb k k0 = false).
    { apply key_eqb_neq. intros ->. apply Hnotin.
      apply in_map_iff. exists (k0, q). split; [reflexivity | exact Hin]. }
    rewrite Hne. simpl. lia.
Qed.

Let step := fun (groups : list (Key * Z)) (row : Key * Z) =>
              add_to_group (fst row) (snd row) groups.

Lemma fold_groups_keys (rows acc : list (Key * Z)) (k : Key) :
  In k (map fst (fold_left step rows acc))
  <-> In k (map fst acc) \/ In k (map fst rows).
Proof.
  revert acc. induction rows as [| row rows IH]; intros acc; simpl.
  - tauto.
  - rewrite IH. unfold step. rewrite add_to_group_keys. intuition.
Qed.

Lemma fold_groups_NoDup (rows acc : list (Key * Z)) :
  NoDup (map fst acc) -> NoDup (map fst (fold_left step rows acc)).
Proof.
  revert acc. induction rows as [| row rows IH]; intros acc Hnd; simpl.
  - exact Hnd.
  - apply IH. apply add_to_group_NoDup. exact Hnd.
Qed.

Lemma fold_groups_total (rows acc : list (Key * Z)) (k : Key) :
  total_for k (fold_left step rows acc) = total_for k acc + total_for k rows.
Proof.
  revert acc. induction rows as [| row rows IH]; intros acc; simpl.
  - unfold total_for at 3. simpl. lia.
  - rewrite IH. unfold step. rewrite add_to_group_total.
    change (row :: rows) with ([row] ++ rows). rewrite total_for_app.
    assert (Hone : total_for k [row] = if key_eqb k (fst row) then snd row else 0).
    { unfold total_for. simpl. destruct (key_eqb k (fst row)); simpl; lia. }
    rewrite Hone. lia.
Qed.

(** [annotate_sum]: one group per key that occurs, holding the key's sum. *)
Lemma annotate_sum_groups (rows : list (Key * Z)) :
  NoDup (map fst (annotate_sum rows))
  /\ (forall k, In k (map fst (annotate_sum rows)) <-> In k (map fst rows))
  /\ (forall k q, In (k, q) (annotate_sum rows) -> q = total_for k rows).
Proof.
  unfold annotate_sum. fold step. split; [| split].
  - apply fold_groups_NoDup. constructor.
  - intros k. rewrite fold_groups_keys. simpl. tauto.
  - intros k q Hin.
    assert (Hnd : NoDup (map fst (fold_left step rows [])))
      by (apply fold_groups_NoDup; constructor).
    rewrite <- (@total_for_group _ k q Hnd Hin).
    rewrite fold_groups_total. reflexivity.
Qed.

End Aggregation.

(** *** The join behind the aggregation *)

Lemma flat_map_none {A B} (p : A -> bool) (f : A -> list B) (l : list A) :
  (forall y, In y l -> p y = false) ->
  flat_map (fun y => if p y then f y else []) l = [].
Proof.
  induction l as [| y l IH]; simpl; intros Hnone; [reflexivity |].
  rewrite (Hnone y (or_introl eq_refl)). simpl. apply IH.
  intros z Hz. apply Hnone. right. exact Hz.
Qed.

Lemma flat_map_at_most_one {A B} (p : A -> bool) (f : A -> list B) (l : list A) :
  NoDup l ->
  (forall x y, In x l -> In y l -> p x = true -> p y = true -> x = y) ->
  flat_map (fun x => if p x then f x else []) l
    = match find p l with Some x => f x | None => [] end.
Proof.
  induction l as [| x l IH]; simpl; intros Hnd Huniq; [reflexivity |].
  inversion Hnd as [| ? ? Hnotin Hnd']; subst.
  destruct (p x) eqn:Hpx.
  - assert (Hnone : forall y, In y l -> p y = false).
    { intros y Hy. destruct (p y) eqn:Hpy; [| reflexivity].
      exfalso. apply Hnotin.
      rewrite (Huniq x y (or_introl eq_refl) (or_intror Hy) Hpx Hpy). exact Hy. }
    rewrite (flat_map_none p f l Hnone). apply app_nil_r.
  - simpl. apply IH; [exact Hnd' |].
    intros y z Hy Hz. apply Huniq; right; assumption.
Qed.

Lemma NoDup_map_inj_on {A B} (g : A -> B) (l : list A) :
  NoDup (map g l) ->
  forall x y, In x l -> In y l -> g x = g y -> x = y.
Proof.
  induction l as [| a l IH]; simpl; intros Hnd x y Hx Hy Heq; [contradiction |].
  inversion Hnd as [| ? ? Hnotin Hnd']; subst.
  destruct Hx as [-> | Hx], Hy as [-> | Hy].
  - reflexivity.
  - exfalso. apply Hnotin. rewrite Heq. apply in_map. exact Hy.
  - exfalso. apply Hnotin. rewrite <- Heq. apply in_map. exact Hx.
  - apply IH; assumption.
Qed.

Lemma find_existsb {A} (p : A -> bool) (l : list A) :
  existsb p l = match find p l with Some _ => true | None => false end.
Proof.
  induction l as [| x l IH]; simpl; [reflexivity |].
  destruct (p x); [reflexivity | exact IH].
Qed.

(** Under the uniqueness constraint of the cart table and the primary key of
    the ingredient table, the query's join lists every line item of a recipe
    in the cart once. *)
Lemma cart_rows_line_items (db : DB) (user : Z) :
  NoDup (shopping_cart db) ->
  NoDup (map ingredient_id (ingredients db)) ->
  RecipeViewSet.cart_rows db user = cart_line_items db user.
Proof.
  intros Hcart Hing. unfold RecipeViewSet.cart_rows, cart_line_items.
  apply flat_map_ext. intros item.
  rewrite (flat_map_at_most_one
             (fun entry => (ur_recipe entry =? iir_recipe item) && (ur_user entry =? user))
             (fun _ => flat_map (fun ing =>
                 if ingredient_id ing =? iir_ingredient item
                 then [((ingredient_name ing, measurement_unit ing), iir_amount item)]
                 else []) (ingredients db))
             Hcart).
  - unfold in_cart. rewrite find_existsb.
    destruct (find _ (shopping_cart db)); [| reflexivity].
    apply (flat_map_at_most_one
             (fun ing => ingredient_id ing =? iir_ingredient item)
             (fun ing => [((ingredient_name ing, measurement_unit ing), iir_amount item)])).
    + apply (NoDup_map_inv ingredient_id). exact Hing.
    + intros x y Hx Hy Hpx Hpy. apply Z.eqb_eq in Hpx. apply Z.eqb_eq in Hpy.
      apply (NoDup_map_inj_on ingredient_id _ Hing); [assumption | assumption | congruence].
  - intros [u1 r1] [u2 r2] _ _ H1 H2. simpl in *.
    apply andb_true_iff in H1. apply andb_true_iff in H2.
    destruct H1 as [Hr1 Hu1], H2 as [Hr2 Hu2].
    apply Z.eqb_eq in Hr1, Hu1, Hr2, Hu2. congruence.
Qed.

(** *** The lines of the text *)

Lemma append_assoc (a b c : string) :
  ((a ++ b) ++ c = a ++ (b ++ c))%string.
Proof. induction a as [| x a IH]; simpl; [reflexivity | rewrite IH; reflexivity]. Qed.

Lemma one_line_append (a b : string) :
  one_line (a ++ b) = one_line a && one_line b.
Proof.
  induction a as [| c a IH]; simpl; [reflexivity |].
  rewrite IH. apply andb_assoc.
Qed.

Lemma lines_of_one_line (a : string) :
  one_line a = true -> lines_of a = [a].
Proof.
  induction a as [| c a IH]; simpl; [reflexivity |].
  intros H. apply andb_true_iff in H. destruct H as [Hc Ha].
  apply negb_true_iff in Hc. rewrite Hc, (IH Ha). reflexivity.
Qed.

(** A piece without a line break, followed by a line break, is a line. *)
Lemma lines_of_cut (a rest : string) :
  one_line a = true ->
  lines_of (a ++ RecipeViewSet.newline ++ rest) = a :: lines_of rest.
Proof.
  induction a as [| c a IH]; simpl; [reflexivity |].
  intros H. apply andb_true_iff in H. destruct H as [Hc Ha].
  apply negb_true_iff in Hc. rewrite Hc.
  simpl in IH. rewrite (IH Ha). reflexivity.
Qed.

Lemma one_line_uint (d : Decimal.uint) :
  one_line (NilEmpty.string_of_uint d) = true.
Proof. induction d; simpl; try reflexivity; assumption. Qed.

Lemma one_line_str_of_int (z : Z) : one_line (py.str_of_int z) = true.
Proof.
  unfold py.str_of_int, NilZero.string_of_int, NilZero.string_of_uint.
  destruct (Z.to_int z) as [d | d]; destruct d; simpl; try reflexivity;
    apply one_line_uint.
Qed.

Lemma one_line_shopping_line (group : RecipeViewSet.Key * Z) :
  one_line (fst (fst group)) = true ->
  one_line (snd (fst group)) = true ->
  one_line (RecipeViewSet.shopping_line group) = true.
Proof.
  intros Hname Hunit. unfold RecipeViewSet.shopping_line.
  rewrite !one_line_append, Hname, Hunit, one_line_str_of_int. reflexivity.
Qed.

(** Joining lines with line breaks and cutting at line breaks gives the
    lines back. *)
Lemma lines_of_join (lines : list string) (rest : string) :
  (forall x, In x lines -> one_line x = true) ->
  lines <> [] ->
  lines_of (py.join RecipeViewSet.newline lines ++ RecipeViewSet.newline ++ rest)
    = lines ++ lines_of rest.
Proof.
  induction lines as [| x more IH]; intros Hall Hne; [contradiction Hne; reflexivity |].
  destruct more as [| y more].
  - simpl py.join. apply lines_of_cut. apply Hall. left. reflexivity.
  - change (py.join RecipeViewSet.newline (x :: y :: more))
      with (x ++ RecipeViewSet.newline
              ++ py.join RecipeViewSet.newline (y :: more))%string.
    rewrite !append_assoc.
    rewrite lines_of_cut by (apply Hall; left; reflexivity).
    rewrite IH; [reflexivity | | discriminate].
    intros z Hz. apply Hall. right. exact Hz.
Qed.

(** The lines of the shopping list: the heading, the date, one line per
    group and the footer, with the blank lines of the format between. *)
Lemma lines_of_shopping_list_text
      (user : User) (today_dmy today_Y : string)
      (groups : list (RecipeViewSet.Key * Z)) :
  one_line (get_full_name user) = true ->
  one_line today_dmy = true ->
  one_line today_Y = true ->
  (forall group, In group groups ->
     one_line (fst (fst group)) = true /\ one_line (snd (fst group)) = true) ->
  lines_of (shopping_list_text user today_dmy today_Y groups)
  = ["Список покупок для: " ++ get_full_name user; "";
     "Дата: " ++ today_dmy; ""]%string
    ++ match groups with
       | [] => [EmptyString]
       | _ :: _ => map RecipeViewSet.shopping_line groups
       end
    ++ [EmptyString; ("Foodgram (" ++ today_Y ++ ")")%string].
Proof.
  intros Hname Hdmy HY Hgroups.
  set (heading := ("Список покупок для: " ++ get_full_name user)%string).
  set (date := ("Дата: " ++ today_dmy)%string).
  set (footer := ("Foodgram (" ++ today_Y ++ ")")%string).
  set (body := py.join RecipeViewSet.newline (map RecipeViewSet.shopping_line groups)).
  assert (Hshape :
    shopping_list_text user today_dmy today_Y groups
    = (heading ++ RecipeViewSet.newline ++ "" ++ RecipeViewSet.newline
       ++ date ++ RecipeViewSet.newline ++ "" ++ RecipeViewSet.newline
       ++ body ++ RecipeViewSet.newline ++ "" ++ RecipeViewSet.newline
       ++ footer)%string).
  { unfold shopping_list_text, heading, date, footer, body.
    rewrite !append_assoc. reflexivity. }
  assert (Hheading : one_line heading = true).
  { unfold heading. rewrite one_line_append, Hname. reflexivity. }
  assert (Hdate : one_line date = true).
  { unfold date. rewrite one_line_append, Hdmy. reflexivity. }
  assert (Hfooter : one_line footer = true).
  { unfold footer. rewrite !one_line_append, HY. reflexivity. }
  rewrite Hshape.
  rewrite (@lines_of_cut _ _ Hheading).
  rewrite (@lines_of_cut EmptyString _ eq_refl).
  rewrite (@lines_of_cut _ _ Hdate).
  rewrite (@lines_of_cut EmptyString _ eq_refl).
  assert (Htail : lines_of ("" ++ RecipeViewSet.newline ++ footer)%string
                  = [EmptyString; footer]).
  { rewrite (@lines_of_cut EmptyString _ eq_refl).
    rewrite (@lines_of_one_line _ Hfooter). reflexivity. }
  destruct groups as [| group more] eqn:Hg.
  - unfold body. simpl py.join.
    rewrite (@lines_of_cut EmptyString _ eq_refl), Htail. reflexivity.
  - unfold body. rewrite lines_of_join.
    + rewrite Htail. reflexivity.
    + intros x Hx. apply in_map_iff in Hx. destruct Hx as [g [<- Hin]].
      destruct (Hgroups g Hin) as [H1 H2]. apply one_line_shopping_line; assumption.
    + discriminate.
Qed.

(** C3.  The shopping-list download of a user whose cart is empty answers
    400 without a body.  For a user whose cart is not empty it answers 200
    with the text built from [groups], where the groups, in whatever order
    the database returns them, have pairwise different (name, unit) keys,
    cover exactly the keys of the line items joined from the user's cart,
    and hold for each key the sum of the amounts of those line items; under
    the table constraints the join lists every line item of a recipe in the
    cart once.  Cut at its line breaks, the text is the heading, the date,
    exactly one line "- name (unit) - sum" per group and the footer, when no
    name in it holds a line break.  Flour (g) 200 in one recipe of the cart
    and Flour (g) 300 in another give a text with the one line
    "- Flour (g) - 500" between heading and footer; with Milk (ml) 50 added
    to the second recipe the text holds that line and the line
    "- Milk (ml) - 50", in either order. *)
Theorem download_shopping_cart_aggregates
        (produced : list (RecipeViewSet.Key * Z) -> list (RecipeViewSet.Key * Z))
        (user : User) (today_dmy today_Y : string) (db : DB) :
  (forall groups, Permutation (produced groups) groups) ->
  ((forall entry, In entry (shopping_cart db) -> ur_user entry <> user_id user) ->
   RecipeViewSet.download_shopping_cart produced user today_dmy today_Y db
     = (db, inr (mkResponse 400 NoBody)))
  /\
  ((exists entry, In entry (shopping_cart db) /\ ur_user entry = user_id user) ->
   exists groups,
     RecipeViewSet.download_shopping_cart produced user today_dmy today_Y db
       = (db, inr (mkResponse 200
                     (TextAttachment (username user ++ "_shopping_list.txt")
                        (shopping_list_text user today_dmy today_Y groups))))
     /\ NoDup (map fst groups)
     /\ (forall k, In k (map fst groups)
                   <-> In k (map fst (RecipeViewSet.cart_rows db (user_id user))))
     /\ (forall k q, In (k, q) groups
                     -> q = total_for k (RecipeViewSet.cart_rows db (user_id user)))
     /\ (NoDup (shopping_cart db) ->
         NoDup (map ingredient_id (ingredients db)) ->
         RecipeViewSet.cart_rows db (user_id user) = cart_line_items db (user_id user))
     /\ (one_line (get_full_name user) = true ->
         one_line today_dmy = true ->
         one_line today_Y = true ->
         (forall k, In k (map fst (RecipeViewSet.cart_rows db (user_id user))) ->
                    one_line (fst k) = true /\ one_line (snd k) = true) ->
         lines_of (shopping_list_text user today_dmy today_Y groups)
         = ["Список покупок для: " ++ get_full_name user; "";
            "Дата: " ++ today_dmy; ""]%string
           ++ match groups with
              | [] => [""%string]
              | _ :: _ => map RecipeViewSet.shopping_line groups
              end
           ++ [""; "Foodgram (" ++ today_Y ++ ")"]%string))
  /\
  RecipeViewSet.download_shopping_cart produced alice "03-11-2026" "2026" flour_cart
    = (flour_cart,
       inr (mkResponse 200
              (TextAttachment "alice_shopping_list.txt"
                 ("Список покупок для: Alice Liddell"
                  ++ RecipeViewSet.newline ++ RecipeViewSet.newline
                  ++ "Дата: 03-11-2026"
                  ++ RecipeViewSet.newline ++ RecipeViewSet.newline
                  ++ "- Flour (g) - 500"
                  ++ RecipeViewSet.newline ++ RecipeViewSet.newline
                  ++ "Foodgram (2026)")%string)))
  /\
  (exists text,
     RecipeViewSet.download_shopping_cart produced alice "03-11-2026" "2026" pantry
       = (pantry, inr (mkResponse 200
                         (TextAttachment "alice_shopping_list.txt" text)))
     /\ (text = "Список покупок для: Alice Liddell"
                ++ RecipeViewSet.newline ++ RecipeViewSet.newline
                ++ "Дата: 03-11-2026"
                ++ RecipeViewSet.newline ++ RecipeViewSet.newline
                ++ "- Flour (g) - 500" ++ RecipeViewSet.newline
                ++ "- Milk (ml) - 50"
                ++ RecipeViewSet.newline ++ RecipeViewSet.newline
                ++ "Foodgram (2026)"
         \/
         text = "Список покупок для: Alice Liddell"
                ++ RecipeViewSet.newline ++ RecipeViewSet.newline
                ++ "Дата: 03-11-2026"
                ++ RecipeViewSet.newline ++ RecipeViewSet.newline
                ++ "- Milk (ml) - 50" ++ RecipeViewSet.newline
                ++ "- Flour (g) - 500"
                ++ RecipeViewSet.newline ++ RecipeViewSet.newline
                ++ "Foodgram (2026)"))%string.
Proof.
  intros Hproduced.
  split; [| split; [| split]].
  - intros Hempty. unfold RecipeViewSet.download_shopping_cart, bind, gets.
    assert (Hnone : existsb (fun entry => ur_user entry =? user_id user)
                            (shopping_cart db) = false).
    { apply not_true_is_false. intros Hex. apply existsb_exists in Hex.
      destruct Hex as [entry [Hin Heq]]. apply Z.eqb_eq in Heq.
      exact (Hempty entry Hin Heq). }
    rewrite Hnone. reflexivity.
  - intros [entry [Hin Heq]].
    set (rows := RecipeViewSet.cart_rows db (user_id user)).
    exists (produced (RecipeViewSet.annotate_sum rows)).
    pose proof (Hproduced (RecipeViewSet.annotate_sum rows)) as Hperm.
    destruct (annotate_sum_groups rows) as [Hnd [Hkeys Hsum]].
    assert (Hcover : forall k, In k (map fst (produced (RecipeViewSet.annotate_sum rows)))
                               <-> In k (map fst rows)).
    { intros k. rewrite <- Hkeys. split; apply Permutation_in, Permutation_map;
        [exact Hperm | apply Permutation_sym; exact Hperm]. }
    split; [| split; [| split; [exact Hcover | split; [| split]]]].
    + unfold RecipeViewSet.download_shopping_cart, bind, gets.
      assert (Hsome : existsb (fun entry => ur_user entry =? user_id user)
                              (shopping_cart db) = true).
      { apply existsb_exists. exists entry. split; [exact Hin |].
        apply Z.eqb_eq. exact Heq. }
      rewrite Hsome. reflexivity.
    + apply (Permutation_NoDup (l := map fst (RecipeViewSet.annotate_sum rows)));
        [apply Permutation_map, Permutation_sym; exact Hperm | exact Hnd].
    + intros k q Hkq. apply Hsum. exact (Permutation_in _ Hperm Hkq).
    + apply cart_rows_line_items.
    + intros Hname Hdmy HY Hkeys1.
      apply lines_of_shopping_list_text; try assumption.
      intros group Hgroup. apply Hkeys1, Hcover, in_map. exact Hgroup.
  - assert (Hrows : RecipeViewSet.annotate_sum
                      (RecipeViewSet.cart_rows flour_cart (user_id alice))
                    = [(("Flour", "g"), 500)]%string)
      by (vm_compute; reflexivity).
    assert (Hcart : existsb (fun entry => ur_user entry =? user_id alice)
                            (shopping_cart flour_cart) = true)
      by (vm_compute; reflexivity).
    pose proof (Hproduced [(("Flour", "g"), 500)]%string) as Hperm.
    apply Permutation_sym, Permutation_length_1_inv in Hperm.
    unfold RecipeViewSet.download_shopping_cart, bind, gets.
    rewrite Hcart. cbn [negb]. cbv beta. rewrite Hrows, Hperm.
    vm_compute. reflexivity.
  - assert (Hrows : RecipeViewSet.annotate_sum
                      (RecipeViewSet.cart_rows pantry (user_id alice))
                    = [(("Flour", "g"), 500); (("Milk", "ml"), 50)]%string)
      by (vm_compute; reflexivity).
    assert (Hcart : existsb (fun entry => ur_user entry =? user_id alice)
                            (shopping_cart pantry) = true)
      by (vm_compute; reflexivity).
    pose proof (Hproduced [(("Flour", "g"), 500); (("Milk", "ml"), 50)]%string) as Hperm.
    apply Permutation_sym, Permutation_length_2_inv in Hperm.
    exists (shopping_list_text alice "03-11-2026" "2026"
              (produced [(("Flour", "g"), 500); (("Milk", "ml"), 50)]%string)).
    split.
    + unfold RecipeViewSet.download_shopping_cart, bind, gets.
      rewrite Hcart. cbn [negb]. cbv beta. rewrite Hrows. reflexivity.
    + destruct Hperm as [-> | ->]; [left | right]; vm_compute; reflexivity.
Qed.

Lemma download_shopping_cart_aggregates_witness :
  RecipeViewSet.download_shopping_cart (@rev _) carol "03-11-2026" "2026" pantry
    = (pantry, inr (mkResponse 400 NoBody))
  /\
  exists groups,
    RecipeViewSet.download_shopping_cart (@rev _) bob "03-11-2026" "2026" pantry
      = (pantry, inr (mkResponse 200
                        (TextAttachment "bob_shopping_list.txt"
                           (shopping_list_text bob "03-11-2026" "2026" groups))))
    /\ NoDup (map fst groups)
    /\ (forall k, In k (map fst groups)
                  <-> In k (map fst (RecipeViewSet.cart_rows pantry 2)))
    /\ (forall k q, In (k, q) groups
                    -> q = total_for k (RecipeViewSet.cart_rows pantry 2))
    /\ (NoDup (shopping_cart pantry) ->
        NoDup (map ingredient_id (ingredients pantry)) ->
        RecipeViewSet.cart_rows pantry 2 = cart_line_items pantry 2)
    /\ lines_of (shopping_list_text bob "03-11-2026" "2026" groups)
       = ["Список покупок для: " ++ get_full_name bob; "";
          "Дата: 03-11-2026"; ""]%string
         ++ match groups with
            | [] => [""%string]
            | _ :: _ => map RecipeViewSet.shopping_line groups
            end
         ++ [""; "Foodgram (2026)"]%string.
Proof.
  assert (Hrev : forall groups : list (RecipeViewSet.Key * Z),
            Permutation (rev groups) groups)
    by (intros groups; apply Permutation_sym, Permutation_rev).
  split.
  - apply (proj1 (download_shopping_cart_aggregates
                    (@rev _) carol "03-11-2026" "2026" pantry Hrev)).
    intros entry Hin. simpl in Hin.
    destruct Hin as [<- | [<- | [<- | []]]]; simpl; discriminate.
  - destruct (proj1 (proj2 (download_shopping_cart_aggregates
                              (@rev _) bob "03-11-2026" "2026" pantry Hrev)))
      as [groups [Hanswer [Hnd [Hcover [Hsum [Hjoin Hlines]]]]]].
    { exists (mkUserRecipe 2 2). split; [simpl; tauto | reflexivity]. }
    exists groups. repeat (split; [assumption |]).
    apply Hlines; try reflexivity.
    intros k Hk. vm_compute in Hk.
    destruct Hk as [<- | [<- | []]]; split; reflexivity.
Defined.

(** ** Favorites and shopping cart *)

(** The [except Http404] branch of [add_to]. *)
Lemma add_to_handles_Http404 (model : JoinModel) (pk : Z) (user : User) (db : DB) :
  find_recipe db pk = None ->
  RecipeViewSet.add_to model pk user db
    = (db, inr (mkResponse HTTP_400_BAD_REQUEST (Plain "Рецепт не найден"))).
Proof.
  intros Hfind. unfold RecipeViewSet.add_to, try_except_Http404, get_recipe_or_404.
  rewrite Hfind. reflexivity.
Qed.

(** C4, as amended.  An add-to-favorites or add-to-cart request whose recipe
    id resolves to no recipe catches the lookup's [Http404] and answers 400
    with the message of the missing recipe; it inserts no row. *)
Theorem add_to_missing_recipe (model : JoinModel) (pk : Z) (user : User) (db : DB) :
  find_recipe db pk = None ->
  RecipeViewSet.add_to model pk user db
    = (db, inr (mkResponse 400 (Plain "Рецепт не найден")))
  /\ status_code (snd (RecipeViewSet.add_to model pk user db)) = 400
  /\ join_table model (fst (RecipeViewSet.add_to model pk user db)) = join_table model db.
Proof.
  intros Hfind. rewrite (add_to_handles_Http404 model pk user db Hfind).
  repeat split.
Qed.

Lemma add_to_missing_recipe_witness :
  RecipeViewSet.add_to ShoppingCart 99 alice kitchen
    = (kitchen, inr (mkResponse 400 (Plain "Рецепт не найден")))
  /\ status_code (snd (RecipeViewSet.add_to ShoppingCart 99 alice kitchen)) = 400
  /\ join_table ShoppingCart (fst (RecipeViewSet.add_to ShoppingCart 99 alice kitchen))
     = join_table ShoppingCart kitchen.
Proof. exact (add_to_missing_recipe ShoppingCart 99 alice kitchen eq_refl). Defined.

(** C4, as stated, fails: recipe 99 does not exist, and the add request is
    answered with 400, not with a 404. *)
Lemma add_to_missing_recipe_is_not_404 :
  ~ (forall (model : JoinModel) (pk : Z) (user : User) (db : DB),
       find_recipe db pk = None ->
       status_code (snd (RecipeViewSet.add_to model pk user db)) = 404).
Proof.
  intros H. specialize (H Favorite 99 alice kitchen eq_refl).
  vm_compute in H. discriminate H.
Qed.

(** C9.  A remove request whose recipe id resolves to no recipe raises the
    lookup's [Http404] (a 404 answer) and changes nothing, where the add
    request on the same id answers 400; the 400 of a remove request is given
    exactly when the recipe exists and the user has no row for it; a row that
    is there is deleted with a 204. *)
Theorem delete_from_missing_recipe (model : JoinModel) (pk : Z) (user : User) (db : DB) :
  (find_recipe db pk = None ->
   RecipeViewSet.delete_from model pk user db = (db, inl Http404)
   /\ status_code (snd (RecipeViewSet.delete_from model pk user db)) = 404
   /\ status_code (snd (RecipeViewSet.add_to model pk user db)) = 400
   /\ forall request_type,
        status_code (snd (RecipeViewSet.favorite_or_shopping_cart
                            DELETE user pk request_type db)) = 404
        /\ status_code (snd (RecipeViewSet.favorite_or_shopping_cart
                               POST user pk request_type db)) = 400)
  /\
  (status_code (snd (RecipeViewSet.delete_from model pk user db)) = 400
   <-> exists recipe,
         find_recipe db pk = Some recipe /\
         existsb (ur_matches (user_id user) (recipe_id recipe)) (join_table model db)
           = false)
  /\
  (forall recipe,
     find_recipe db pk = Some recipe ->
     existsb (ur_matches (user_id user) (recipe_id recipe)) (join_table model db) = true ->
     RecipeViewSet.delete_from model pk user db
       = (set_join_table model db
            (filter (fun row => negb (ur_matches (user_id user) (recipe_id recipe) row))
                    (join_table model db)),
          inr (mkResponse 204 NoBody))).
Proof.
  unfold RecipeViewSet.delete_from, bind, get_recipe_or_404, join_exists, gets.
  split; [| split].
  - intros Hfind. rewrite (add_to_handles_Http404 model pk user db Hfind).
    rewrite Hfind. split; [reflexivity | split; [reflexivity | split; [reflexivity |]]].
    intros request_type. unfold RecipeViewSet.favorite_or_shopping_cart.
    rewrite add_to_handles_Http404 by exact Hfind.
    unfold RecipeViewSet.delete_from, bind, get_recipe_or_404. rewrite Hfind.
    split; reflexivity.
  - destruct (find_recipe db pk) as [recipe |] eqn:Hfind.
    + destruct (existsb (ur_matches (user_id user) (recipe_id recipe))
                        (join_table model db)) eqn:Hrow; simpl.
      * split; [discriminate |]. intros [r [Hr Hnone]]. inversion Hr. subst r.
        congruence.
      * split; [| reflexivity]. intros _. exists recipe. split; [reflexivity | exact Hrow].
    + simpl. split; [discriminate |]. intros [r [Hr _]]. discriminate Hr.
  - intros recipe Hfind Hrow. rewrite Hfind, Hrow. reflexivity.
Qed.

Lemma delete_from_missing_recipe_witness :
  RecipeViewSet.delete_from Favorite 99 alice pantry = (pantry, inl Http404)
  /\ status_code (snd (RecipeViewSet.delete_from Favorite 99 alice pantry)) = 404
  /\ status_code (snd (RecipeViewSet.add_to Favorite 99 alice pantry)) = 400
  /\ status_code (snd (RecipeViewSet.favorite_or_shopping_cart
                         DELETE alice 99 "favorite" pantry)) = 404
  /\ RecipeViewSet.delete_from ShoppingCart 2 bob pantry
     = (set_join_table ShoppingCart pantry [mkUserRecipe 1 1; mkUserRecipe 1 2],
        inr (mkResponse 204 NoBody)).
Proof.
  destruct (delete_from_missing_recipe Favorite 99 alice pantry) as [Hmissing _].
  destruct (Hmissing eq_refl) as [H1 [H2 [H3 H4]]].
  split; [exact H1 | split; [exact H2 | split; [exact H3 | split]]].
  { exact (proj1 (H4 "favorite"%string)). }
  exact (proj2 (proj2 (delete_from_missing_recipe ShoppingCart 2 bob pantry))
           bread eq_refl eq_refl).
Defined.

(** ** Subscriptions *)

Lemma find_user_id (db : DB) (id : Z) (u : User) :
  find_user db id = Some u -> user_id u = id.
Proof.
  unfold find_user. intros H. apply find_some in H. destruct H as [_ H].
  apply Z.eqb_eq. exact H.
Qed.

(** C5.  A subscribe-add request of a user to the user's own id is answered
    with 400 and leaves the database as it was, whatever it held before: with
    a self-subscription row already stored the answer is the one for an
    existing subscription, without one it is the one for self-subscription.
    The handler is what rejects: the table's only constraint is uniqueness,
    and [Subscribe.objects.create] itself stores a (user, user) row. *)
Theorem subscribe_self_rejected
        (user author : User) (recipes_limit : option nat) (db : DB) :
  find_user db (user_id user) = Some author ->
  CustomUserViewSet.subscribe POST user (user_id user) recipes_limit db
    = (db, inr (mkResponse 400
                  (Dict "error"
                     (if existsb (subscribe_matches (user_id user) (user_id user))
                                 (subscribes db)
                      then "Вы уже подписаны"
                      else "Невозможно подписаться на себя"))))
  /\
  (existsb (subscribe_matches (user_id user) (user_id user)) (subscribes db) = false ->
   Subscribe_create (user_id user) (user_id user) db
     = (set_subscribes db
          (subscribes db ++ [mkSubscribe (subscribe_seq db) (user_id user) (user_id user)])
          (subscribe_seq db + 1),
        inr tt)).
Proof.
  intros Hfind. pose proof (@find_user_id db (user_id user) author Hfind) as Hid.
  split.
  - unfold CustomUserViewSet.subscribe, bind, get_user_or_404, subscription_exists, gets.
    rewrite Hfind, Hid.
    destruct (existsb (subscribe_matches (user_id user) (user_id user)) (subscribes db)).
    + reflexivity.
    + rewrite Z.eqb_refl. reflexivity.
  - intros Hnone. unfold Subscribe_create. rewrite Hnone. reflexivity.
Qed.

Lemma subscribe_self_rejected_witness :
  CustomUserViewSet.subscribe POST alice 1 None kitchen
    = (kitchen, inr (mkResponse 400 (Dict "error" "Невозможно подписаться на себя")))
  /\
  CustomUserViewSet.subscribe POST alice 1 None
      (set_subscribes kitchen [mkSubscribe 1 1 1] 2)
    = (set_subscribes kitchen [mkSubscribe 1 1 1] 2,
       inr (mkResponse 400 (Dict "error" "Вы уже подписаны")))
  /\
  Subscribe_create 1 1 kitchen = (set_subscribes kitchen [mkSubscribe 1 1 1] 2, inr tt).
Proof.
  split; [| split].
  - exact (proj1 (@subscribe_self_rejected alice alice None kitchen eq_refl)).
  - exact (proj1 (@subscribe_self_rejected alice alice None
                    (set_subscribes kitchen [mkSubscribe 1 1 1] 2) eq_refl)).
  - exact (proj2 (@subscribe_self_rejected alice alice None kitchen eq_refl) eq_refl).
Defined.

(** ** Short links *)

(** *** [random.sample] *)

Lemma draw_unselected_spec (n : nat) (selected tape : list nat) (j : nat) tape' :
  n <> 0%nat ->
  py.draw_unselected n selected tape = Some (j, tape') ->
  (j < n)%nat /\ ~ In j selected.
Proof.
  intros Hn. induction tape as [| t tape IH]; simpl; [discriminate |].
  destruct (existsb (Nat.eqb (t mod n)) selected) eqn:Hsel.
  - exact IH.
  - intros H. inversion H. subst. split.
    + apply Nat.mod_upper_bound. exact Hn.
    + intros Hin. apply not_true_iff_false in Hsel. apply Hsel.
      apply existsb_exists. exists (t mod n)%nat. split; [exact Hin | apply Nat.eqb_refl].
Qed.

Lemma sample_positions_spec (n : nat) :
  n <> 0%nat ->
  forall k selected tape js,
    py.sample_positions n k selected tape = Some js ->
    length js = k /\ NoDup js /\
    (forall j, In j js -> (j < n)%nat /\ ~ In j selected).
Proof.
  intros Hn. induction k as [| k IH]; intros selected tape js; simpl.
  - intros H. inversion H. subst. repeat split; try constructor; contradiction.
  - destruct (py.draw_unselected n selected tape) as [[j tape'] |] eqn:Hdraw;
      [| discriminate].
    destruct (py.sample_positions n k (j :: selected) tape') as [js' |] eqn:Hrest;
      simpl; [| discriminate].
    intros H. inversion H. subst js.
    destruct (IH _ _ _ Hrest) as [Hlen [Hnd Hall]].
    destruct (draw_unselected_spec _ _ Hn Hdraw) as [Hlt Hfresh].
    split; [simpl; congruence |]. split.
    + constructor; [| exact Hnd]. intros Hin. apply (Hall j Hin). left. reflexivity.
    + intros j' [<- | Hin]; [tauto |].
      destruct (Hall j' Hin) as [Hlt' Hnot]. split; [exact Hlt' |].
      intros Hsel. apply Hnot. right. exact Hsel.
Qed.

(** Draws that are pairwise different below [n] and not selected yet are
    taken one per position: the loop returns. *)
Lemma sample_positions_returns (n : nat) :
  forall draws selected rest,
    NoDup (map (fun t => (t mod n)%nat) draws) ->
    (forall t, In t draws -> ~ In (t mod n)%nat selected) ->
    py.sample_positions n (length draws) selected (draws ++ rest)
      = Some (map (fun t => (t mod n)%nat) draws).
Proof.
  induction draws as [| t draws IH]; intros selected rest Hnd Hfresh; simpl.
  - reflexivity.
  - inversion Hnd as [| ? ? Hnotin Hnd']; subst.
    assert (Hsel : existsb (Nat.eqb (t mod n)) selected = false).
    { apply not_true_iff_false. intros Hex. apply existsb_exists in Hex.
      destruct Hex as [j [Hin Heq]]. apply Nat.eqb_eq in Heq. subst j.
      exact (Hfresh t (or_introl eq_refl) Hin). }
    rewrite Hsel, IH; [reflexivity | exact Hnd' |].
    intros t' Hin [Heq | Hsel'].
    + apply Hnotin. rewrite Heq. apply in_map_iff. exists t'. split; [reflexivity | exact Hin].
    + exact (Hfresh t' (or_intror Hin) Hsel').
Qed.

Lemma characters_NoDup :
  NoDup (list_ascii_of_string GetRecipeShortLink.characters).
Proof.
  apply (NoDup_map_inv nat_of_ascii).
  vm_compute.
  repeat (constructor; [simpl; intros H; repeat (destruct H as [H | H]; [discriminate H |]); exact H |]).
  constructor.
Qed.

Lemma nth_positions_NoDup {A} (d : A) (population : list A) (js : list nat) :
  NoDup population ->
  NoDup js ->
  (forall j, In j js -> (j < length population)%nat) ->
  NoDup (map (fun j => nth j population d) js).
Proof.
  intros Hpop. induction js as [| j js IH]; simpl; intros Hnd Hlt.
  - constructor.
  - inversion Hnd as [| ? ? Hnotin Hnd']; subst. constructor.
    + intros Hin. apply in_map_iff in Hin. destruct Hin as [j' [Heq Hin]].
      apply Hnotin.
      assert (j' = j); [| subst; exact Hin].
      apply (proj1 (NoDup_nth population d) Hpop); auto.
    + apply IH; [exact Hnd' |]. intros j' Hin. apply Hlt. right. exact Hin.
Qed.

(** A population larger than [setsize k] is sampled by positions. *)
Lemma sample_by_positions {A} (d : A) (population : list A) (k : nat)
      (tape : list nat) (chosen : list A) :
  (py.setsize k < length population)%nat ->
  NoDup population ->
  py.sample d population k tape = Some chosen ->
  length chosen = k /\ NoDup chosen /\ (forall c, In c chosen -> In c population).
Proof.
  intros Hbig Hpop. unfold py.sample.
  assert (Hbranch : (length population <=? py.setsize k)%nat = false)
    by (apply Nat.leb_gt; exact Hbig).
  rewrite Hbranch.
  destruct (py.sample_positions (length population) k [] tape) as [js |] eqn:Hjs;
    cbn [option_map]; [| discriminate].
  intros H. injection H as H. subst chosen.
  assert (Hn : length population <> 0%nat) by lia.
  destruct (@sample_positions_spec (length population) Hn k [] tape js Hjs)
    as [Hk [Hnd Hall]].
  split; [rewrite length_map; exact Hk |]. split.
  - apply nth_positions_NoDup; [exact Hpop | exact Hnd |].
    intros j Hin. apply Hall. exact Hin.
  - intros c Hin. apply in_map_iff in Hin. destruct Hin as [j [<- Hin]].
    apply nth_In. apply Hall. exact Hin.
Qed.

(** What [random.sample(characters, k=4)] returns. *)
Lemma sample_characters (tape : list nat) (chars : list ascii) :
  py.sample " "%char (list_ascii_of_string GetRecipeShortLink.characters) 4 tape
    = Some chars ->
  length chars = 4%nat /\ NoDup chars /\
  (forall c, In c chars -> In c (list_ascii_of_string GetRecipeShortLink.characters)).
Proof.
  apply sample_by_positions.
  - apply Nat.ltb_lt. reflexivity.
  - apply characters_NoDup.
Qed.

(** Four draws that differ modulo 62 make the sampling return. *)
Lemma sample_characters_returns (a b c d : nat) (rest : list nat) :
  NoDup [(a mod 62)%nat; (b mod 62)%nat; (c mod 62)%nat; (d mod 62)%nat] ->
  py.sample " "%char (list_ascii_of_string GetRecipeShortLink.characters) 4
            (a :: b :: c :: d :: rest)
    = Some (map (fun t => nth (t mod 62) (list_ascii_of_string GetRecipeShortLink.characters)
                              " "%char) [a; b; c; d]).
Proof.
  intros Hnd. unfold py.sample.
  set (population := list_ascii_of_string GetRecipeShortLink.characters).
  assert (Hlen : length population = 62%nat) by reflexivity.
  rewrite Hlen. change ((62 <=? py.setsize 4)%nat) with false. cbv iota.
  change (a :: b :: c :: d :: rest) with ([a; b; c; d] ++ rest).
  change 4%nat with (length [a; b; c; d]).
  rewrite sample_positions_returns; [| exact Hnd | intros t _ []].
  reflexivity.
Qed.

(** *** Get-or-create of the short link *)

(** The handler past the lookups: recipe found, domain configured, token
    sampled. *)
Lemma get_unfold conf pk tape db recipe domen chars :
  find_recipe db pk = Some recipe ->
  environ_get conf "DOMEN" = inr domen ->
  py.sample " "%char (list_ascii_of_string GetRecipeShortLink.characters) 4 tape
    = Some chars ->
  GetRecipeShortLink.get conf pk tape db =
    Some (match get_or_create (get_absolute_url conf recipe)
                  (domen ++ "s/" ++ py.join_chars chars)%string db with
          | (db', inl e) => (db', inl e)
          | (db', inr created) =>
              (db', inr (mkResponse 200 (Dict "short-link" (short_link (fst created)))))
          end).
Proof.
  intros Hfind Henv Hsample.
  unfold GetRecipeShortLink.get, get_recipe_or_404.
  rewrite Hfind, Henv, Hsample. unfold bind, ret.
  destruct (get_or_create _ _ db) as [db' [e | created]]; reflexivity.
Qed.

Lemma get_or_create_cases url short_url db db' link_obj created :
  get_or_create url short_url db = (db', inr (link_obj, created)) ->
  (created = false /\ db' = db /\
   filter (fun l => String.eqb (original_url l) url) (short_links db) = [link_obj])
  \/
  (created = true /\ link_obj = mkShortLink url short_url /\
   db' = set_short_links db (short_links db ++ [link_obj]) /\
   filter (fun l => String.eqb (original_url l) url) (short_links db) = []).
Proof.
  unfold get_or_create.
  destruct (filter (fun l => String.eqb (original_url l) url) (short_links db))
    as [| l1 [| l2 ls]] eqn:Hmatch.
  - destruct (existsb _ (short_links db)); intros H; inversion H; subst.
    right. repeat split; reflexivity.
  - intros H. inversion H; subst. left. repeat split; reflexivity.
  - discriminate.
Qed.

Lemma get_or_create_error url short_url db db' e :
  get_or_create url short_url db = (db', inl e) -> db' = db.
Proof.
  unfold get_or_create.
  destruct (filter (fun l => String.eqb (original_url l) url) (short_links db))
    as [| l1 [| l2 ls]].
  - destruct (existsb _ (short_links db)); intros H; inversion H; reflexivity.
  - discriminate.
  - intros H. inversion H. reflexivity.
Qed.

(** The handler keeps the table at one link per recipe URL at most, so the
    lookup of [get_or_create] never meets several rows in a table that only
    this handler fills. *)
Lemma get_keeps_one_link_per_url conf pk tape db db' outcome :
  GetRecipeShortLink.get conf pk tape db = Some (db', outcome) ->
  (forall url, (length (filter (fun l => String.eqb (original_url l) url)
                               (short_links db)) <= 1)%nat) ->
  forall url, (length (filter (fun l => String.eqb (original_url l) url)
                              (short_links db')) <= 1)%nat.
Proof.
  intros Hget Hinv url. unfold GetRecipeShortLink.get, get_recipe_or_404 in Hget.
  destruct (find_recipe db pk) as [recipe |];
    [| injection Hget as <- _; apply Hinv].
  destruct (environ_get conf "DOMEN") as [e | domen];
    [injection Hget as <- _; apply Hinv |].
  destruct (py.sample " "%char _ 4 tape) as [chars |]; [| discriminate].
  unfold bind, ret in Hget.
  destruct (get_or_create (get_absolute_url conf recipe)
              (domen ++ "s/" ++ py.join_chars chars)%string db)
    as [db1 [e | [link_obj created]]] eqn:Hgoc.
  - injection Hget as <- _. rewrite (get_or_create_error _ _ _ Hgoc). apply Hinv.
  - injection Hget as <- _.
    destruct (get_or_create_cases _ _ _ Hgoc)
      as [[_ [-> _]] | [_ [Hlink [-> Hnone]]]]; [apply Hinv |].
    simpl. rewrite filter_app, length_app. subst link_obj. simpl.
    destruct (String.eqb (get_absolute_url conf recipe) url) eqn:Hurl; simpl.
    + apply String.eqb_eq in Hurl. subst url. rewrite Hnone. simpl. lia.
    + specialize (Hinv url). lia.
Qed.

(** C10.  The token of a get-link request is four characters taken at four
    different positions of the 62 ASCII letters and digits, hence pairwise
    different, and four draws that differ modulo 62 make the sampling
    return; a request that succeeds either stores nothing or appends one
    link whose [short_link] is the configured domain, then "s/", then the
    token. *)
Theorem short_token_shape (conf : Conf) (pk : Z) (tape : list nat) (db : DB) :
  (forall chars,
     py.sample " "%char (list_ascii_of_string GetRecipeShortLink.characters) 4 tape
       = Some chars ->
     length chars = 4%nat /\ NoDup chars /\
     (forall c, In c chars ->
                In c (list_ascii_of_string (py.ascii_letters ++ py.digits))))
  /\
  (forall a b c d rest,
     tape = a :: b :: c :: d :: rest ->
     NoDup [(a mod 62)%nat; (b mod 62)%nat; (c mod 62)%nat; (d mod 62)%nat] ->
     exists chars,
       py.sample " "%char (list_ascii_of_string GetRecipeShortLink.characters) 4 tape
         = Some chars)
  /\
  (forall domen db' response,
     environ_get conf "DOMEN" = inr domen ->
     GetRecipeShortLink.get conf pk tape db = Some (db', inr response) ->
     db' = db
     \/ exists recipe chars,
          find_recipe db pk = Some recipe /\
          py.sample " "%char (list_ascii_of_string GetRecipeShortLink.characters) 4 tape
            = Some chars /\
          db' = set_short_links db
                  (short_links db
                   ++ [mkShortLink (get_absolute_url conf recipe)
                                   (domen ++ "s/" ++ string_of_list_ascii chars)%string])).
Proof.
  split; [| split].
  - intros chars Hsample. exact (sample_characters tape Hsample).
  - intros a b c d rest -> Hnd. eexists. apply sample_characters_returns. exact Hnd.
  - intros domen db' response Henv Hget.
    destruct (find_recipe db pk) as [recipe |] eqn:Hfind.
    + destruct (py.sample " "%char (list_ascii_of_string GetRecipeShortLink.characters)
                          4 tape) as [chars |] eqn:Hsample.
      * rewrite (@get_unfold conf pk tape db recipe domen chars Hfind Henv Hsample) in Hget.
        destruct (get_or_create (get_absolute_url conf recipe)
                    (domen ++ "s/" ++ py.join_chars chars)%string db)
          as [db1 [e | [link_obj created]]] eqn:Hgoc; [discriminate |].
        injection Hget as Hdb Hresp. subst db1.
        destruct (get_or_create_cases _ _ _ Hgoc)
          as [[_ [Hsame _]] | [_ [Hlink [Hnew _]]]].
        -- left. exact Hsame.
        -- right. exists recipe, chars. subst link_obj.
           repeat split. exact Hnew.
      * unfold GetRecipeShortLink.get, get_recipe_or_404 in Hget.
        rewrite Hfind, Henv, Hsample in Hget. discriminate.
    + unfold GetRecipeShortLink.get, get_recipe_or_404 in Hget.
      rewrite Hfind in Hget. discriminate.
Qed.

Lemma short_token_shape_witness :
  (length ["a"; "b"; "c"; "d"]%char = 4%nat /\ NoDup ["a"; "b"; "c"; "d"]%char /\
   (forall c, In c ["a"; "b"; "c"; "d"]%char ->
              In c (list_ascii_of_string (py.ascii_letters ++ py.digits))))
  /\
  (exists chars,
     py.sample " "%char (list_ascii_of_string GetRecipeShortLink.characters) 4
               [0; 1; 2; 3]%nat = Some chars)
  /\
  (set_short_links kitchen
     [mkShortLink "/api/recipes/1/" "https://foodgram.example/s/abcd"] = kitchen
   \/ exists recipe chars,
        find_recipe kitchen 1 = Some recipe /\
        py.sample " "%char (list_ascii_of_string GetRecipeShortLink.characters) 4
                  [0; 1; 2; 3]%nat = Some chars /\
        set_short_links kitchen
          [mkShortLink "/api/recipes/1/" "https://foodgram.example/s/abcd"]
        = set_short_links kitchen
            (short_links kitchen
             ++ [mkShortLink (get_absolute_url site recipe)
                   ("https://foodgram.example/" ++ "s/" ++ string_of_list_ascii chars)%string])).
Proof.
  destruct (short_token_shape site 1 [0; 1; 2; 3]%nat kitchen) as [Hshape [Hreturns Hstored]].
  split; [| split].
  - exact (Hshape ["a"; "b"; "c"; "d"]%char eq_refl).
  - apply (Hreturns 0 1 2 3 []%nat eq_refl)%nat.
    repeat constructor; simpl; intuition discriminate.
  - exact (Hstored "https://foodgram.example/"%string
             (set_short_links kitchen
                [mkShortLink "/api/recipes/1/" "https://foodgram.example/s/abcd"])
             (mkResponse 200 (Dict "short-link" "https://foodgram.example/s/abcd"))
             eq_refl eq_refl).
Defined.

(** C6.  A get-link request for an id that resolves to no recipe raises the
    lookup's [Http404].  After a get-link request that succeeded, a second
    request for the same recipe gives the same answer, hence the same short
    link, and stores nothing, whatever token it samples.  With the domain
    configured, a request for a recipe without a stored link succeeds when
    the sampled token is not in use, and stores the link; a request for a
    recipe with one stored link returns that link. *)
Theorem get_link_idempotent (conf : Conf) (pk : Z) (db : DB) :
  (find_recipe db pk = None ->
   forall tape,
     GetRecipeShortLink.get conf pk tape db = Some (db, inl Http404)
     /\ status_code (inl Http404) = 404)
  /\
  (forall tape1 tape2 db1 response,
     GetRecipeShortLink.get conf pk tape1 db = Some (db1, inr response) ->
     py.sample " "%char (list_ascii_of_string GetRecipeShortLink.characters) 4 tape2
       <> None ->
     GetRecipeShortLink.get conf pk tape2 db1 = Some (db1, inr response))
  /\
  (forall recipe domen tape chars,
     find_recipe db pk = Some recipe ->
     environ_get conf "DOMEN" = inr domen ->
     py.sample " "%char (list_ascii_of_string GetRecipeShortLink.characters) 4 tape
       = Some chars ->
     filter (fun l => String.eqb (original_url l) (get_absolute_url conf recipe))
            (short_links db) = [] ->
     existsb (fun l => String.eqb (short_link l)
                                  (domen ++ "s/" ++ py.join_chars chars)%string)
             (short_links db) = false ->
     GetRecipeShortLink.get conf pk tape db
       = Some (set_short_links db
                 (short_links db
                  ++ [mkShortLink (get_absolute_url conf recipe)
                                  (domen ++ "s/" ++ py.join_chars chars)%string]),
               inr (mkResponse 200
                      (Dict "short-link" (domen ++ "s/" ++ py.join_chars chars)%string))))
  /\
  (forall recipe domen tape chars link_obj,
     find_recipe db pk = Some recipe ->
     environ_get conf "DOMEN" = inr domen ->
     py.sample " "%char (list_ascii_of_string GetRecipeShortLink.characters) 4 tape
       = Some chars ->
     filter (fun l => String.eqb (original_url l) (get_absolute_url conf recipe))
            (short_links db) = [link_obj] ->
     GetRecipeShortLink.get conf pk tape db
       = Some (db, inr (mkResponse 200 (Dict "short-link" (short_link link_obj))))).
Proof.
  split; [| split; [| split]].
  - intros Hfind tape. unfold GetRecipeShortLink.get, get_recipe_or_404.
    rewrite Hfind. split; reflexivity.
  - intros tape1 tape2 db1 response Hget Hsample2.
    destruct (find_recipe db pk) as [recipe |] eqn:Hfind;
      [| unfold GetRecipeShortLink.get, get_recipe_or_404 in Hget;
         rewrite Hfind in Hget; discriminate].
    destruct (environ_get conf "DOMEN") as [e | domen] eqn:Henv;
      [unfold GetRecipeShortLink.get, get_recipe_or_404 in Hget;
       rewrite Hfind, Henv in Hget; discriminate |].
    destruct (py.sample " "%char (list_ascii_of_string GetRecipeShortLink.characters)
                        4 tape1) as [chars1 |] eqn:Hsample1;
      [| unfold GetRecipeShortLink.get, get_recipe_or_404 in Hget;
         rewrite Hfind, Henv, Hsample1 in Hget; discriminate].
    destruct (py.sample " "%char (list_ascii_of_string GetRecipeShortLink.characters)
                        4 tape2) as [chars2 |] eqn:Hs2; [clear Hsample2 | congruence].
    rewrite (@get_unfold conf pk tape1 db recipe domen chars1 Hfind Henv Hsample1) in Hget.
    destruct (get_or_create (get_absolute_url conf recipe)
                (domen ++ "s/" ++ py.join_chars chars1)%string db)
      as [db1' [e | [link_obj created]]] eqn:Hgoc; [discriminate |].
    injection Hget as Hdb Hresp. subst db1' response.
    assert (Hfind1 : find_recipe db1 pk = Some recipe).
    { destruct (get_or_create_cases _ _ _ Hgoc)
        as [[_ [-> _]] | [_ [_ [-> _]]]]; exact Hfind. }
    assert (Hone : filter (fun l => String.eqb (original_url l)
                                               (get_absolute_url conf recipe))
                          (short_links db1) = [link_obj]).
    { destruct (get_or_create_cases _ _ _ Hgoc)
        as [[_ [-> Hmatch]] | [_ [Hlink [-> Hmatch]]]]; [exact Hmatch |].
      simpl. rewrite filter_app, Hmatch. subst link_obj. simpl.
      rewrite String.eqb_refl. reflexivity. }
    rewrite (@get_unfold conf pk tape2 db1 recipe domen chars2 Hfind1 Henv Hs2).
    unfold get_or_create. rewrite Hone. reflexivity.
  - intros recipe domen tape chars Hfind Henv Hsample Hnone Hfresh.
    rewrite (@get_unfold conf pk tape db recipe domen chars Hfind Henv Hsample).
    unfold get_or_create. rewrite Hnone, Hfresh. reflexivity.
  - intros recipe domen tape chars link_obj Hfind Henv Hsample Hone.
    rewrite (@get_unfold conf pk tape db recipe domen chars Hfind Henv Hsample).
    unfold get_or_create. rewrite Hone. reflexivity.
Qed.

Lemma get_link_idempotent_witness :
  GetRecipeShortLink.get site 99 [0; 1; 2; 3]%nat kitchen = Some (kitchen, inl Http404)
  /\
  GetRecipeShortLink.get site 1 [0; 1; 2; 3]%nat kitchen
    = Some (set_short_links kitchen
              [mkShortLink "/api/recipes/1/" "https://foodgram.example/s/abcd"],
            inr (mkResponse 200 (Dict "short-link" "https://foodgram.example/s/abcd")))
  /\
  GetRecipeShortLink.get site 1 [10; 11; 12; 13]%nat
      (set_short_links kitchen
         [mkShortLink "/api/recipes/1/" "https://foodgram.example/s/abcd"])
    = Some (set_short_links kitchen
              [mkShortLink "/api/recipes/1/" "https://foodgram.example/s/abcd"],
            inr (mkResponse 200 (Dict "short-link" "https://foodgram.example/s/abcd")))
  /\
  GetRecipeShortLink.get site 1 [61; 60; 59; 58]%nat
      (set_short_links kitchen
         [mkShortLink "/api/recipes/1/" "https://foodgram.example/s/abcd"])
    = Some (set_short_links kitchen
              [mkShortLink "/api/recipes/1/" "https://foodgram.example/s/abcd"],
            inr (mkResponse 200 (Dict "short-link" "https://foodgram.example/s/abcd"))).
Proof.
  split; [| split; [| split]].
  - exact (proj1 (proj1 (get_link_idempotent site 99 kitchen) eq_refl [0; 1; 2; 3]%nat)).
  - exact (proj1 (proj2 (proj2 (get_link_idempotent site 1 kitchen)))
             pancakes "https://foodgram.example/"%string [0; 1; 2; 3]%nat
             ["a"; "b"; "c"; "d"]%char eq_refl eq_refl eq_refl eq_refl eq_refl).
  - apply (proj1 (proj2 (get_link_idempotent site 1 kitchen)) [0; 1; 2; 3]%nat).
    + reflexivity.
    + vm_compute. discriminate.
  - exact (proj2 (proj2 (proj2 (get_link_idempotent site 1
             (set_short_links kitchen
                [mkShortLink "/api/recipes/1/" "https://foodgram.example/s/abcd"]))))
             pancakes "https://foodgram.example/"%string [61; 60; 59; 58]%nat
             ["9"; "8"; "7"; "6"]%char
             (mkShortLink "/api/recipes/1/" "https://foodgram.example/s/abcd")
             eq_refl eq_refl eq_refl eq_refl).
Defined.

(** ** Listing of subscriptions *)


(** C7, the code at the failing input.  Alice follows Bob (subscription 1)
    and then Carol (subscription 2).  The listing query selects users and
    carries no ordering; with the rows produced in the order of the user
    table the listing is Bob, Carol, while the order by subscription id,
    newest first, is Carol, Bob. *)
Theorem subscriptions_not_newest_first :
  subscribes after_two_subscriptions = [mkSubscribe 1 1 2; mkSubscribe 2 1 3]
  /\ map user_id (CustomUserViewSet.follows (fun rows => rows) after_two_subscriptions 1)
     = [2; 3]
  /\ followed_newest_first after_two_subscriptions 1 = [3; 2]
  /\ (exists authors,
        CustomUserViewSet.subscriptions (fun rows => rows) (fun rows => rows)
          alice None after_two_subscriptions
          = (after_two_subscriptions,
             inr (mkResponse 200 (SubscribeListBody authors)))
        /\ map sub_id authors = [2; 3]).
Proof.
  split; [| split; [| split]]; try (vm_compute; reflexivity).
  eexists. split; vm_compute; reflexivity.
Qed.

(** ** Listing of recipes *)

Lemma insert_by_pub_date_Sorted (r : Recipe) (rows : list Recipe) :
  Sorted (fun a b => pub_date b <= pub_date a) rows ->
  Sorted (fun a b => pub_date b <= pub_date a) (insert_by_pub_date r rows).
Proof.
  induction rows as [| x rows IH]; simpl; intros Hs.
  - constructor; constructor.
  - destruct (pub_date x <=? pub_date r) eqn:Hle.
    + constructor; [exact Hs |]. constructor. apply Z.leb_le. exact Hle.
    + apply Z.leb_gt in Hle. inversion Hs as [| ? ? Hs' Hhd]; subst.
      constructor; [apply IH; exact Hs' |].
      destruct rows as [| y rows]; simpl.
      * constructor. lia.
      * destruct (pub_date y <=? pub_date r); constructor; [lia |].
        inversion Hhd; subst. assumption.
Qed.

Lemma insert_by_pub_date_Permutation (r : Recipe) (rows : list Recipe) :
  Permutation (insert_by_pub_date r rows) (r :: rows).
Proof.
  induction rows as [| x rows IH]; simpl.
  - apply Permutation_refl.
  - destruct (pub_date x <=? pub_date r).
    + apply Permutation_refl.
    + apply Permutation_trans with (x :: r :: rows).
      * apply perm_skip. exact IH.
      * apply perm_swap.
Qed.

(** The listing holds every recipe once, by [pub_date], latest first. *)
Lemma queryset_by_pub_date (db : DB) :
  Sorted (fun a b => pub_date b <= pub_date a) (RecipeViewSet.queryset db)
  /\ Permutation (RecipeViewSet.queryset db) (recipes db).
Proof.
  unfold RecipeViewSet.queryset, order_by_pub_date_desc.
  induction (recipes db) as [| r rows [IHs IHp]]; simpl.
  - split; constructor.
  - split.
    + apply insert_by_pub_date_Sorted. exact IHs.
    + apply Permutation_trans with (r :: fold_right insert_by_pub_date [] rows).
      * apply insert_by_pub_date_Permutation.
      * apply perm_skip. exact IHp.
Qed.

(** C8, the code at the failing input.  Recipe 1 is created at time 1 and
    recipe 2 at time 2, and the listing is 2, 1.  Recipe 1 is then edited at
    time 3: [auto_now] stamps its [pub_date] with 3, and the listing becomes
    1, 2, the recipe created earlier before the one created later. *)
Theorem recipe_listing_follows_last_save :
  map (fun r => (recipe_id r, pub_date r)) (RecipeViewSet.queryset after_two_recipes)
    = [(2, 2); (1, 1)]
  /\ map (fun r => (recipe_id r, pub_date r)) (RecipeViewSet.queryset after_edit)
    = [(1, 3); (2, 2)]
  /\ line_items_of after_edit 1 = [(10, 250)].
Proof.
  repeat split; vm_compute; reflexivity.
Qed.

(** * Further properties of the handlers *)

Import serializers_rest views_rest.

(** ** Favorites and shopping cart: adding and removing *)

Lemma join_table_set_same (model : JoinModel) (db : DB) (rows : list UserRecipe) :
  join_table model (set_join_table model db rows) = rows.
Proof. destruct model; reflexivity. Qed.

Lemma find_recipe_set_join (model : JoinModel) (db : DB) (rows : list UserRecipe) (pk : Z) :
  find_recipe (set_join_table model db rows) pk = find_recipe db pk.
Proof. destruct model; reflexivity. Qed.

Lemma set_join_table_twice (model : JoinModel) (db : DB) (rows rows' : list UserRecipe) :
  set_join_table model (set_join_table model db rows) rows'
    = set_join_table model db rows'.
Proof. destruct model; reflexivity. Qed.

Lemma set_join_table_same (model : JoinModel) (db : DB) :
  set_join_table model db (join_table model db) = db.
Proof. destruct model, db; reflexivity. Qed.

Lemma ur_matches_eq (user recipe : Z) (row : UserRecipe) :
  ur_matches user recipe row = true <-> row = mkUserRecipe user recipe.
Proof.
  unfold ur_matches. destruct row as [u r]. simpl.
  rewrite andb_true_iff, !Z.eqb_eq. split.
  - intros [-> ->]. reflexivity.
  - intros H. inversion H. tauto.
Qed.

Lemma no_row_not_In (user recipe : Z) (rows : list UserRecipe) :
  existsb (ur_matches user recipe) rows = false <->
  ~ In (mkUserRecipe user recipe) rows.
Proof.
  split.
  - intros Hnone Hin. apply not_true_iff_false in Hnone. apply Hnone.
    apply existsb_exists. exists (mkUserRecipe user recipe).
    split; [exact Hin | apply ur_matches_eq; reflexivity].
  - intros Hnot. apply not_true_iff_false. intros Hex.
    apply existsb_exists in Hex. destruct Hex as [row [Hin Hm]].
    apply ur_matches_eq in Hm. subst row. contradiction.
Qed.

Lemma remove_appended_row (user recipe : Z) (rows : list UserRecipe) :
  existsb (ur_matches user recipe) rows = false ->
  filter (fun row => negb (ur_matches user recipe row))
         (rows ++ [mkUserRecipe user recipe]) = rows.
Proof.
  intros Hnone. rewrite filter_app. simpl.
  assert (Hself : ur_matches user recipe (mkUserRecipe user recipe) = true)
    by (apply ur_matches_eq; reflexivity).
  rewrite Hself. simpl. rewrite app_nil_r.
  apply filter_all. intros row Hin. apply negb_true_iff.
  apply not_true_iff_false. intros Hm. apply ur_matches_eq in Hm. subst row.
  apply no_row_not_In in Hnone. contradiction.
Qed.

(** The successful branch of [add_to]. *)
Lemma add_to_creates (model : JoinModel) (pk : Z) (user : User) (recipe : Recipe) (db : DB) :
  find_recipe db pk = Some recipe ->
  existsb (ur_matches (user_id user) pk) (join_table model db) = false ->
  RecipeViewSet.add_to model pk user db
    = (set_join_table model db
         (join_table model db ++ [mkUserRecipe (user_id user) pk]),
       inr (mkResponse 201 (RecipeInfoBody (RecipeInfoSerializer recipe)))).
Proof.
  intros Hfind Hnone. pose proof (@find_recipe_id db pk recipe Hfind) as Hid.
  unfold RecipeViewSet.add_to, try_except_Http404, get_recipe_or_404, bind,
    join_exists, join_create, gets.
  rewrite Hfind, Hid, Hnone. simpl. rewrite Hnone. reflexivity.
Qed.

(** The branch of [add_to] for a row that is already there. *)
Lemma add_to_present (model : JoinModel) (pk : Z) (user : User) (recipe : Recipe) (db : DB) :
  find_recipe db pk = Some recipe ->
  existsb (ur_matches (user_id user) pk) (join_table model db) = true ->
  RecipeViewSet.add_to model pk user db
    = (db, inr (mkResponse 400 (Plain "Рецепт уже добавлен"))).
Proof.
  intros Hfind Hsome. pose proof (@find_recipe_id db pk recipe Hfind) as Hid.
  unfold RecipeViewSet.add_to, try_except_Http404, get_recipe_or_404, bind,
    join_exists, gets.
  rewrite Hfind, Hid, Hsome. reflexivity.
Qed.

(** X1.  Adding an existing recipe that the user has not added yet answers
    201 with the short summary of the recipe and appends the (user, recipe)
    row; the same request sent again answers 400 and stores nothing more. *)
Theorem add_to_then_again (model : JoinModel) (pk : Z) (user : User)
        (recipe : Recipe) (db : DB) :
  find_recipe db pk = Some recipe ->
  existsb (ur_matches (user_id user) pk) (join_table model db) = false ->
  let db' := set_join_table model db
               (join_table model db ++ [mkUserRecipe (user_id user) pk]) in
  RecipeViewSet.add_to model pk user db
    = (db', inr (mkResponse 201
                   (RecipeInfoBody
                      (mkRecipeInfo pk (name recipe) (image recipe) (cooking_time recipe)))))
  /\ RecipeViewSet.add_to model pk user db'
     = (db', inr (mkResponse 400 (Plain "Рецепт уже добавлен"))).
Proof.
  intros Hfind Hnone db'. pose proof (@find_recipe_id db pk recipe Hfind) as Hid.
  split.
  - rewrite (add_to_creates model pk user db Hfind Hnone).
    unfold RecipeInfoSerializer. rewrite Hid. reflexivity.
  - apply (@add_to_present model pk user recipe db').
    + unfold db'. rewrite find_recipe_set_join. exact Hfind.
    + unfold db'. rewrite join_table_set_same, existsb_app. simpl.
      assert (Hself : ur_matches (user_id user) pk (mkUserRecipe (user_id user) pk) = true)
        by (apply ur_matches_eq; reflexivity).
      rewrite Hself. apply orb_true_iff. right. reflexivity.
Qed.

Lemma add_to_then_again_witness :
  RecipeViewSet.add_to Favorite 2 alice kitchen
    = (set_favorites kitchen [mkUserRecipe 1 2],
       inr (mkResponse 201 (RecipeInfoBody (mkRecipeInfo 2 "Bread" "b.png" 60))))
  /\ RecipeViewSet.add_to Favorite 2 alice (set_favorites kitchen [mkUserRecipe 1 2])
     = (set_favorites kitchen [mkUserRecipe 1 2],
        inr (mkResponse 400 (Plain "Рецепт уже добавлен"))).
Proof.
  exact (@add_to_then_again Favorite 2 alice bread kitchen eq_refl eq_refl).
Defined.

(** [add_to] on a key that is a number, run with no other writer: it
    answers 201 or 400, keeps the (user, recipe) pairs of its table pairwise
    different and leaves the other join table alone. *)
Lemma add_to_outcomes (model other : JoinModel) (pk : Z) (user : User) (db : DB) :
  let outcome := RecipeViewSet.add_to model pk user db in
  (exists response,
     snd outcome = inr response /\ (status response = 201 \/ status response = 400))
  /\ (NoDup (join_table model db) -> NoDup (join_table model (fst outcome)))
  /\ (other <> model -> join_table other (fst outcome) = join_table other db).
Proof.
  intros outcome. unfold outcome.
  destruct (find_recipe db pk) as [recipe |] eqn:Hfind.
  - destruct (existsb (ur_matches (user_id user) pk) (join_table model db)) eqn:Hrow.
    + rewrite (add_to_present model pk user db Hfind Hrow). simpl.
      split; [eexists; split; [reflexivity | simpl; tauto] | tauto].
    + rewrite (add_to_creates model pk user db Hfind Hrow). simpl.
      split; [eexists; split; [reflexivity | simpl; tauto] |]. split.
      * intros Hnd. rewrite join_table_set_same.
        apply NoDup_app; [exact Hnd | constructor; [intros [] | constructor] |].
        intros row Hin [<- | []]. apply no_row_not_In in Hrow. contradiction.
      * intros Hne. destruct model, other; try congruence; reflexivity.
  - rewrite (add_to_handles_Http404 model pk user db Hfind). simpl.
    split; [eexists; split; [reflexivity | simpl; tauto] | tauto].
Qed.

(** X2.  [add_to] on the path segment of the request raises for one reason
    only: a segment that is no number, on which the lookup raises
    [ValueError], an exception the [except Http404] clause does not catch;
    nothing is written then.  On a segment that is a number, and with no
    other request writing in between, it answers 201 or 400.  Either way it
    keeps the (user, recipe) pairs of its table pairwise different and
    leaves the other join table alone. *)
Theorem add_to_raises_only_ValueError
        (py_int : string -> option Z) (model other : JoinModel) (pk : string)
        (user : User) (db : DB) :
  let outcome := request.add_to py_int model pk user db in
  (py_int pk = None -> outcome = (db, inl request.ValueError))
  /\ (forall key, py_int pk = Some key ->
        exists response,
          snd outcome = inr response
          /\ (status response = 201 \/ status response = 400))
  /\ (forall e, snd outcome = inl e ->
        e = request.ValueError /\ py_int pk = None /\ fst outcome = db)
  /\ (NoDup (join_table model db) -> NoDup (join_table model (fst outcome)))
  /\ (other <> model -> join_table other (fst outcome) = join_table other db).
Proof.
  intros outcome. unfold outcome, request.add_to, request.bind,
    request.get_prep_value, request.run.
  destruct (py_int pk) as [key |] eqn:Hkey.
  - destruct (add_to_outcomes model other key user db)
      as [[response [Hsnd Hstatus]] [Hnd Hother]].
    destruct (RecipeViewSet.add_to model key user db) as [db' [e | r]];
      simpl in *; [discriminate Hsnd |].
    split; [discriminate | split; [| split; [discriminate | tauto]]].
    intros key' _. exists response. split; [congruence | exact Hstatus].
  - simpl. split; [reflexivity | split; [discriminate | split; [| tauto]]].
    intros e He. inversion He. tauto.
Qed.

Lemma add_to_raises_only_ValueError_witness :
  request.add_to decimal ShoppingCart "one" bob pantry
    = (pantry, inl request.ValueError)
  /\ (exists response,
        snd (request.add_to decimal ShoppingCart "1" bob pantry) = inr response
        /\ (status response = 201 \/ status response = 400))
  /\ NoDup (join_table ShoppingCart
              (fst (request.add_to decimal ShoppingCart "1" bob pantry)))
  /\ join_table Favorite (fst (request.add_to decimal ShoppingCart "1" bob pantry))
     = join_table Favorite pantry.
Proof.
  split; [| split; [| split]].
  - apply (proj1 (add_to_raises_only_ValueError
                    decimal ShoppingCart Favorite "one" bob pantry)).
    reflexivity.
  - apply (proj1 (proj2 (add_to_raises_only_ValueError
                           decimal ShoppingCart Favorite "1" bob pantry)) 1).
    reflexivity.
  - apply (proj1 (proj2 (proj2 (proj2 (add_to_raises_only_ValueError
                                         decimal ShoppingCart Favorite "1" bob pantry))))).
    simpl. repeat (constructor; [simpl; intuition discriminate |]). constructor.
  - apply (proj2 (proj2 (proj2 (proj2 (add_to_raises_only_ValueError
                                         decimal ShoppingCart Favorite "1" bob pantry))))).
    discriminate.
Defined.

(** The two branches of [delete_from] for an existing recipe. *)
Lemma delete_from_removes (model : JoinModel) (pk : Z) (user : User) (recipe : Recipe)
      (db : DB) :
  find_recipe db pk = Some recipe ->
  existsb (ur_matches (user_id user) pk) (join_table model db) = true ->
  RecipeViewSet.delete_from model pk user db
    = (set_join_table model db
         (filter (fun row => negb (ur_matches (user_id user) pk row))
                 (join_table model db)),
       inr (mkResponse 204 NoBody)).
Proof.
  intros Hfind Hsome. pose proof (@find_recipe_id db pk recipe Hfind) as Hid.
  unfold RecipeViewSet.delete_from, get_recipe_or_404, bind, join_exists, join_delete,
    gets, modify.
  rewrite Hfind, Hid, Hsome. reflexivity.
Qed.

Lemma delete_from_absent (model : JoinModel) (pk : Z) (user : User) (recipe : Recipe)
      (db : DB) :
  find_recipe db pk = Some recipe ->
  existsb (ur_matches (user_id user) pk) (join_table model db) = false ->
  RecipeViewSet.delete_from model pk user db
    = (db, inr (mkResponse 400 (Dict "errors" "Рецепт уже удален!"))).
Proof.
  intros Hfind Hnone. pose proof (@find_recipe_id db pk recipe Hfind) as Hid.
  unfold RecipeViewSet.delete_from, get_recipe_or_404, bind, join_exists, gets.
  rewrite Hfind, Hid, Hnone. reflexivity.
Qed.

(** [delete_from] on what [add_to] left. *)
Lemma delete_after_add (model : JoinModel) (pk : Z) (user : User)
      (recipe : Recipe) (db : DB) :
  find_recipe db pk = Some recipe ->
  existsb (ur_matches (user_id user) pk) (join_table model db) = false ->
  RecipeViewSet.delete_from model pk user
    (fst (RecipeViewSet.add_to model pk user db))
  = (db, inr (mkResponse HTTP_204_NO_CONTENT NoBody)).
Proof.
  intros Hfind Hnone.
  rewrite (add_to_creates model pk user db Hfind Hnone). simpl.
  rewrite (@delete_from_removes model pk user recipe).
  - rewrite join_table_set_same, set_join_table_twice.
    rewrite (remove_appended_row _ _ _ Hnone). rewrite set_join_table_same. reflexivity.
  - rewrite find_recipe_set_join. exact Hfind.
  - rewrite join_table_set_same, existsb_app. simpl.
    assert (Hself : ur_matches (user_id user) pk (mkUserRecipe (user_id user) pk) = true)
      by (apply ur_matches_eq; reflexivity).
    rewrite Hself. apply orb_true_iff. right. reflexivity.
Qed.

(** X3.  Adding a recipe and then removing it gives the database back as it
    was: the remove request answers 204 and the table holds its old rows in
    their old order. *)
Theorem add_then_delete_restores (model : JoinModel) (pk : Z) (user : User)
        (recipe : Recipe) (db : DB) :
  find_recipe db pk = Some recipe ->
  existsb (ur_matches (user_id user) pk) (join_table model db) = false ->
  RecipeViewSet.delete_from model pk user
    (fst (RecipeViewSet.add_to model pk user db))
  = (db, inr (mkResponse 204 NoBody))
  /\ join_table model (fst (RecipeViewSet.delete_from model pk user
                              (fst (RecipeViewSet.add_to model pk user db))))
     = join_table model db.
Proof.
  intros Hfind Hnone.
  rewrite (@delete_after_add model pk user recipe db Hfind Hnone).
  split; reflexivity.
Qed.

Lemma add_then_delete_restores_witness :
  RecipeViewSet.delete_from ShoppingCart 1 bob
    (fst (RecipeViewSet.add_to ShoppingCart 1 bob pantry))
  = (pantry, inr (mkResponse 204 NoBody)).
Proof.
  exact (proj1 (@add_then_delete_restores ShoppingCart 1 bob pancakes pantry
                  eq_refl eq_refl)).
Defined.

(** X4.  Removing a recipe the user had added deletes the user's row for
    that recipe and no other: every other row stays, in order.  Afterwards
    the user has no row for the recipe, and the same request sent again
    answers 400 and changes nothing. *)
Theorem delete_from_then_again (model : JoinModel) (pk : Z) (user : User)
        (recipe : Recipe) (db : DB) :
  find_recipe db pk = Some recipe ->
  existsb (ur_matches (user_id user) pk) (join_table model db) = true ->
  let db' := fst (RecipeViewSet.delete_from model pk user db) in
  (forall row, In row (join_table model db')
               <-> In row (join_table model db) /\ row <> mkUserRecipe (user_id user) pk)
  /\ join_table model db'
     = filter (fun row => negb (ur_matches (user_id user) pk row)) (join_table model db)
  /\ RecipeViewSet.delete_from model pk user db'
     = (db', inr (mkResponse 400 (Dict "errors" "Рецепт уже удален!"))).
Proof.
  intros Hfind Hsome db'. unfold db'.
  rewrite (delete_from_removes model pk user db Hfind Hsome). simpl.
  rewrite join_table_set_same.
  assert (Hgone : existsb (ur_matches (user_id user) pk)
                    (filter (fun row => negb (ur_matches (user_id user) pk row))
                            (join_table model db)) = false).
  { apply not_true_iff_false. intros Hex. apply existsb_exists in Hex.
    destruct Hex as [row [Hin Hm]]. apply filter_In in Hin. destruct Hin as [_ Hneg].
    rewrite Hm in Hneg. discriminate. }
  split; [| split; [reflexivity |]].
  - intros row. rewrite filter_In, negb_true_iff. split.
    + intros [Hin Hm]. split; [exact Hin |]. intros ->.
      assert (Hself : ur_matches (user_id user) pk (mkUserRecipe (user_id user) pk) = true)
        by (apply ur_matches_eq; reflexivity).
      congruence.
    + intros [Hin Hne]. split; [exact Hin |]. apply not_true_iff_false.
      intros Hm. apply ur_matches_eq in Hm. contradiction.
  - apply (@delete_from_absent model pk user recipe).
    + rewrite find_recipe_set_join. exact Hfind.
    + rewrite join_table_set_same. exact Hgone.
Qed.

Lemma delete_from_then_again_witness :
  (forall row,
     In row (join_table ShoppingCart (fst (RecipeViewSet.delete_from ShoppingCart 2 alice pantry)))
     <-> In row (join_table ShoppingCart pantry) /\ row <> mkUserRecipe 1 2)
  /\ join_table ShoppingCart (fst (RecipeViewSet.delete_from ShoppingCart 2 alice pantry))
     = [mkUserRecipe 1 1; mkUserRecipe 2 2]
  /\ RecipeViewSet.delete_from ShoppingCart 2 alice
       (fst (RecipeViewSet.delete_from ShoppingCart 2 alice pantry))
     = (fst (RecipeViewSet.delete_from ShoppingCart 2 alice pantry),
        inr (mkResponse 400 (Dict "errors" "Рецепт уже удален!"))).
Proof.
  exact (@delete_from_then_again ShoppingCart 2 alice bread pantry eq_refl eq_refl).
Defined.

(** X5.  A favorite or shopping-cart request, whatever its method and
    outcome, writes to one join table only: the favorites for the request
    type [favorite], the shopping cart for any other; users, recipes, tags,
    line items, subscriptions and links are never touched. *)
Theorem favorite_or_shopping_cart_frame (method : Method) (user : User) (pk : Z)
        (request_type : string) (db : DB) :
  let db' := fst (RecipeViewSet.favorite_or_shopping_cart method user pk request_type db) in
  (users db' = users db /\ subscribes db' = subscribes db /\ recipes db' = recipes db
   /\ recipe_tags db' = recipe_tags db /\ ingredient_list db' = ingredient_list db
   /\ short_links db' = short_links db)
  /\ (request_type = "favorite"%string -> shopping_cart db' = shopping_cart db)
  /\ (request_type <> "favorite"%string -> favorites db' = favorites db).
Proof.
  unfold RecipeViewSet.favorite_or_shopping_cart.
  destruct (String.eqb request_type "favorite") eqn:Htype.
  - apply String.eqb_eq in Htype.
    assert (Hframe : forall outcome : DB * (Exn + Response),
              (exists rows, fst outcome = set_favorites db rows) \/ fst outcome = db ->
              let db' := fst outcome in
              (users db' = users db /\ subscribes db' = subscribes db
               /\ recipes db' = recipes db /\ recipe_tags db' = recipe_tags db
               /\ ingredient_list db' = ingredient_list db
               /\ short_links db' = short_links db)
              /\ (request_type = "favorite"%string -> shopping_cart db' = shopping_cart db)
              /\ (request_type <> "favorite"%string -> favorites db' = favorites db)).
    { intros outcome [[rows ->] | ->]; simpl; repeat split; congruence. }
    destruct method; apply Hframe.
    + destruct (find_recipe db pk) as [recipe |] eqn:Hfind.
      * destruct (existsb (ur_matches (user_id user) pk) (join_table Favorite db)) eqn:Hrow.
        -- right. rewrite (add_to_present Favorite pk user db Hfind Hrow). reflexivity.
        -- left. rewrite (add_to_creates Favorite pk user db Hfind Hrow). eexists. reflexivity.
      * right. rewrite (add_to_handles_Http404 Favorite pk user db Hfind). reflexivity.
    + destruct (find_recipe db pk) as [recipe |] eqn:Hfind.
      * destruct (existsb (ur_matches (user_id user) pk) (join_table Favorite db)) eqn:Hrow.
        -- left. rewrite (delete_from_removes Favorite pk user db Hfind Hrow). eexists. reflexivity.
        -- right. rewrite (delete_from_absent Favorite pk user db Hfind Hrow). reflexivity.
      * right. unfold RecipeViewSet.delete_from, bind, get_recipe_or_404. rewrite Hfind. reflexivity.
  - apply String.eqb_neq in Htype.
    assert (Hframe : forall outcome : DB * (Exn + Response),
              (exists rows, fst outcome = set_shopping_cart db rows) \/ fst outcome = db ->
              let db' := fst outcome in
              (users db' = users db /\ subscribes db' = subscribes db
               /\ recipes db' = recipes db /\ recipe_tags db' = recipe_tags db
               /\ ingredient_list db' = ingredient_list db
               /\ short_links db' = short_links db)
              /\ (request_type = "favorite"%string -> shopping_cart db' = shopping_cart db)
              /\ (request_type <> "favorite"%string -> favorites db' = favorites db)).
    { intros outcome [[rows ->] | ->]; simpl; repeat split; try reflexivity; congruence. }
    destruct method; apply Hframe.
    + destruct (find_recipe db pk) as [recipe |] eqn:Hfind.
      * destruct (existsb (ur_matches (user_id user) pk) (join_table ShoppingCart db)) eqn:Hrow.
        -- right. rewrite (add_to_present ShoppingCart pk user db Hfind Hrow). reflexivity.
        -- left. rewrite (add_to_creates ShoppingCart pk user db Hfind Hrow). eexists. reflexivity.
      * right. rewrite (add_to_handles_Http404 ShoppingCart pk user db Hfind). reflexivity.
    + destruct (find_recipe db pk) as [recipe |] eqn:Hfind.
      * destruct (existsb (ur_matches (user_id user) pk) (join_table ShoppingCart db)) eqn:Hrow.
        -- left. rewrite (delete_from_removes ShoppingCart pk user db Hfind Hrow). eexists. reflexivity.
        -- right. rewrite (delete_from_absent ShoppingCart pk user db Hfind Hrow). reflexivity.
      * right. unfold RecipeViewSet.delete_from, bind, get_recipe_or_404. rewrite Hfind. reflexivity.
Qed.

Lemma favorite_or_shopping_cart_frame_witness :
  shopping_cart (fst (RecipeViewSet.favorite_or_shopping_cart POST bob 1 "favorite" pantry))
    = shopping_cart pantry
  /\ favorites (fst (RecipeViewSet.favorite_or_shopping_cart DELETE alice 1 "shopping_cart" pantry))
    = favorites pantry.
Proof.
  split.
  - apply (proj1 (proj2 (favorite_or_shopping_cart_frame POST bob 1 "favorite" pantry))).
    reflexivity.
  - apply (proj2 (proj2 (favorite_or_shopping_cart_frame DELETE alice 1 "shopping_cart" pantry))).
    discriminate.
Defined.

(** ** The flags of the read representation *)

Lemma flag_existsb (recipe user : Z) (rows : list UserRecipe) :
  existsb (fun row => (ur_recipe row =? recipe) && (ur_user row =? user)) rows
    = existsb (ur_matches user recipe) rows.
Proof.
  induction rows as [| row rows IH]; simpl; [reflexivity |].
  rewrite IH. unfold ur_matches. rewrite (andb_comm (ur_recipe row =? recipe)). reflexivity.
Qed.

(** X6.  [is_favorited] follows the favorites table: it is false for the
    user before the recipe is added, true after a successful add, false
    again after the remove, and false for an anonymous caller throughout.
    The add changes the flag of no other user and not the shopping-cart flag,
    and raises the favorites count shown by the admin by one. *)
Theorem is_favorited_tracks_favorites (pk : Z) (user : User) (recipe : Recipe) (db : DB) :
  find_recipe db pk = Some recipe ->
  existsb (ur_matches (user_id user) pk) (favorites db) = false ->
  let db' := fst (RecipeViewSet.add_to Favorite pk user db) in
  GetRecipeSerializer.get_is_favorited recipe (Some user) db = false
  /\ GetRecipeSerializer.get_is_favorited recipe (Some user) db' = true
  /\ GetRecipeSerializer.get_is_favorited recipe None db' = false
  /\ GetRecipeSerializer.get_is_favorited recipe (Some user)
       (fst (RecipeViewSet.delete_from Favorite pk user db')) = false
  /\ (forall viewer,
        GetRecipeSerializer.get_is_in_shopping_cart recipe viewer db'
        = GetRecipeSerializer.get_is_in_shopping_cart recipe viewer db)
  /\ (forall other,
        user_id other <> user_id user ->
        GetRecipeSerializer.get_is_favorited recipe (Some other) db'
        = GetRecipeSerializer.get_is_favorited recipe (Some other) db)
  /\ admin.favorites recipe db' = S (admin.favorites recipe db).
Proof.
  intros Hfind Hnone db'. pose proof (@find_recipe_id db pk recipe Hfind) as Hid.
  assert (Hdb' : db' = set_favorites db (favorites db ++ [mkUserRecipe (user_id user) pk])).
  { unfold db'. rewrite (@add_to_creates Favorite pk user recipe db Hfind Hnone). reflexivity. }
  assert (Hback : fst (RecipeViewSet.delete_from Favorite pk user db') = db).
  { unfold db'.
    rewrite (@delete_after_add Favorite pk user recipe db Hfind Hnone). reflexivity. }
  rewrite Hback, Hdb'.
  unfold GetRecipeSerializer.get_is_favorited, GetRecipeSerializer.get_is_in_shopping_cart,
    admin.favorites.
  simpl. rewrite !flag_existsb, Hid, Hnone.
  split; [reflexivity |]. split.
  - rewrite existsb_app. simpl.
    assert (Hself : ur_matches (user_id user) pk (mkUserRecipe (user_id user) pk) = true)
      by (apply ur_matches_eq; reflexivity).
    rewrite Hself. apply orb_true_iff. right. reflexivity.
  - split; [reflexivity |]. split; [reflexivity |]. split; [| split].
    + intros [viewer |]; reflexivity.
    + intros other Hne. rewrite !flag_existsb, existsb_app. simpl.
      assert (Hother : ur_matches (user_id other) pk (mkUserRecipe (user_id user) pk) = false).
      { apply not_true_iff_false. intros Hm. apply ur_matches_eq in Hm.
        inversion Hm. congruence. }
      rewrite Hother. simpl. apply orb_false_r.
    + rewrite filter_app, length_app. simpl. rewrite Z.eqb_refl. simpl. lia.
Qed.

Lemma is_favorited_tracks_favorites_witness :
  GetRecipeSerializer.get_is_favorited bread (Some alice) kitchen = false
  /\ GetRecipeSerializer.get_is_favorited bread (Some alice)
       (fst (RecipeViewSet.add_to Favorite 2 alice kitchen)) = true
  /\ GetRecipeSerializer.get_is_favorited bread None
       (fst (RecipeViewSet.add_to Favorite 2 alice kitchen)) = false
  /\ GetRecipeSerializer.get_is_favorited bread (Some alice)
       (fst (RecipeViewSet.delete_from Favorite 2 alice
               (fst (RecipeViewSet.add_to Favorite 2 alice kitchen)))) = false
  /\ (forall viewer,
        GetRecipeSerializer.get_is_in_shopping_cart bread viewer
          (fst (RecipeViewSet.add_to Favorite 2 alice kitchen))
        = GetRecipeSerializer.get_is_in_shopping_cart bread viewer kitchen)
  /\ (forall other,
        user_id other <> user_id alice ->
        GetRecipeSerializer.get_is_favorited bread (Some other)
          (fst (RecipeViewSet.add_to Favorite 2 alice kitchen))
        = GetRecipeSerializer.get_is_favorited bread (Some other) kitchen)
  /\ admin.favorites bread (fst (RecipeViewSet.add_to Favorite 2 alice kitchen))
     = S (admin.favorites bread kitchen).
Proof.
  exact (@is_favorited_tracks_favorites 2 alice bread kitchen eq_refl eq_refl).
Defined.

(** ** Subscribing and unsubscribing *)

Lemma subscribe_matches_iff (user author : Z) (row : Subscribe) :
  subscribe_matches user author row = true
  <-> subscribe_user row = user /\ subscribe_author row = author.
Proof.
  unfold subscribe_matches. rewrite andb_true_iff, !Z.eqb_eq. tauto.
Qed.

Lemma subscribe_matches_new (seq user author : Z) :
  subscribe_matches user author (mkSubscribe seq user author) = true.
Proof. apply subscribe_matches_iff. split; reflexivity. Qed.

Lemma find_user_set_subscribes (db : DB) rows seq (id : Z) :
  find_user (set_subscribes db rows seq) id = find_user db id.
Proof. reflexivity. Qed.

(** The branches of [subscribe] for an author that exists. *)
Lemma subscribe_post_creates (user author : User) (id : Z) recipes_limit (db : DB) :
  find_user db id = Some author ->
  user_id user <> id ->
  existsb (subscribe_matches (user_id user) id) (subscribes db) = false ->
  let db' := set_subscribes db
               (subscribes db ++ [mkSubscribe (subscribe_seq db) (user_id user) id])
               (subscribe_seq db + 1) in
  CustomUserViewSet.subscribe POST user id recipes_limit db
    = (db', inr (mkResponse 201
                   (SubscribeBody
                      (SubscribeSerializer (user_id user) recipes_limit author db')))).
Proof.
  intros Hfind Hne Hnone db'. pose proof (@find_user_id db id author Hfind) as Hid.
  unfold CustomUserViewSet.subscribe, get_user_or_404, bind, subscription_exists,
    Subscribe_create, gets.
  rewrite Hfind, Hid, Hnone.
  assert (Hself : (user_id user =? id) = false) by (apply Z.eqb_neq; exact Hne).
  rewrite Hself. simpl. rewrite Hnone. reflexivity.
Qed.



Lemma subscribe_delete_removes (user author : User) (id : Z) recipes_limit (db : DB) :
  find_user db id = Some author ->
  existsb (subscribe_matches (user_id user) id) (subscribes db) = true ->
  CustomUserViewSet.subscribe DELETE user id recipes_limit db
    = (set_subscribes db
         (filter (fun row => negb (subscribe_matches (user_id user) id row))
                 (subscribes db))
         (subscribe_seq db),
       inr (mkResponse 204 NoBody)).
Proof.
  intros Hfind Hsome. pose proof (@find_user_id db id author Hfind) as Hid.
  unfold CustomUserViewSet.subscribe, get_user_or_404, bind, subscription_exists,
    subscription_delete, gets, modify.
  rewrite Hfind, Hid, Hsome. reflexivity.
Qed.

Lemma subscribe_delete_absent (user author : User) (id : Z) recipes_limit (db : DB) :
  find_user db id = Some author ->
  existsb (subscribe_matches (user_id user) id) (subscribes db) = false ->
  CustomUserViewSet.subscribe DELETE user id recipes_limit db
    = (db, inr (mkResponse 400 (Dict "error" "Вы не подписаны на этого пользователя"))).
Proof.
  intros Hfind Hnone. pose proof (@find_user_id db id author Hfind) as Hid.
  unfold CustomUserViewSet.subscribe, get_user_or_404, bind, subscription_exists, gets.
  rewrite Hfind, Hid, Hnone. reflexivity.
Qed.


(** *** The subscribe request, case by case *)

Section SubscribeRequest.

Variable py_int : string -> option Z.







End SubscribeRequest.



Lemma remove_appended_subscription (seq user author : Z) (rows : list Subscribe) :
  existsb (subscribe_matches user author) rows = false ->
  filter (fun row => negb (subscribe_matches user author row))
         (rows ++ [mkSubscribe seq user author]) = rows.
Proof.
  intros Hnone. rewrite filter_app. simpl. rewrite subscribe_matches_new. simpl.
  rewrite app_nil_r. apply filter_all. intros row Hin. apply negb_true_iff.
  apply not_true_iff_false. intros Hm. apply not_true_iff_false in Hnone.
  apply Hnone. apply existsb_exists. exists row. split; assumption.
Qed.

(** X8.  Subscribing and then unsubscribing gives the subscription table
    back row for row; only the key sequence has moved on by one, so the key
    of the removed row is not handed out again. *)
Theorem subscribe_then_unsubscribe (user author : User) (id : Z) recipes_limit (db : DB) :
  find_user db id = Some author ->
  user_id user <> id ->
  existsb (subscribe_matches (user_id user) id) (subscribes db) = false ->
  CustomUserViewSet.subscribe DELETE user id recipes_limit
    (fst (CustomUserViewSet.subscribe POST user id recipes_limit db))
  = (set_subscribes db (subscribes db) (subscribe_seq db + 1),
     inr (mkResponse 204 NoBody)).
Proof.
  intros Hfind Hne Hnone.
  rewrite (@subscribe_post_creates user author id recipes_limit db Hfind Hne Hnone).
  simpl fst.
  rewrite (@subscribe_delete_removes user author id recipes_limit).
  - simpl. rewrite (@remove_appended_subscription (subscribe_seq db) (user_id user) id
                      (subscribes db) Hnone). reflexivity.
  - exact Hfind.
  - simpl. rewrite existsb_app. simpl. rewrite subscribe_matches_new.
    apply orb_true_iff. right. reflexivity.
Qed.

Lemma subscribe_then_unsubscribe_witness :
  CustomUserViewSet.subscribe DELETE alice 2 None
    (fst (CustomUserViewSet.subscribe POST alice 2 None kitchen))
  = (set_subscribes kitchen [] 2, inr (mkResponse 204 NoBody)).
Proof.
  apply (@subscribe_then_unsubscribe alice bob 2 None kitchen eq_refl).
  - discriminate.
  - reflexivity.
Defined.

(** Deleting rows cannot make two keys equal. *)
Lemma filter_keeps_keys_distinct {Row Key : Type} (key : Row -> Key) (keep : Row -> bool) :
  forall rows : list Row,
    NoDup (map key rows) -> NoDup (map key (filter keep rows)).
Proof.
  intros rows. induction rows as [| row rows IH]; intros Hkeys; simpl.
  - constructor.
  - apply NoDup_cons_iff in Hkeys. destruct Hkeys as [Hfresh Hrest].
    specialize (IH Hrest).
    destruct (keep row); simpl; [| exact IH].
    apply NoDup_cons_iff. split; [| exact IH].
    intros Hin. apply Hfresh.
    apply in_map_iff in Hin. destruct Hin as [other [Hsame Hin]].
    apply filter_In in Hin. destruct Hin as [Hin _].
    rewrite <- Hsame. apply in_map. exact Hin.
Qed.




(** X10.  Unsubscribing removes the rows of the (user, author) pair and no
    other row; afterwards the user does not follow the author, and the same
    request sent again answers 400 and changes nothing. *)
Theorem unsubscribe_then_again (user author : User) (id : Z) recipes_limit (db : DB) :
  find_user db id = Some author ->
  existsb (subscribe_matches (user_id user) id) (subscribes db) = true ->
  let db' := fst (CustomUserViewSet.subscribe DELETE user id recipes_limit db) in
  (forall s, In s (subscribes db')
             <-> In s (subscribes db)
                 /\ ~ (subscribe_user s = user_id user /\ subscribe_author s = id))
  /\ get_is_subscribed author (Some user) db' = false
  /\ CustomUserViewSet.subscribe DELETE user id recipes_limit db'
     = (db', inr (mkResponse 400 (Dict "error" "Вы не подписаны на этого пользователя"))).
Proof.
  intros Hfind Hsome db'. pose proof (@find_user_id db id author Hfind) as Hid.
  unfold db'.
  rewrite (@subscribe_delete_removes user author id recipes_limit db Hfind Hsome).
  simpl fst.
  assert (Hgone : existsb (subscribe_matches (user_id user) id)
                    (filter (fun row => negb (subscribe_matches (user_id user) id row))
                            (subscribes db)) = false).
  { apply not_true_iff_false. intros Hex. apply existsb_exists in Hex.
    destruct Hex as [row [Hin Hm]]. apply filter_In in Hin. destruct Hin as [_ Hneg].
    rewrite Hm in Hneg. discriminate. }
  split; [| split].
  - intros s. simpl. rewrite filter_In, negb_true_iff.
    rewrite <- subscribe_matches_iff.
    destruct (subscribe_matches (user_id user) id s); intuition congruence.
  - simpl. rewrite Hid. exact Hgone.
  - apply (@subscribe_delete_absent user author id recipes_limit); [exact Hfind | exact Hgone].
Qed.

Lemma unsubscribe_then_again_witness :
  (forall s,
     In s (subscribes (fst (CustomUserViewSet.subscribe DELETE alice 2 None
                              after_two_subscriptions)))
     <-> In s (subscribes after_two_subscriptions)
         /\ ~ (subscribe_user s = 1 /\ subscribe_author s = 2))
  /\ get_is_subscribed bob (Some alice)
       (fst (CustomUserViewSet.subscribe DELETE alice 2 None after_two_subscriptions))
     = false
  /\ CustomUserViewSet.subscribe DELETE alice 2 None
       (fst (CustomUserViewSet.subscribe DELETE alice 2 None after_two_subscriptions))
     = (fst (CustomUserViewSet.subscribe DELETE alice 2 None after_two_subscriptions),
        inr (mkResponse 400 (Dict "error" "Вы не подписаны на этого пользователя"))).
Proof.
  exact (@unsubscribe_then_again alice bob 2 None after_two_subscriptions eq_refl eq_refl).
Defined.




(** ** The recipes of a followed author *)

Lemma order_by_pub_date_desc_Permutation (rows : list Recipe) :
  Permutation (order_by_pub_date_desc rows) rows.
Proof.
  unfold order_by_pub_date_desc. induction rows as [| r rows IH]; simpl.
  - constructor.
  - apply Permutation_trans with (r :: fold_right insert_by_pub_date [] rows).
    + apply insert_by_pub_date_Permutation.
    + apply perm_skip. exact IH.
Qed.

(** X12.  In the profile of an author, [recipes_count] counts all recipes of
    the author whatever [recipes_limit] says; without a limit [recipes]
    lists exactly the author's recipes; with the limit [n] it is the first
    [n] entries of that list, so it holds [min n recipes_count] recipes. *)
Theorem SubscribeSerializer_recipes (viewer : Z) (n : nat) (obj : User) (db : DB) :
  let full := SubscribeSerializer viewer None obj db in
  let cut := SubscribeSerializer viewer (Some n) obj db in
  sub_recipes cut = firstn n (sub_recipes full)
  /\ length (sub_recipes cut) = Nat.min n (recipes_count cut)
  /\ recipes_count cut = recipes_count full
  /\ recipes_count full
     = length (filter (fun r => match author r with
                                | Some a => a =? user_id obj
                                | None => false
                                end) (recipes db))
  /\ (forall info,
        In info (sub_recipes full)
        <-> exists r, In r (recipes db) /\ author r = Some (user_id obj)
                      /\ info = RecipeInfoSerializer r).
Proof.
  intros full cut. unfold full, cut, SubscribeSerializer. simpl.
  set (authored := filter (fun r => match author r with
                                    | Some a => a =? user_id obj
                                    | None => false
                                    end) (recipes db)).
  pose proof (order_by_pub_date_desc_Permutation authored) as Hperm.
  split; [| split; [| split; [| split]]].
  - symmetry. apply firstn_map.
  - rewrite length_map, length_firstn. reflexivity.
  - reflexivity.
  - apply Permutation_length. exact Hperm.
  - intros info. rewrite in_map_iff. split.
    + intros [r [Hinfo Hin]]. apply (Permutation_in _ Hperm) in Hin.
      unfold authored in Hin. apply filter_In in Hin. destruct Hin as [Hin Hauth].
      exists r. split; [exact Hin |]. split; [| symmetry; exact Hinfo].
      destruct (author r) as [a |]; [| discriminate].
      apply Z.eqb_eq in Hauth. subst a. reflexivity.
    + intros [r [Hin [Hauth Hinfo]]]. exists r. split; [symmetry; exact Hinfo |].
      apply (Permutation_in _ (Permutation_sym Hperm)). unfold authored.
      apply filter_In. split; [exact Hin |]. rewrite Hauth. apply Z.eqb_refl.
Qed.

(** ** Resolving a short link *)

Lemma substring_all (s : string) :
  String.substring 0 (String.length s) s = s.
Proof. induction s as [| c s IH]; simpl; [reflexivity | rewrite IH; reflexivity]. Qed.

Lemma drop_last_append (s : string) (c : ascii) :
  py_str.drop_last (s ++ String c EmptyString) = s.
Proof.
  induction s as [| c' s IH]; simpl; [reflexivity |].
  rewrite IH. destruct s; reflexivity.
Qed.

Lemma replace_first_api_prefix (rest : string) :
  py_str.replace_first "/api" "" ("/api" ++ rest) = rest.
Proof.
  simpl. assert (Hempty : String.prefix "" rest = true) by (destruct rest; reflexivity).
  rewrite Hempty, Nat.sub_0_r. apply substring_all.
Qed.

Lemma filter_existsb_false {A} (p : A -> bool) (l : list A) :
  existsb p l = false -> filter p l = [].
Proof.
  intros Hnone. apply filter_none. intros x Hin. apply not_true_iff_false.
  intros Hp. apply not_true_iff_false in Hnone. apply Hnone.
  apply existsb_exists. exists x. split; assumption.
Qed.

(** X13.  Resolving a token for which no link is stored under the
    configured domain answers 404; nothing but a missing row is caught, so
    with the domain variable unset the lookup of the environment raises
    [KeyError]. *)
Theorem redirect_unknown_token (conf : Conf) (reverse : string -> option string)
        (token : string) (db : DB) :
  (forall domen,
     environ_get conf "DOMEN" = inr domen ->
     (forall l, In l (short_links db) -> short_link l <> (domen ++ "s/" ++ token)%string) ->
     redirect_to_full_link conf reverse token db = inr (HttpResponse "error" 404))
  /\ (environ_get conf "DOMEN" = inl (KeyError "DOMEN") ->
      redirect_to_full_link conf reverse token db = inl (Raised (KeyError "DOMEN"))).
Proof.
  split.
  - intros domen Henv Hnone. unfold redirect_to_full_link, ShortLink_get. rewrite Henv.
    rewrite filter_none; [reflexivity |].
    intros l Hin. apply String.eqb_neq. apply Hnone. exact Hin.
  - intros Henv. unfold redirect_to_full_link. rewrite Henv. reflexivity.
Qed.

Lemma redirect_unknown_token_witness :
  redirect_to_full_link site (fun _ => None) "zzzz" kitchen
    = inr (HttpResponse "error" 404)
  /\ redirect_to_full_link (mkConf [] "/api/") (fun _ => None) "abcd" kitchen
     = inl (Raised (KeyError "DOMEN")).
Proof.
  split.
  - apply (proj1 (redirect_unknown_token site (fun _ => None) "zzzz" kitchen)
             "https://foodgram.example/"%string).
    + reflexivity.
    + intros l [].
  - apply (proj2 (redirect_unknown_token (mkConf [] "/api/") (fun _ => None) "abcd" kitchen)).
    reflexivity.
Defined.

(** X14.  With the API mounted under [/api/], a link created by a get-link
    request resolves: the token taken from the created short link redirects
    to the page of the recipe, [/recipes/<id>], that is the recipe URL
    without the API prefix and without the closing slash.  No route is named
    like that page. *)
Theorem get_link_then_redirect (conf : Conf) (reverse : string -> option string)
        (pk : Z) (tape : list nat)
        (recipe : Recipe) (domen : string) (chars : list ascii) (db : DB) :
  find_recipe db pk = Some recipe ->
  environ_get conf "DOMEN" = inr domen ->
  api_mount conf = "/api/"%string ->
  reverse ("/recipes/" ++ py.str_of_int pk)%string = None ->
  py.sample " "%char (list_ascii_of_string GetRecipeShortLink.characters) 4 tape
    = Some chars ->
  filter (fun l => String.eqb (original_url l) (get_absolute_url conf recipe))
         (short_links db) = [] ->
  existsb (fun l => String.eqb (short_link l) (domen ++ "s/" ++ py.join_chars chars)%string)
          (short_links db) = false ->
  exists db',
    GetRecipeShortLink.get conf pk tape db
      = Some (db', inr (mkResponse 200
                          (Dict "short-link" (domen ++ "s/" ++ py.join_chars chars)%string)))
    /\ redirect_to_full_link conf reverse (py.join_chars chars) db'
       = inr (HttpResponseRedirect ("/recipes/" ++ py.str_of_int pk)%string).
Proof.
  intros Hfind Henv Hmount Hroute Hsample Hnone Hfresh.
  pose proof (@find_recipe_id db pk recipe Hfind) as Hid.
  eexists. split.
  - rewrite (@get_unfold conf pk tape db recipe domen chars Hfind Henv Hsample).
    unfold get_or_create. rewrite Hnone, Hfresh. reflexivity.
  - unfold redirect_to_full_link, ShortLink_get. rewrite Henv. simpl short_links.
    rewrite filter_app, (filter_existsb_false _ _ Hfresh). simpl.
    rewrite String.eqb_refl. simpl.
    unfold get_absolute_url. rewrite Hmount, Hid.
    change ("/api/" ++ "recipes/" ++ py.str_of_int pk ++ "/")%string
      with ("/api" ++ ("/recipes/" ++ (py.str_of_int pk ++ "/")))%string.
    rewrite replace_first_api_prefix.
    rewrite <- append_assoc, drop_last_append.
    unfold resolve_url. rewrite Hroute. reflexivity.
Qed.

Lemma get_link_then_redirect_witness :
  exists db',
    GetRecipeShortLink.get site 1 [0; 1; 2; 3]%nat kitchen
      = Some (db', inr (mkResponse 200
                          (Dict "short-link" "https://foodgram.example/s/abcd")))
    /\ redirect_to_full_link site (fun _ => None) "abcd" db'
       = inr (HttpResponseRedirect "/recipes/1").
Proof.
  exact (@get_link_then_redirect site (fun _ => None) 1 [0; 1; 2; 3]%nat pancakes
           "https://foodgram.example/"%string ["a"; "b"; "c"; "d"]%char kitchen
           eq_refl eq_refl eq_refl eq_refl eq_refl eq_refl eq_refl).
Defined.

Lemma get_or_create_created_fresh url short_url db db' link_obj :
  get_or_create url short_url db = (db', inr (link_obj, true)) ->
  existsb (fun l => String.eqb (short_link l) short_url) (short_links db) = false.
Proof.
  unfold get_or_create.
  destruct (filter (fun l => String.eqb (original_url l) url) (short_links db))
    as [| l1 [| l2 ls]].
  - destruct (existsb _ (short_links db)); [discriminate | reflexivity].
  - intros H. inversion H.
  - discriminate.
Qed.

(** X15.  A get-link request, whatever its outcome, keeps the link table
    well formed and touches nothing else: stored short links stay pairwise
    different, no recipe URL gets a second link, and users, recipes, tags,
    line items, favorites, carts and subscriptions are as before. *)
Theorem get_keeps_links_unique (conf : Conf) (pk : Z) (tape : list nat)
        (db db' : DB) (outcome : Exn + Response) :
  GetRecipeShortLink.get conf pk tape db = Some (db', outcome) ->
  (NoDup (map short_link (short_links db)) -> NoDup (map short_link (short_links db')))
  /\ ((forall url, (length (filter (fun l => String.eqb (original_url l) url)
                                   (short_links db)) <= 1)%nat) ->
      forall url, (length (filter (fun l => String.eqb (original_url l) url)
                                  (short_links db')) <= 1)%nat)
  /\ (users db' = users db /\ subscribes db' = subscribes db /\ recipes db' = recipes db
      /\ recipe_tags db' = recipe_tags db /\ ingredient_list db' = ingredient_list db
      /\ favorites db' = favorites db /\ shopping_cart db' = shopping_cart db).
Proof.
  intros Hget. split; [| split].
  - intros Hnd. unfold GetRecipeShortLink.get, get_recipe_or_404 in Hget.
    destruct (find_recipe db pk) as [recipe |];
      [| injection Hget as <- _; exact Hnd].
    destruct (environ_get conf "DOMEN") as [e | domen];
      [injection Hget as <- _; exact Hnd |].
    destruct (py.sample " "%char _ 4 tape) as [chars |]; [| discriminate].
    unfold bind, ret in Hget.
    destruct (get_or_create (get_absolute_url conf recipe)
                (domen ++ "s/" ++ py.join_chars chars)%string db)
      as [db1 [e | [link_obj created]]] eqn:Hgoc.
    + injection Hget as <- _. rewrite (get_or_create_error _ _ _ Hgoc). exact Hnd.
    + injection Hget as <- _.
      destruct (get_or_create_cases _ _ _ Hgoc)
        as [[_ [-> _]] | [-> [Hlink [-> _]]]]; [exact Hnd |].
      pose proof (get_or_create_created_fresh _ _ _ Hgoc) as Hfresh.
      simpl. rewrite map_app. subst link_obj. simpl.
      apply NoDup_app; [exact Hnd | constructor; [intros [] | constructor] |].
      intros s Hin [<- | []]. apply in_map_iff in Hin. destruct Hin as [l [Hl Hin]].
      apply not_true_iff_false in Hfresh. apply Hfresh.
      apply existsb_exists. exists l. split; [exact Hin |].
      apply String.eqb_eq. exact Hl.
  - apply (get_keeps_one_link_per_url _ _ _ _ Hget).
  - unfold GetRecipeShortLink.get, get_recipe_or_404 in Hget.
    destruct (find_recipe db pk) as [recipe |];
      [| injection Hget as <- _; repeat split].
    destruct (environ_get conf "DOMEN") as [e | domen];
      [injection Hget as <- _; repeat split |].
    destruct (py.sample " "%char _ 4 tape) as [chars |]; [| discriminate].
    unfold bind, ret in Hget.
    destruct (get_or_create (get_absolute_url conf recipe)
                (domen ++ "s/" ++ py.join_chars chars)%string db)
      as [db1 [e | [link_obj created]]] eqn:Hgoc.
    + injection Hget as <- _. rewrite (get_or_create_error _ _ _ Hgoc). repeat split.
    + injection Hget as <- _.
      destruct (get_or_create_cases _ _ _ Hgoc)
        as [[_ [-> _]] | [_ [_ [-> _]]]]; repeat split.
Qed.

Lemma get_keeps_links_unique_witness :
  NoDup (map short_link
           (short_links (set_short_links kitchen
              [mkShortLink "/api/recipes/1/" "https://foodgram.example/s/abcd"])))
  /\ (forall url,
        (length (filter (fun l => String.eqb (original_url l) url)
                   (short_links (set_short_links kitchen
                      [mkShortLink "/api/recipes/1/" "https://foodgram.example/s/abcd"])))
         <= 1)%nat).
Proof.
  destruct (@get_keeps_links_unique site 1 [0; 1; 2; 3]%nat kitchen
              (set_short_links kitchen
                 [mkShortLink "/api/recipes/1/" "https://foodgram.example/s/abcd"])
              (inr (mkResponse 200 (Dict "short-link" "https://foodgram.example/s/abcd")))
              eq_refl) as [Hshort [Hurl _]].
  split.
  - apply Hshort. constructor.
  - apply Hurl. intros url. simpl. lia.
Defined.

(** ** Creating a recipe *)

(** X16.  A create request with a valid payload stores a recipe keyed by the
    next value of the sequence, authored by the caller and stamped with the
    current time; its line items are exactly the payload's pairs and its
    tags exactly the payload's tags; the recipes, line items and tags that
    were there are untouched.  Valid means accepted by [validate], with
    amounts in the range of the amount column; no stored row refers to the
    key that is handed out. *)
Theorem create_stores_recipe now (user : User) (data : RecipeData) il tl (db : DB) :
  RecipeSerializer.validate data = inr data ->
  data_ingredients data = Some il ->
  data_tags data = Some tl ->
  Forall (fun it => 0 <= amount it <= 32767) il ->
  (forall row, In row (ingredient_list db) -> iir_recipe row <> recipe_seq db) ->
  (forall row, In row (recipe_tags db) -> fst row <> recipe_seq db) ->
  exists db' recipe,
    RecipeViewSet.create now user data db = (db', inr recipe)
    /\ recipe_id recipe = recipe_seq db
    /\ author recipe = Some (user_id user)
    /\ pub_date recipe = now
    /\ data_cooking_time data = Some (cooking_time recipe)
    /\ recipes db' = recipes db ++ [recipe]
    /\ recipe_seq db' = recipe_seq db + 1
    /\ line_items_of db' (recipe_seq db) = map (fun it => (ingredient it, amount it)) il
    /\ Permutation (tags_of db' (recipe_seq db)) tl
    /\ (forall other, other <> recipe_seq db ->
          line_items_of db' other = line_items_of db other
          /\ tags_of db' other = tags_of db other).
Proof.
  intros Hvalid Hi Ht Hrange Hfresh_items Hfresh_tags.
  destruct (@validate_ok_inv data data Hvalid)
    as [_ [il' [tl' [ct [Hi' [_ [Ht' [_ [Hct [_ [Hndt Hndi]]]]]]]]]]].
  rewrite Hi in Hi'. rewrite Ht in Ht'. inversion Hi'. inversion Ht'. subst il' tl'.
  set (seq := recipe_seq db).
  assert (Hins : insert_line_items (ingredient_list db) (line_items_for seq il)
                 = Some (ingredient_list db ++ line_items_for seq il)).
  { apply insert_line_items_fresh; try assumption.
    intros old Hin Hr _. exact (Hfresh_items old Hin Hr). }
  assert (Hno_items : filter (fun row => iir_recipe row =? seq) (ingredient_list db) = []).
  { apply filter_none. intros row Hin. apply Z.eqb_neq. apply Hfresh_items. exact Hin. }
  assert (Hno_tags : filter (fun row : Z * Z => fst row =? seq) (recipe_tags db) = []).
  { apply filter_none. intros row Hin. apply Z.eqb_neq. apply Hfresh_tags. exact Hin. }
  eexists. eexists. split.
  - unfold RecipeViewSet.create. rewrite Hvalid, bind_lift_inr.
    unfold RecipeSerializer.create. apply atomic_commit.
    simpl data_tags. simpl data_ingredients. rewrite Ht, Hi. simpl getitem.
    rewrite !bind_lift_inr.
    unfold RecipeSerializer.Recipe_objects_create, tags_set,
      RecipeSerializer.create_ingredients, bulk_create, modify, bind, ret.
    simpl data_cooking_time. rewrite Hct. simpl.
    fold seq. fold (line_items_for seq il). rewrite Hins. reflexivity.
  - simpl. repeat split; try reflexivity.
    + exact Hct.
    + unfold line_items_of. simpl. rewrite filter_app.
      fold seq. rewrite Hno_items, line_items_for_recipe. simpl.
      apply line_items_for_pairs.
    + unfold tags_of. simpl. fold seq. apply NoDup_Permutation.
      * apply set_rows_NoDup. rewrite Hno_tags. constructor.
      * exact Hndt.
      * intros t. apply set_rows_exactly.
    + unfold line_items_of. simpl. rewrite filter_app.
      fold seq. rewrite line_items_for_other by assumption.
      rewrite app_nil_r. reflexivity.
    + unfold tags_of. simpl. fold seq. rewrite set_rows_other by assumption. reflexivity.
Qed.

Lemma create_stores_recipe_witness :
  exists db' recipe,
    RecipeViewSet.create 1 alice (payload (Some [item 10 200]) (Some [5]) (Some 20)) two_users
      = (db', inr recipe)
    /\ recipe_id recipe = 1
    /\ author recipe = Some 1
    /\ pub_date recipe = 1
    /\ Some 20 = Some (cooking_time recipe)
    /\ recipes db' = [recipe]
    /\ recipe_seq db' = 2
    /\ line_items_of db' 1 = [(10, 200)]
    /\ Permutation (tags_of db' 1) [5]
    /\ (forall other, other <> 1 ->
          line_items_of db' other = line_items_of two_users other
          /\ tags_of db' other = tags_of two_users other).
Proof.
  assert (Hrange : Forall (fun it => 0 <= amount it <= 32767) [item 10 200]).
  { constructor; [simpl; lia | constructor]. }
  exact (@create_stores_recipe 1 alice
           (payload (Some [item 10 200]) (Some [5]) (Some 20)) [item 10 200] [5] two_users
           eq_refl eq_refl eq_refl Hrange
           (fun row (H : In row []) => match H with end)
           (fun row (H : In row []) => match H with end)).
Defined.

(** ** What [validate] can and cannot answer *)



(** ** What an update writes to the recipe row *)

Lemma find_recipe_exists (db : DB) (pk : Z) (r : Recipe) :
  find_recipe db pk = Some r ->
  existsb (fun x => recipe_id x =? recipe_id r) (recipes db) = true.
Proof.
  intros Hfind. pose proof (@find_recipe_id db pk r Hfind) as Hid.
  unfold find_recipe in Hfind. apply find_some in Hfind. destruct Hfind as [Hin _].
  apply existsb_exists. exists r. split; [exact Hin | apply Z.eqb_refl].
Qed.

(** The database and the row that a successful [RecipeSerializer.update]
    leaves. *)
Lemma update_result now (instance : Recipe) (data : RecipeData) il tl (db : DB) :
  data_ingredients data = Some il ->
  data_tags data = Some tl ->
  NoDup (map ingredient il) ->
  Forall (fun it => 0 <= amount it <= 32767) il ->
  existsb (fun x => recipe_id x =? recipe_id instance) (recipes db) = true ->
  let saved :=
    mkRecipe (recipe_id instance)
             (match data_author data with Some a => Some a | None => author instance end)
             (match data_name data with Some v => v | None => name instance end)
             (match data_image data with Some v => v | None => image instance end)
             (match data_text data with Some v => v | None => text instance end)
             (match data_cooking_time data with
              | Some v => v
              | None => cooking_time instance
              end)
             now in
  let kept := filter (fun row => negb (iir_recipe row =? recipe_id instance))
                     (ingredient_list db) in
  RecipeSerializer.update now instance data db
    = (set_recipes
         (set_ingredient_list
            (set_recipe_tags (set_ingredient_list db kept)
               (set_rows (recipe_id instance) tl (recipe_tags db)))
            (kept ++ line_items_for (recipe_id instance) il))
         (map (fun r => if recipe_id r =? recipe_id instance then saved else r)
              (recipes db))
         (recipe_seq db),
       inr saved).
Proof.
  intros Hi Ht Hnd Hrange Hexists saved kept.
  unfold RecipeSerializer.update.
  assert (Hins : insert_line_items kept (line_items_for (recipe_id instance) il)
                 = Some (kept ++ line_items_for (recipe_id instance) il)).
  { apply insert_line_items_fresh; try assumption.
    intros old Hin Hr _. unfold kept in Hin. apply filter_In in Hin.
    destruct Hin as [_ Hkeep]. apply negb_true_iff, Z.eqb_neq in Hkeep. contradiction. }
  apply atomic_commit.
  rewrite Ht, Hi. simpl getitem. rewrite !bind_lift_inr.
  unfold delete_line_items, tags_set, RecipeSerializer.create_ingredients,
    RecipeSerializer.super_update, RecipeSerializer.save, bulk_create, modify, bind.
  simpl. fold kept. fold (line_items_for (recipe_id instance) il). rewrite Hins.
  simpl. rewrite Hexists. reflexivity.
Qed.

(** X18.  A successful update rewrites one recipe row and no other: the row
    keeps its key and its author, takes every field the payload carries,
    keeps the name, image and text the payload omits, and is stamped with
    the time of the update; the keys of the recipe table, the key sequence,
    and the users, favorites, carts, subscriptions and links are as before.
    The payload is one as the request delivers it, without an author. *)
Theorem update_rewrites_one_row now pk (instance : Recipe) (data : RecipeData) (db : DB) :
  find_recipe db pk = Some instance ->
  RecipeSerializer.validate data = inr data ->
  data_author data = None ->
  (forall il, data_ingredients data = Some il ->
              Forall (fun it => 0 <= amount it <= 32767) il) ->
  exists db' saved,
    RecipeViewSet.update now pk data db = (db', inr saved)
    /\ (recipe_id saved = pk /\ author saved = author instance /\ pub_date saved = now
        /\ data_cooking_time data = Some (cooking_time saved)
        /\ name saved = match data_name data with Some v => v | None => name instance end
        /\ image saved = match data_image data with Some v => v | None => image instance end
        /\ text saved = match data_text data with Some v => v | None => text instance end)
    /\ recipes db' = map (fun r => if recipe_id r =? pk then saved else r) (recipes db)
    /\ map recipe_id (recipes db') = map recipe_id (recipes db)
    /\ recipe_seq db' = recipe_seq db
    /\ (users db' = users db /\ favorites db' = favorites db
        /\ shopping_cart db' = shopping_cart db /\ subscribes db' = subscribes db
        /\ short_links db' = short_links db).
Proof.
  intros Hfind Hvalid Hauthor Hrange.
  pose proof (@find_recipe_id db pk instance Hfind) as Hid.
  destruct (@validate_ok_inv data data Hvalid)
    as [_ [il [tl [ct [Hi [_ [Ht [_ [Hct [_ [_ Hndi]]]]]]]]]]].
  pose proof (@update_result now instance data il tl db Hi Ht Hndi (Hrange il Hi)
                (find_recipe_exists _ _ Hfind)) as Hrun.
  cbv zeta in Hrun. rewrite Hauthor, Hct, Hid in Hrun.
  eexists. eexists. split.
  - unfold RecipeViewSet.update, bind, get_recipe_or_404, lift.
    rewrite Hfind, Hvalid. exact Hrun.
  - simpl. rewrite Hct. repeat split; try reflexivity.
    rewrite map_map. apply map_ext. intros r.
    destruct (recipe_id r =? pk) eqn:Hr; [| reflexivity].
    apply Z.eqb_eq in Hr. simpl. congruence.
Qed.

Lemma update_rewrites_one_row_witness :
  exists db' saved,
    RecipeViewSet.update 100 1
      (mkRecipeData (Some [item 12 3]) (Some [6]) (Some 25) None None (Some "Flip."%string) None)
      kitchen = (db', inr saved)
    /\ (recipe_id saved = 1 /\ author saved = author pancakes /\ pub_date saved = 100
        /\ Some 25 = Some (cooking_time saved)
        /\ name saved = name pancakes
        /\ image saved = image pancakes
        /\ text saved = "Flip."%string)
    /\ recipes db' = map (fun r => if recipe_id r =? 1 then saved else r) (recipes kitchen)
    /\ map recipe_id (recipes db') = map recipe_id (recipes kitchen)
    /\ recipe_seq db' = recipe_seq kitchen
    /\ (users db' = users kitchen /\ favorites db' = favorites kitchen
        /\ shopping_cart db' = shopping_cart kitchen /\ subscribes db' = subscribes kitchen
        /\ short_links db' = short_links kitchen).
Proof.
  apply (@update_rewrites_one_row 100 1 pancakes
           (mkRecipeData (Some [item 12 3]) (Some [6]) (Some 25) None None (Some "Flip."%string) None)
           kitchen eq_refl eq_refl eq_refl).
  intros il Hil. injection Hil as <-. constructor; [simpl; lia | constructor].
Defined.

(** ** The constraints of the line-item table *)

Lemma insert_line_items_wf :
  forall rows table table',
    insert_line_items table rows = Some table' ->
    line_items_table_wf table -> line_items_table_wf table'.
Proof.
  induction rows as [| row rows IH]; simpl; intros table table' Hins Hwf.
  - inversion Hins. subst. exact Hwf.
  - destruct (line_item_admissible table row) eqn:Hadm; [| discriminate].
    apply (IH _ _ Hins). clear IH Hins.
    unfold line_item_admissible in Hadm.
    apply andb_true_iff in Hadm. destruct Hadm as [Hadm Hhi].
    apply andb_true_iff in Hadm. destruct Hadm as [Hnew Hlo].
    apply negb_true_iff in Hnew. apply Z.leb_le in Hlo. apply Z.leb_le in Hhi.
    destruct Hwf as [Hnd Hrange]. split.
    + rewrite map_app. simpl.
      apply NoDup_app; [exact Hnd | constructor; [intros [] | constructor] |].
      intros pair Hin [<- | []]. apply in_map_iff in Hin.
      destruct Hin as [old [Hold Hin]]. inversion Hold.
      apply not_true_iff_false in Hnew. apply Hnew.
      apply existsb_exists. exists old. split; [exact Hin |].
      apply andb_true_iff. split; apply Z.eqb_eq; assumption.
    + apply Forall_app. split; [exact Hrange |]. constructor; [lia | constructor].
Qed.

Lemma filter_line_items_wf (p : IngredientInRecipe -> bool) (table : list IngredientInRecipe) :
  line_items_table_wf table -> line_items_table_wf (filter p table).
Proof.
  intros [Hnd Hrange]. split.
  - apply filter_keeps_keys_distinct. exact Hnd.
  - apply Forall_forall. intros row Hin. apply filter_In in Hin.
    rewrite Forall_forall in Hrange. apply Hrange. tauto.
Qed.

Lemma serializer_update_line_items now instance data db db' saved :
  RecipeSerializer.update now instance data db = (db', inr saved) ->
  exists rows,
    insert_line_items
      (filter (fun row => negb (iir_recipe row =? recipe_id instance)) (ingredient_list db))
      rows = Some (ingredient_list db').
Proof.
  unfold RecipeSerializer.update, atomic, bind, lift, getitem, delete_line_items,
    tags_set, RecipeSerializer.create_ingredients, RecipeSerializer.super_update,
    RecipeSerializer.save, bulk_create, modify.
  destruct (data_tags data) as [tl |]; [| discriminate].
  destruct (data_ingredients data) as [il |]; [| discriminate].
  simpl.
  destruct (insert_line_items _ _) as [table |] eqn:Hins; [| discriminate].
  simpl. intros H. injection H as <- _. simpl. eexists. exact Hins.
Qed.

Lemma serializer_create_line_items now data db db' saved :
  RecipeSerializer.create now data db = (db', inr saved) ->
  exists rows,
    insert_line_items (ingredient_list db) rows = Some (ingredient_list db').
Proof.
  unfold RecipeSerializer.create, atomic, bind, lift, getitem,
    RecipeSerializer.Recipe_objects_create, tags_set,
    RecipeSerializer.create_ingredients, bulk_create, modify, ret.
  destruct (data_tags data) as [tl |]; [| discriminate].
  destruct (data_ingredients data) as [il |]; [| discriminate].
  destruct (data_cooking_time data) as [ct |]; [| discriminate].
  simpl.
  destruct (insert_line_items _ _) as [table |] eqn:Hins; [| discriminate].
  simpl. intros H. injection H as <- _. simpl. eexists. exact Hins.
Qed.

Lemma create_request_rollback now user data db db' e :
  RecipeViewSet.create now user data db = (db', inl e) -> db' = db.
Proof.
  unfold RecipeViewSet.create, bind, lift.
  destruct (RecipeSerializer.validate data) as [e' | validated];
    [intros H; inversion H; reflexivity |].
  unfold RecipeSerializer.create. apply atomic_rollback.
Qed.

(** X19.  The write pipeline keeps the line-item table within its
    constraints: after any create or update request, valid or not, committed
    or rolled back, no (recipe, ingredient) pair is stored twice and every
    stored amount is in the range of the column, provided this held
    before. *)
Theorem write_pipeline_keeps_line_items_wf now (user : User) pk (data : RecipeData) (db : DB) :
  line_items_table_wf (ingredient_list db) ->
  line_items_table_wf (ingredient_list (fst (RecipeViewSet.update now pk data db)))
  /\ line_items_table_wf (ingredient_list (fst (RecipeViewSet.create now user data db))).
Proof.
  intros Hwf. split.
  - destruct (RecipeViewSet.update now pk data db) as [db' [e | saved]] eqn:Hrun.
    + rewrite (update_request_rollback _ _ _ _ Hrun). exact Hwf.
    + simpl. unfold RecipeViewSet.update, bind, get_recipe_or_404, lift in Hrun.
      destruct (find_recipe db pk) as [instance |]; [| discriminate].
      destruct (RecipeSerializer.validate data) as [e | validated]; [discriminate |].
      destruct (serializer_update_line_items _ _ _ _ Hrun) as [rows Hins].
      apply (@insert_line_items_wf rows _ _ Hins). apply filter_line_items_wf. exact Hwf.
  - destruct (RecipeViewSet.create now user data db) as [db' [e | saved]] eqn:Hrun.
    + rewrite (create_request_rollback _ _ _ _ Hrun). exact Hwf.
    + simpl. unfold RecipeViewSet.create, bind, lift in Hrun.
      destruct (RecipeSerializer.validate data) as [e | validated]; [discriminate |].
      destruct (serializer_create_line_items _ _ _ Hrun) as [rows Hins].
      apply (@insert_line_items_wf rows _ _ Hins). exact Hwf.
Qed.

Lemma write_pipeline_keeps_line_items_wf_witness :
  line_items_table_wf
    (ingredient_list
       (fst (RecipeViewSet.update 100 1
               (payload (Some [item 12 3]) (Some [6]) (Some 10)) kitchen)))
  /\ line_items_table_wf
       (ingredient_list
          (fst (RecipeViewSet.create 100 alice
                  (payload (Some [item 12 3]) (Some [6]) (Some 10)) kitchen))).
Proof.
  apply (write_pipeline_keeps_line_items_wf 100 alice 1
           (payload (Some [item 12 3]) (Some [6]) (Some 10)) kitchen).
  split.
  - simpl. repeat (constructor; [simpl; intuition discriminate |]). constructor.
  - simpl. repeat (constructor; [simpl; lia |]). constructor.
Defined.

(** ** The recipe listing *)

(** X20.  The recipe listing holds every stored recipe exactly as often as
    it is stored, ordered by [pub_date] from latest to earliest; in
    particular no stored recipe has a later [pub_date] than the first
    entry. *)
Theorem recipe_listing_sorted (db : DB) :
  Permutation (RecipeViewSet.queryset db) (recipes db)
  /\ StronglySorted (fun a b => pub_date b <= pub_date a) (RecipeViewSet.queryset db)
  /\ (forall first rest r,
        RecipeViewSet.queryset db = first :: rest ->
        In r (recipes db) -> pub_date r <= pub_date first).
Proof.
  destruct (queryset_by_pub_date db) as [Hsorted Hperm].
  assert (Hstrong : StronglySorted (fun a b => pub_date b <= pub_date a)
                                   (RecipeViewSet.queryset db)).
  { apply Sorted_StronglySorted; [| exact Hsorted].
    intros a b c Hab Hbc. lia. }
  split; [exact Hperm | split; [exact Hstrong |]].
  intros first rest r Hlist Hin.
  apply (Permutation_in _ (Permutation_sym Hperm)) in Hin.
  rewrite Hlist in Hin, Hstrong. inversion Hstrong as [| ? ? _ Hall]; subst.
  destruct Hin as [<- | Hin]; [lia |].
  rewrite Forall_forall in Hall. apply Hall. exact Hin.
Qed.

Lemma recipe_listing_sorted_witness :
  pub_date pancakes <= pub_date bread.
Proof.
  apply (proj2 (proj2 (recipe_listing_sorted kitchen)) bread [pancakes] pancakes).
  - reflexivity.
  - simpl. tauto.
Defined.

(** ** More on the shopping list *)

Lemma add_to_group_sum (k : RecipeViewSet.Key) (a : Z) (groups : list (RecipeViewSet.Key * Z)) :
  fold_right Z.add 0 (map snd (RecipeViewSet.add_to_group k a groups))
    = fold_right Z.add 0 (map snd groups) + a.
Proof.
  induction groups as [| [k0 q] rest IH]; simpl; [lia |].
  destruct (RecipeViewSet.key_eqb k k0); simpl; [lia | rewrite IH; lia].
Qed.

Lemma fold_groups_sum (rows acc : list (RecipeViewSet.Key * Z)) :
  fold_right Z.add 0
    (map snd (fold_left (fun groups row =>
                           RecipeViewSet.add_to_group (fst row) (snd row) groups) rows acc))
    = fold_right Z.add 0 (map snd acc) + fold_right Z.add 0 (map snd rows).
Proof.
  revert acc. induction rows as [| row rows IH]; intros acc; simpl; [lia |].
  rewrite IH, add_to_group_sum. lia.
Qed.

(** X21.  Grouping loses nothing and counts nothing twice: the quantities
    on a user's shopping list add up to the sum of the amounts of the line
    items joined from the user's cart. *)
Theorem shopping_list_conserves_amounts (db : DB) (user : Z) :
  fold_right Z.add 0
    (map snd (RecipeViewSet.annotate_sum (RecipeViewSet.cart_rows db user)))
  = fold_right Z.add 0 (map snd (RecipeViewSet.cart_rows db user)).
Proof.
  unfold RecipeViewSet.annotate_sum. rewrite fold_groups_sum. simpl. reflexivity.
Qed.

Lemma total_for_Permutation (k : RecipeViewSet.Key) (rows rows' : list (RecipeViewSet.Key * Z)) :
  Permutation rows rows' -> total_for k rows = total_for k rows'.
Proof.
  intros Hperm. unfold total_for.
  induction Hperm as [| x l l' _ IH | x y l | l l' l'' _ IH1 _ IH2]; simpl.
  - reflexivity.
  - destruct (RecipeViewSet.key_eqb k (fst x)); simpl; rewrite IH; reflexivity.
  - destruct (RecipeViewSet.key_eqb k (fst y)), (RecipeViewSet.key_eqb k (fst x));
      simpl; lia.
  - congruence.
Qed.

Lemma annotate_sum_In (rows : list (RecipeViewSet.Key * Z)) (k : RecipeViewSet.Key) (q : Z) :
  In (k, q) (RecipeViewSet.annotate_sum rows)
  <-> In k (map fst rows) /\ q = total_for k rows.
Proof.
  destruct (annotate_sum_groups rows) as [_ [Hkeys Hsum]]. split.
  - intros Hin. split; [| apply Hsum; exact Hin].
    apply Hkeys. apply in_map_iff. exists (k, q). split; [reflexivity | exact Hin].
  - intros [Hk ->]. apply Hkeys in Hk. apply in_map_iff in Hk.
    destruct Hk as [[k' q'] [Hfst Hin]]. simpl in Hfst. subst k'.
    rewrite <- (Hsum k q' Hin). exact Hin.
Qed.

Lemma NoDup_map_fst {A B} (l : list (A * B)) : NoDup (map fst l) -> NoDup l.
Proof. apply NoDup_map_inv. Qed.

(** X22.  The lines of a shopping list do not depend on the order in which
    the line items are stored: two databases with the same carts and
    ingredients whose line-item tables are permutations of each other give
    the same lines, up to their order. *)
Theorem shopping_list_order_independent (db1 db2 : DB) (user : Z) :
  Permutation (ingredient_list db1) (ingredient_list db2) ->
  shopping_cart db1 = shopping_cart db2 ->
  ingredients db1 = ingredients db2 ->
  Permutation
    (map RecipeViewSet.shopping_line
         (RecipeViewSet.annotate_sum (RecipeViewSet.cart_rows db1 user)))
    (map RecipeViewSet.shopping_line
         (RecipeViewSet.annotate_sum (RecipeViewSet.cart_rows db2 user))).
Proof.
  intros Hitems Hcart Hing. apply Permutation_map.
  assert (Hrows : Permutation (RecipeViewSet.cart_rows db1 user)
                              (RecipeViewSet.cart_rows db2 user)).
  { unfold RecipeViewSet.cart_rows. rewrite Hcart, Hing.
    apply Permutation_flat_map. exact Hitems. }
  apply NoDup_Permutation.
  - apply NoDup_map_fst. apply annotate_sum_groups.
  - apply NoDup_map_fst. apply annotate_sum_groups.
  - intros [k q]. rewrite !annotate_sum_In.
    rewrite (total_for_Permutation k Hrows). split.
    + intros [Hk Hq]. split; [| exact Hq].
      apply (Permutation_in _ (Permutation_map fst Hrows)). exact Hk.
    + intros [Hk Hq]. split; [| exact Hq].
      apply (Permutation_in _ (Permutation_sym (Permutation_map fst Hrows))). exact Hk.
Qed.

Lemma shopping_list_order_independent_witness :
  Permutation
    (map RecipeViewSet.shopping_line
         (RecipeViewSet.annotate_sum (RecipeViewSet.cart_rows pantry 1)))
    (map RecipeViewSet.shopping_line
         (RecipeViewSet.annotate_sum
            (RecipeViewSet.cart_rows
               (set_ingredient_list pantry (rev (ingredient_list pantry))) 1))).
Proof.
  apply shopping_list_order_independent.
  - simpl. apply Permutation_rev.
  - reflexivity.
  - reflexivity.
Defined.







(** X24.  The helper of [api/utils.py] and the action of the viewset are
    the same function of the user, the date, the database and the order
    [produced] in which the groups come back: same answer, same text, and
    neither writes. *)
Theorem utils_download_same
        (produced : list (RecipeViewSet.Key * Z) -> list (RecipeViewSet.Key * Z))
        (user : User) (today_dmy today_Y : string) (db : DB) :
  utils.download_shopping_cart produced user today_dmy today_Y db
    = RecipeViewSet.download_shopping_cart produced user today_dmy today_Y db
  /\ fst (utils.download_shopping_cart produced user today_dmy today_Y db) = db.
Proof.
  unfold utils.download_shopping_cart, RecipeViewSet.download_shopping_cart, bind, gets.
  destruct (existsb (fun entry => ur_user entry =? user_id user) (shopping_cart db));
    split; reflexivity.
Qed.

(** ** The subscriptions listing *)






(** ** The import of ingredients *)

Lemma create_and_save_appends (name unit : string) (table : list Ingredient) (seq : Z) :
  (forall row, In row table -> ingredient_id row < seq) ->
  load_csv_files.create_and_save name unit (table, seq)
    = (table ++ [mkIngredient seq name unit], seq + 1).
Proof.
  intros Hids. unfold load_csv_files.create_and_save. simpl. f_equal.
  rewrite map_app. simpl. rewrite Z.eqb_refl. f_equal.
  rewrite <- (map_id table) at 2. apply map_ext_in. intros row Hin.
  assert (Hne : (ingredient_id row =? seq) = false).
  { apply Z.eqb_neq. specialize (Hids row Hin). lia. }
  rewrite Hne. reflexivity.
Qed.

Lemma numbered_ids (rows : list (list string)) :
  forall seq row, In row (numbered seq rows) ->
                  seq <= ingredient_id row < seq + Z.of_nat (length rows).
Proof.
  induction rows as [| r rows IH]; intros seq row; simpl; [contradiction |].
  destruct r as [| name [| unit fields]].
  - intros Hin. specialize (IH seq row Hin). lia.
  - intros Hin. specialize (IH seq row Hin). lia.
  - intros [<- | Hin]; [simpl; lia |]. specialize (IH (seq + 1) row Hin). lia.
Qed.

Lemma import_rows_good (rows : list (list string)) :
  forall table seq rest,
    Forall (fun row => (2 <= length row)%nat) rows ->
    (forall row, In row table -> ingredient_id row < seq) ->
    load_csv_files.import_rows (rows ++ rest) (table, seq)
      = load_csv_files.import_rows rest
          (table ++ numbered seq rows, seq + Z.of_nat (length rows))
      /\ (forall row, In row (table ++ numbered seq rows) ->
                      ingredient_id row < seq + Z.of_nat (length rows)).
Proof.
  induction rows as [| r rows IH]; intros table seq rest Hgood Hids.
  - simpl. rewrite app_nil_r, Z.add_0_r. split; [reflexivity | exact Hids].
  - inversion Hgood as [| ? ? Hr Hgood']; subst.
    destruct r as [| name [| unit fields]]; simpl in Hr; try lia.
    simpl app. cbn [load_csv_files.import_rows numbered].
    rewrite (create_and_save_appends name unit table Hids).
    destruct (IH (table ++ [mkIngredient seq name unit]) (seq + 1) rest Hgood')
      as [Hrun Hids'].
    { intros row Hin. apply in_app_or in Hin. destruct Hin as [Hin | [<- | []]].
      - specialize (Hids row Hin). lia.
      - simpl. lia. }
    rewrite Hrun. rewrite <- !app_assoc in *. simpl app in *. simpl length.
    assert (Hz : seq + 1 + Z.of_nat (length rows) = seq + Z.of_nat (S (length rows)))
      by lia.
    rewrite Hz in *. split; [reflexivity | exact Hids'].
Qed.

Lemma numbered_fields (rows : list (list string)) :
  Forall (fun row => (2 <= length row)%nat) rows ->
  forall seq,
    length (numbered seq rows) = length rows
    /\ map ingredient_name (numbered seq rows)
       = map (fun row => nth 0 row EmptyString) rows
    /\ map measurement_unit (numbered seq rows)
       = map (fun row => nth 1 row EmptyString) rows.
Proof.
  induction 1 as [| r rows Hr _ IH]; intros seq; simpl.
  - repeat split.
  - destruct r as [| name [| unit fields]]; simpl in Hr; try lia.
    destruct (IH (seq + 1)) as [Hlen [Hnames Hunits]].
    simpl. rewrite Hlen, Hnames, Hunits. repeat split.
Qed.

(** X26.  On a file whose data rows all have at least two fields, the
    import drops the header line, whatever it holds, and appends one
    ingredient per data row, in order, named by the first field, with the
    second field as unit, under fresh consecutive keys; fields beyond the
    second are ignored.  Nothing is checked against what is stored: a second
    run of the same file stores every row a second time. *)
Theorem import_ingredients_appends
        (header : list string) (rows : list (list string))
        (table : list Ingredient) (seq : Z) :
  Forall (fun row => (2 <= length row)%nat) rows ->
  (forall row, In row table -> ingredient_id row < seq) ->
  let n := Z.of_nat (length rows) in
  load_csv_files.handle (header :: rows) (table, seq)
    = ((table ++ numbered seq rows, seq + n), None)
  /\ length (numbered seq rows) = length rows
  /\ map ingredient_name (numbered seq rows) = map (fun row => nth 0 row EmptyString) rows
  /\ map measurement_unit (numbered seq rows) = map (fun row => nth 1 row EmptyString) rows
  /\ (forall row, In row (numbered seq rows) -> seq <= ingredient_id row < seq + n)
  /\ load_csv_files.handle (header :: rows) (table ++ numbered seq rows, seq + n)
     = ((table ++ numbered seq rows ++ numbered (seq + n) rows, seq + n + n), None).
Proof.
  intros Hgood Hids n.
  destruct (@import_rows_good rows table seq [] Hgood Hids) as [Hrun Hids'].
  rewrite app_nil_r in Hrun.
  destruct (numbered_fields Hgood seq) as [Hlen [Hnames Hunits]].
  split; [exact Hrun |].
  split; [exact Hlen | split; [exact Hnames | split; [exact Hunits | split]]].
  - apply numbered_ids.
  - destruct (@import_rows_good rows (table ++ numbered seq rows) (seq + n) [] Hgood Hids')
      as [Hrun' _].
    rewrite app_nil_r in Hrun'. unfold load_csv_files.handle, load_csv_files.import_ingredients.
    rewrite Hrun', <- app_assoc. reflexivity.
Qed.

Lemma import_ingredients_appends_witness :
  load_csv_files.handle ingredients_csv ([mkIngredient 10 "Flour" "g"], 11)
    = (([mkIngredient 10 "Flour" "g"; mkIngredient 11 "Flour" "g";
         mkIngredient 12 "Milk" "ml"], 13), None).
Proof.
  apply (@import_ingredients_appends ["name"; "unit"]%string
           [["Flour"; "g"]; ["Milk"; "ml"; "fresh"]]%string
           [mkIngredient 10 "Flour" "g"] 11).
  - repeat constructor.
  - intros row [<- | []]. simpl. lia.
Defined.

(** X27.  The import runs outside any transaction.  A data row with fewer
    than two fields stops it with [IndexError]: the rows before it stay
    stored, the rows after it are never read.  A file without a header line
    stops it with [StopIteration] before anything is stored, and a file with
    only the header line stores nothing. *)
Theorem import_ingredients_stops_at_short_row
        (header bad : list string) (good rest : list (list string))
        (table : list Ingredient) (seq : Z) :
  Forall (fun row => (2 <= length row)%nat) good ->
  (length bad < 2)%nat ->
  (forall row, In row table -> ingredient_id row < seq) ->
  load_csv_files.handle (header :: good ++ bad :: rest) (table, seq)
    = ((table ++ numbered seq good, seq + Z.of_nat (length good)),
       Some load_csv_files.IndexError)
  /\ load_csv_files.handle [] (table, seq)
     = ((table, seq), Some load_csv_files.StopIteration)
  /\ load_csv_files.handle [header] (table, seq) = ((table, seq), None).
Proof.
  intros Hgood Hbad Hids. split; [| split; reflexivity].
  destruct (@import_rows_good good table seq (bad :: rest) Hgood Hids) as [Hrun _].
  unfold load_csv_files.handle, load_csv_files.import_ingredients. rewrite Hrun.
  destruct bad as [| name [| unit fields]]; simpl in Hbad; try lia; reflexivity.
Qed.

Lemma import_ingredients_stops_at_short_row_witness :
  load_csv_files.handle
    [["name"; "unit"]; ["Flour"; "g"]; ["Salt"]; ["Milk"; "ml"]]%string ([], 1)
    = (([mkIngredient 1 "Flour" "g"], 2), Some load_csv_files.IndexError)
  /\ load_csv_files.handle [] ([], 1) = (([], 1), Some load_csv_files.StopIteration)
  /\ load_csv_files.handle [["name"; "unit"]%string] ([], 1) = (([], 1), None).
Proof.
  apply (@import_ingredients_stops_at_short_row ["name"; "unit"]%string ["Salt"]%string
           [["Flour"; "g"]]%string [["Milk"; "ml"]]%string [] 1).
  - repeat constructor.
  - simpl. lia.
  - intros row [].
Defined.
